(** * The reconciliation state machine of the MongoDB Kubernetes operator

    A shallow embedding of [pkg/util/state] (the generic engine: states,
    predicate-guarded transitions, the single-tick [Machine.Reconcile]) and
    of [controllers/mongodb_statemachine.go] (the workflow built on it),
    followed by the properties of the engine and of the bootstrap. *)

From Stdlib Require Import ZArith DecimalString.
From stdpp Require Import base option list strings gmap.

Open Scope Z_scope.

(** ** Shared vocabulary *)

(** A Go [error] is carried by its message; the nil error is [None] in an
    [option error]. *)
Definition error : Type := string.

(** [sigs.k8s.io/controller-runtime/pkg/reconcile]. *)
Module reconcile.

Record Result : Type := mkResult {
  Requeue : bool;
  RequeueAfter : Z            (* a time.Duration, in nanoseconds *)
}.

(** The zero value [reconcile.Result{}]. *)
Definition zero : Result := mkResult false 0.

End reconcile.

(** ** Effects

    The closures of the program (actions, completion checks, guards, the
    saver) act on the outside world: the cluster and the resources stored in
    it.  A computation takes the world and gives a result, or a panic, the
    world it leaves behind and the trace of what it did.  The logger only
    writes diagnostics, so its lines are events of the trace (the message;
    the key and value pairs of [Infow] are not carried), as are the pacing
    sleeps.  Every call the engine makes to a closure is recorded as a
    [Call] event that carries the closure's own trace inside it: the events
    at the top level of a tick's trace are the engine's own steps. *)

Inductive Level : Type := InfoLevel | DebugLevel | ErrorLevel.

Inductive Callee : Type :=
| StateReconcile (name : string)
| StateIsComplete (name : string)
| Predicate (fromName toName : string)
| SaverSaveNextState (stateName : string).

#[local] Set Warnings "-register-all".
Inductive Event : Type :=
| Log (lvl : Level) (msg : string)
| Sleep (seconds : Z)
| Call (c : Callee) (inner : list Event).

Inductive Res (A : Type) : Type :=
| Val (a : A)
| Panic (msg : string).
Arguments Val {A} a.
Arguments Panic {A} msg.

Definition M (World A : Type) : Type := World -> Res A * World * list Event.

Section Monad.
Context {World : Type}.

Definition ret {A} (a : A) : M World A := fun w => (Val a, w, []).

Definition bind {A B} (c : M World A) (k : A -> M World B) : M World B :=
  fun w =>
    match c w with
    | (Val a, w1, t1) => let '(r, w2, t2) := k a w1 in (r, w2, t1 ++ t2)
    | (Panic msg, w1, t1) => (Panic msg, w1, t1)
    end.

Definition panic {A} (msg : string) : M World A := fun w => (Panic msg, w, []).

Definition emit (e : Event) : M World unit := fun w => (Val tt, w, [e]).

Definition Infof (msg : string) : M World unit := emit (Log InfoLevel msg).
Definition Debugf (msg : string) : M World unit := emit (Log DebugLevel msg).
Definition Errorf (msg : string) : M World unit := emit (Log ErrorLevel msg).
Definition time_Sleep (seconds : Z) : M World unit := emit (Sleep seconds).

(** The engine calling one of its closures. *)
Definition call {A} (c : Callee) (f : M World A) : M World A :=
  fun w => let '(r, w1, t) := f w in (r, w1, [Call c t]).

(** The three components of a run. *)
Definition resultOf {A} (x : Res A * World * list Event) : Res A := fst (fst x).
Definition worldOf {A} (x : Res A * World * list Event) : World := snd (fst x).
Definition traceOf {A} (x : Res A * World * list Event) : list Event := snd x.

End Monad.

Declare Scope mon_scope.
Delimit Scope mon_scope with mon.
Notation "'do' x <~ c 'then' k" := (bind c (fun x => k))
  (at level 10, x name, c at level 100, k at level 200) : mon_scope.
Notation "'do' ' p <~ c 'then' k" :=
  (bind c (fun x => match x with p => k end))
  (at level 10, p pattern, c at level 100, k at level 200) : mon_scope.
Notation "'run' c 'then' k" := (bind c (fun _ => k))
  (at level 10, c at level 100, k at level 200) : mon_scope.

(** What the engine itself did during a tick: the guards it evaluated and
    the names it handed to the saver, in order. *)
Definition guardCalls (t : list Event) : list (string * string) :=
  omap (fun e => match e with
                 | Call (Predicate f g) _ => Some (f, g)
                 | _ => None
                 end) t.

Definition saveCalls (t : list Event) : list string :=
  omap (fun e => match e with
                 | Call (SaverSaveNextState n) _ => Some n
                 | _ => None
                 end) t.

Definition actionCalls (t : list Event) : list string :=
  omap (fun e => match e with
                 | Call (StateReconcile n) _ => Some n
                 | _ => None
                 end) t.

(** ** Package [state]: the engine *)

Module state.

Record AllStates : Type := mkAllStates {
  NextState : string;
  StateCompletionStatus : option (gmap string string)   (* nil map: [None] *)
}.

Section Engine.
Context {World : Type}.
Local Open Scope mon_scope.

Record State : Type := mkState {
  Name : string;
  Reconcile : M World (reconcile.Result * option error);
  IsComplete : option (M World (bool * option error))    (* nil: [None] *)
}.

Definition TransitionPredicate : Type := M World bool.

Record transition : Type := mkTransition {
  from : State;
  to : State;
  predicate : TransitionPredicate
}.

(** The [Saver] interface. *)
Record Saver : Type := mkSaver {
  SaveNextState : string -> M World (option error)
}.

Definition FromBool (b : bool) : TransitionPredicate := ret b.

Definition DirectTransition : TransitionPredicate := FromBool true.

Record Machine : Type := mkMachine {
  allTransitions : gmap string (list transition);
  currentState : option State;                           (* nil: [None] *)
  saver : Saver;
  States : gmap string State
}.

Definition NewStateMachine (s : Saver) : Machine :=
  {| allTransitions := ∅; currentState := None; saver := s; States := ∅ |}.

Definition Machine_SetState (m : Machine) (s : State) : Machine :=
  {| allTransitions := allTransitions m;
     currentState := Some s;
     saver := saver m;
     States := States m |}.

Definition Machine_AddTransition (m : Machine) (from0 to0 : State)
    (p : TransitionPredicate) : Machine :=
  let ts := match allTransitions m !! Name from0 with
            | Some l => l
            | None => []
            end in
  {| allTransitions :=
       <[Name from0 := ts ++ [mkTransition from0 to0 p]]> (allTransitions m);
     currentState := currentState m;
     saver := saver m;
     States := <[Name to0 := to0]> (<[Name from0 := from0]> (States m)) |}.

(** The loop of [getTransitionForState] over the transitions of one state. *)
Fixpoint firstAvailable (ts : list transition) : M World (option transition) :=
  match ts with
  | [] => ret None
  | t :: rest =>
      do b <~ call (Predicate (Name (from t)) (Name (to t))) (predicate t) then
      if b then ret (Some t) else firstAvailable rest
  end.

(** A missing key of [allTransitions] reads as the nil slice. *)
Definition Machine_getTransitionForState (m : Machine) (s : State)
    : M World (option transition) :=
  firstAvailable (default [] (allTransitions m !! Name s)).

(** [Machine.Reconcile] from [if isComplete {] to its end; [res] is the
    action's result, and the error in scope is nil there. *)
Definition Reconcile_finish (m : Machine) (cur : State)
    (res : reconcile.Result) (isComplete : bool)
    : M World (reconcile.Result * option error) :=
  if isComplete then
    run Debugf ("Completed state: [" +:+ Name cur +:+ "]") then
    do tr <~ Machine_getTransitionForState m cur then
    let nextState := match tr with
                     | Some t => Name (to t)
                     | None => EmptyString
                     end in
    run (if String.eqb nextState EmptyString then ret tt
         else Debugf ("preparing transition [" +:+ Name cur +:+ "] -> ["
                        +:+ nextState +:+ "]")) then
    run time_Sleep 3 then
    do err <~ call (SaverSaveNextState nextState)
                   (SaveNextState (saver m) nextState) then
    match err with
    | Some e =>
        run Debugf ("Error marking state: [" +:+ Name cur
                      +:+ "] as complete: " +:+ e) then
        ret (reconcile.zero, Some e)
    | None => ret (res, None)
    end
  else
    run Debugf ("State [" +:+ Name cur +:+ "] is not yet complete") then
    ret (res, None).

(** [Machine.Reconcile] from [isComplete := true] on, once the action
    has returned [res] and no error. *)
Definition Reconcile_check (m : Machine) (cur : State)
    (res : reconcile.Result) : M World (reconcile.Result * option error) :=
  match IsComplete cur with
  | None => Reconcile_finish m cur res true
  | Some check =>
      do '(isComplete, err) <~ call (StateIsComplete (Name cur)) check then
      match err with
      | Some e =>
          run Debugf ("Error determining if state [" +:+ Name cur
                        +:+ "] is complete: " +:+ e) then
          ret (reconcile.zero, Some e)
      | None => Reconcile_finish m cur res isComplete
      end
  end.

Definition Machine_Reconcile (m : Machine)
    : M World (reconcile.Result * option error) :=
  match currentState m with
  | None => panic "no current state!"
  | Some cur =>
      run Infof ("Reconciling state: [" +:+ Name cur +:+ "]") then
      run time_Sleep 2 then
      do '(res, err) <~ call (StateReconcile (Name cur)) (Reconcile cur) then
      match err with
      | Some e =>
          run Debugf ("Error reconciling state [" +:+ Name cur +:+ "]: "
                        +:+ e) then
          ret (res, Some e)
      | None => Reconcile_check m cur res
      end
  end.

(** *** Specification vocabulary *)

(** The name a resolved transition stands for: the target's name, or the
    empty sentinel when there is none. *)
Definition nextStateName (tr : option transition) : string :=
  match tr with
  | Some t => Name (to t)
  | None => EmptyString
  end.

(** [allFalse ts w w' t]: evaluated one after the other from world [w], the
    guards of [ts] all answer false, leaving world [w'] and the trace [t]. *)
Inductive allFalse : list transition -> World -> World -> list Event -> Prop :=
| allFalse_nil w : allFalse [] w w []
| allFalse_cons t ts w w1 w2 t1 t2 :
    predicate t w = (Val false, w1, t1) ->
    allFalse ts w1 w2 t2 ->
    allFalse (t :: ts) w w2
             (Call (Predicate (Name (from t)) (Name (to t))) t1 :: t2).

(** [firstTrue xs w o w' t]: scanning [xs] in order from world [w] stops at
    the first guard that answers true, whatever stands behind it, and gives
    that transition; when every guard answers false it gives none. *)
Inductive firstTrue : list transition -> World -> option transition ->
                      World -> list Event -> Prop :=
| firstTrue_found pre x post w w1 t1 w2 tx :
    allFalse pre w w1 t1 ->
    predicate x w1 = (Val true, w2, tx) ->
    firstTrue (pre ++ x :: post) w (Some x) w2
              (t1 ++ [Call (Predicate (Name (from x)) (Name (to x))) tx])
| firstTrue_none xs w w1 t1 :
    allFalse xs w w1 t1 ->
    firstTrue xs w None w1 t1.

(** The endpoints of a transition, as the trace names its guard. *)
Definition endpoints (x : transition) : string * string :=
  (Name (from x), Name (to x)).

(** The registry invariant: every transition is filed under its source's
    name, and both its endpoints are names of the registry. *)
Definition wellFormed (m : Machine) : Prop :=
  forall (k : string) (ts : list transition) (t : transition),
    allTransitions m !! k = Some ts -> t ∈ ts ->
    Name (from t) = k /\
    is_Some (States m !! Name (from t)) /\ is_Some (States m !! Name (to t)).

(** The machines the package can produce. *)
Inductive built : Machine -> Prop :=
| built_new s : built (NewStateMachine s)
| built_add m f t p : built m -> built (Machine_AddTransition m f t p)
| built_set m s : built m -> built (Machine_SetState m s).

(** The opening of every tick that has a current state. *)
Definition tickPrelude (cur : State) (inner : list Event) : list Event :=
  [ Log InfoLevel ("Reconciling state: [" +:+ Name cur +:+ "]");
    Sleep 2;
    Call (StateReconcile (Name cur)) inner ].

(** The part of a tick's trace that follows a complete state: the guards
    evaluated, the announcement of a non-empty target, the pacing sleep, the
    call of the saver and the report of its error. *)
Definition finishTrace (cur : State) (guards : list Event) (next : string)
    (saveInner : list Event) (saved : Res (option error)) : list Event :=
  Log DebugLevel ("Completed state: [" +:+ Name cur +:+ "]") :: guards
  ++ (if String.eqb next EmptyString then []
      else [Log DebugLevel ("preparing transition [" +:+ Name cur +:+ "] -> ["
                              +:+ next +:+ "]")])
  ++ [Sleep 3; Call (SaverSaveNextState next) saveInner]
  ++ match saved with
     | Val (Some e) =>
         [Log DebugLevel ("Error marking state: [" +:+ Name cur
                            +:+ "] as complete: " +:+ e)]
     | _ => []
     end.

(** What a tick returns once the saver has answered. *)
Definition finishResult (res : reconcile.Result) (saved : Res (option error))
    : Res (reconcile.Result * option error) :=
  match saved with
  | Val None => Val (res, None)
  | Val (Some e) => Val (reconcile.zero, Some e)
  | Panic msg => Panic msg
  end.

(** [completes cur w w' t]: from world [w] the state [cur] is found complete,
    either for want of a completion check or because its check answers
    true without error, leaving world [w'] and the trace [t]. *)
Inductive completes (cur : State) : World -> World -> list Event -> Prop :=
| completes_no_check w :
    IsComplete cur = None -> completes cur w w []
| completes_check check w w1 t1 :
    IsComplete cur = Some check ->
    check w = (Val (true, None), w1, t1) ->
    completes cur w w1 [Call (StateIsComplete (Name cur)) t1].

(** A registry that is true to the graph: under the name of each endpoint
    of each transition it holds that very state. *)
Definition faithful (m : Machine) : Prop :=
  forall (k : string) (ts : list transition) (t : transition),
    allTransitions m !! k = Some ts -> t ∈ ts ->
    States m !! Name (from t) = Some (from t) /\
    States m !! Name (to t) = Some (to t).

(** A run of [AddTransition] calls, one after the other. *)
Definition AddTransitions (m : Machine)
    (calls : list (State * State * TransitionPredicate)) : Machine :=
  fold_left (fun acc c => Machine_AddTransition acc c.1.1 c.1.2 c.2) calls m.

(** The calls of a run that start at the state named [k], as transitions. *)
Definition transitionsFrom (k : string)
    (calls : list (State * State * TransitionPredicate)) : list transition :=
  map (fun c => mkTransition c.1.1 c.1.2 c.2)
      (List.filter (fun c => String.eqb (Name c.1.1) k) calls).

(** The first of a list of transitions whose flag is set. *)
Fixpoint firstFlagged (xs : list transition) (flags : list bool)
    : option transition :=
  match xs, flags with
  | x :: xs', b :: flags' => if b then Some x else firstFlagged xs' flags'
  | _, _ => None
  end.

(** The endpoints a run of calls registers, in the order of registration:
    of each call first its source, then its target. *)
Definition registered (calls : list (State * State * TransitionPredicate))
    : list State :=
  flat_map (fun c => [c.1.1; c.1.2]) calls.

(** The last state of a list that bears the name [k]. *)
Fixpoint lastNamed (k : string) (l : list State) : option State :=
  match l with
  | [] => None
  | s :: rest =>
      match lastNamed k rest with
      | Some s' => Some s'
      | None => if String.eqb (Name s) k then Some s else None
      end
  end.

(** The name that resolution from [cur] gives, when it returns. *)
Definition resolvedName (m : Machine) (cur : State) (w : World)
    : option string :=
  match resultOf (Machine_getTransitionForState m cur w) with
  | Val o => Some (nextStateName o)
  | Panic _ => None
  end.

End Engine.

Arguments State : clear implicits.
Arguments transition : clear implicits.
Arguments Saver : clear implicits.
Arguments Machine : clear implicits.
Arguments TransitionPredicate : clear implicits.

End state.

(** ** Package [controllers]: the workflow of a MongoDBCommunity resource *)

(** [k8s.io/apimachinery/pkg/types]. *)
Module types.
Record NamespacedName : Type := mkNamespacedName {
  Namespace : string;
  Name : string
}.
End types.

(** The severities of a status message. *)
Module severity.
Inductive t : Type := Error | Warn | Info | None.
End severity.

(** The options that [statusOptions()] collects, in the order of the
    [with...] calls. *)
Inductive statusOption : Type :=
| withMessage (sev : severity.t) (msg : string)
| withFailedPhase
| withPendingPhase (retryAfter : Z)
| withRunningPhase
| withMongoURI (uri : string)
| withMongoDBMembers (members : Z)
| withStatefulSetReplicas (replicas : Z).

(** The name of a StatefulSet update strategy, a string in [apps/v1]. *)
Module appsv1.
Definition RollingUpdateStatefulSetStrategyType : string := "RollingUpdate".
Definition OnDeleteStatefulSetStrategyType : string := "OnDelete".
End appsv1.

(** [%d] of [fmt.Sprintf]. *)
Definition fmt_d (n : Z) : string := NilZero.string_of_int (Z.to_int n).

Module controllers.
Import state.

Section Workflow.
Context {World : Type}.
(** Types of the API and of the other packages, of which this file uses
    only what is named below. *)
Context {MongoDBCommunitySpec MongoDBCommunityStatus : Type}.
Context {StatefulSet Service AutomationConfig ResourceWatcher : Type}.
Local Open Scope mon_scope.

(** [mdbv1.MongoDBCommunity]: the fields this file reads or writes.  A nil
    [Annotations] map is [None]. *)
Record MongoDBCommunity : Type := mkMongoDBCommunity {
  Namespace : string;
  Annotations : option (gmap string string);
  Spec : MongoDBCommunitySpec;
  Status : MongoDBCommunityStatus
}.

(** The methods of [kubernetesClient.Client] this file calls.  The status
    writer of [client.Status()] is reached through the client. *)
Record Client : Type := mkClient {
  Create : Service -> M World (option error);
  Update : MongoDBCommunity -> M World (option error);
  GetService : types.NamespacedName -> M World (Service * option error);
  GetStatefulSet : types.NamespacedName -> M World (StatefulSet * option error)
}.

(** What this file takes from the rest of the repository and from its
    libraries.  A function that is handed [&mdb] and after which the caller
    reads [mdb] again gives the resource back as it leaves it. *)
Class Externals : Type := {
  (* api/v1 *)
  TLSEnabled : MongoDBCommunitySpec -> bool;  (* Spec.Security.TLS.Enabled *)
  NamespacedName : MongoDBCommunity -> types.NamespacedName;
  ServiceName : MongoDBCommunity -> string;
  MongoURI : MongoDBCommunity -> string;
  AutomationConfigMembersThisReconciliation : MongoDBCommunity -> Z;
  StatefulSetReplicasThisReconciliation : MongoDBCommunity -> Z;
  CurrentReplicas : MongoDBCommunity -> Z;
  DesiredReplicas : MongoDBCommunity -> Z;
  IsChangingVersion : MongoDBCommunity -> bool;
  (* apps/v1, core/v1, the automation config *)
  UpdateStrategyType : StatefulSet -> string;  (* Spec.UpdateStrategy.Type *)
  ServiceNamespace : Service -> string;
  ServiceObjectName : Service -> string;
  Version : AutomationConfig -> Z;
  (* k8s.io/apimachinery/pkg/api/errors *)
  apiErrors_IsNotFound : error -> bool;
  apiErrors_IsAlreadyExists : error -> bool;
  (* encoding/json *)
  json_Marshal : AllStates -> string * option error;
  (* pkg/util/result *)
  result_OK : reconcile.Result * option error;
  result_Retry : Z -> reconcile.Result * option error;
  (* pkg/util/scale *)
  scale_IsStillScaling : MongoDBCommunity -> bool;
  (* pkg/util/status *)
  status_Update : Client -> MongoDBCommunity -> list statusOption ->
                  M World (MongoDBCommunity * (reconcile.Result * option error));
  (* pkg/kube/statefulset *)
  statefulset_ResetUpdateStrategy : MongoDBCommunity -> Client ->
                                    M World (option error);
  statefulset_IsReady : StatefulSet -> Z -> bool;
  (* pkg/agent *)
  agent_AllReachedGoalState : StatefulSet -> Client -> Z -> Z ->
                              M World (bool * option error);
  (* pkg/kube/annotations *)
  annotations_UpdateLastAppliedMongoDBVersion :
    MongoDBCommunity -> Client -> M World (MongoDBCommunity * option error);
  (* package controllers, other files *)
  MongoDBCommunityCompleter : types.NamespacedName -> Client -> Saver World;
  getLastStateName : MongoDBCommunity -> string * option error;
  needToPublishStateFirst : Client -> MongoDBCommunity -> M World bool;
  validateUpdate : MongoDBCommunity -> M World (option error);
  buildService : MongoDBCommunity -> Service;
  validateTLSConfig : Client -> MongoDBCommunity -> ResourceWatcher ->
                      M World (bool * option error);
  ensureTLSResources : Client -> MongoDBCommunity -> M World (option error);
  deployAutomationConfig : Client -> MongoDBCommunity ->
                           M World (bool * option error);
  deployStatefulSet : Client -> MongoDBCommunity ->
                      M World (bool * option error);
  ensureAutomationConfig : Client -> MongoDBCommunity ->
                           M World (AutomationConfig * option error);
  updateLastSuccessfulConfiguration : Client -> MongoDBCommunity ->
                                      M World (option error)
}.

Context `{Externals}.

Definition stateMachineAnnotation : string := "mongodb.com/v1.stateMachine".

Definition completeAnnotation : string := "complete".

Definition startFreshStateName : string := "StartFresh".
Definition validateSpecStateName : string := "ValidateSpec".
Definition createServiceStateName : string := "CreateService".
Definition tlsValidationStateName : string := "TLSValidation".
Definition tlsResourcesStateName : string := "CreateTLSResources".
Definition deployAutomationConfigStateName : string := "DeployAutomationConfig".
Definition deployStatefulSetStateName : string := "DeployStatefulSet".
Definition resetStatefulSetUpdateStrategyStateName : string :=
  "ResetStatefulSetUpdateStrategy".
Definition reconciliationEndState : string := "ReconciliationEnd".
Definition updateStatusState : string := "UpdateStatus".

(** The guards of this file are closures that return [(b, nil)]; the engine
    asks a guard for its boolean. *)
Definition noCondition : TransitionPredicate World := ret true.

(** [status.Update(client.Status(), &mdb, ...)] as the last step of a
    closure: its result is the closure's result. *)
Definition returnStatusUpdate (client : Client) (mdb : MongoDBCommunity)
    (opts : list statusOption) : M World (reconcile.Result * option error) :=
  do '(_, r) <~ status_Update client mdb opts then ret r.

Definition newAllStates : AllStates :=
  {| NextState := startFreshStateName; StateCompletionStatus := None |}.

Definition ensureService (client : Client) (mdb : MongoDBCommunity)
    : M World (option error) :=
  let svc := buildService mdb in
  do err <~ Create client svc then
  match err with
  | None =>
      run Infof ("Created service " +:+ ServiceNamespace svc +:+ "/"
                   +:+ ServiceObjectName svc) then
      ret None
  | Some e =>
      if apiErrors_IsAlreadyExists e then
        run Infof ("The service already exists... moving forward: " +:+ e) then
        ret None
      else ret (Some e)
  end.

Definition NewStartFreshState (mdb : MongoDBCommunity) : State World :=
  {| Name := startFreshStateName;
     Reconcile :=
       run Infof "Reconciling MongoDB" then
       ret (result_Retry 0);
     IsComplete := None |}.

Definition NewValidateSpecState (client : Client) (mdb : MongoDBCommunity)
    : State World :=
  {| Name := validateSpecStateName;
     Reconcile :=
       run Debugf "Validating MongoDB.Spec" then
       do err <~ validateUpdate mdb then
       match err with
       | Some e =>
           returnStatusUpdate client mdb
             [withMessage severity.Error ("error validating new Spec: " +:+ e);
              withFailedPhase]
       | None => ret (result_Retry 0)
       end;
     IsComplete := None |}.

Definition NewResetStatefulSetUpdateStrategyState (client : Client)
    (mdb : MongoDBCommunity) : State World :=
  {| Name := resetStatefulSetUpdateStrategyStateName;
     Reconcile :=
       do err <~ statefulset_ResetUpdateStrategy mdb client then
       match err with
       | Some e =>
           returnStatusUpdate client mdb
             [withMessage severity.Error
                ("Error resetting StatefulSet UpdateStrategyType: " +:+ e);
              withFailedPhase]
       | None => ret (result_Retry 0)
       end;
     IsComplete := Some (
       do '(sts, err) <~ GetStatefulSet client (NamespacedName mdb) then
       match err with
       | Some e => ret (false, Some e)
       | None =>
           ret (String.eqb (UpdateStrategyType sts)
                  appsv1.RollingUpdateStatefulSetStrategyType, None)
       end) |}.

Definition NewUpdateStatusState (client : Client) (mdb : MongoDBCommunity)
    : State World :=
  {| Name := updateStatusState;
     Reconcile :=
       if scale_IsStillScaling mdb then
         returnStatusUpdate client mdb
           [withMongoDBMembers (AutomationConfigMembersThisReconciliation mdb);
            withMessage severity.Info
              ("Performing scaling operation, currentMembers="
                 +:+ fmt_d (CurrentReplicas mdb) +:+ ", desiredMembers="
                 +:+ fmt_d (DesiredReplicas mdb));
            withStatefulSetReplicas (StatefulSetReplicasThisReconciliation mdb);
            withPendingPhase 10]
       else
         do '(mdb1, (res, err)) <~
            status_Update client mdb
              [withMongoURI (MongoURI mdb);
               withMongoDBMembers (AutomationConfigMembersThisReconciliation mdb);
               withStatefulSetReplicas
                 (StatefulSetReplicasThisReconciliation mdb);
               withMessage severity.None EmptyString;
               withRunningPhase] then
         match err with
         | Some e =>
             run Errorf ("Error updating the status of the MongoDB resource: "
                           +:+ e) then
             ret (res, Some e)
         | None =>
             (* the last version will be duplicated in two annotations *)
             do '(mdb2, err) <~
                annotations_UpdateLastAppliedMongoDBVersion mdb1 client then
             run match err with
                 | Some e =>
                     Errorf ("Could not save current version as an annotation: "
                               +:+ e)
                 | None => ret tt
                 end then
             do err <~ updateLastSuccessfulConfiguration client mdb2 then
             run match err with
                 | Some e =>
                     Errorf ("Could not save current spec as an annotation: "
                               +:+ e)
                 | None => ret tt
                 end then
             ret (result_Retry 0)
         end;
     IsComplete := None |}.

Definition NewCreateServiceState (client : Client) (mdb : MongoDBCommunity)
    : State World :=
  {| Name := createServiceStateName;
     Reconcile :=
       run Debugf "Ensuring the service exists" then
       do err <~ ensureService client mdb then
       match err with
       | Some e =>
           returnStatusUpdate client mdb
             [withMessage severity.Error
                ("Error ensuring the service exists: " +:+ e);
              withFailedPhase]
       | None => ret (result_Retry 0)
       end;
     IsComplete := Some (
       do '(_, err) <~
          GetService client
            {| types.Name := ServiceName mdb;
               types.Namespace := Namespace mdb |} then
       ret (match err with None => true | Some _ => false end, err)) |}.

Definition NewEnsureTLSResourcesState (client : Client)
    (mdb : MongoDBCommunity) : State World :=
  {| Name := tlsResourcesStateName;
     Reconcile :=
       do err <~ ensureTLSResources client mdb then
       match err with
       | Some e =>
           returnStatusUpdate client mdb
             [withMessage severity.Error
                ("Error ensuring TLS resources: " +:+ e);
              withFailedPhase]
       | None => ret (result_Retry 0)
       end;
     IsComplete := None |}.

Definition NewDeployAutomationConfigState (client : Client)
    (mdb : MongoDBCommunity) : State World :=
  {| Name := deployAutomationConfigStateName;
     Reconcile :=
       do '(ready, err) <~ deployAutomationConfig client mdb then
       match err with
       | Some e =>
           returnStatusUpdate client mdb
             [withMessage severity.Error
                ("Error deploying Automation Config: " +:+ e);
              withFailedPhase]
       | None =>
           if negb ready then
             returnStatusUpdate client mdb
               [withMessage severity.Info
                  "MongoDB agents are not yet ready, retrying in 10 seconds";
                withPendingPhase 10]
           else ret (result_Retry 0)
       end;
     IsComplete := Some (
       do '(sts, err) <~ GetStatefulSet client (NamespacedName mdb) then
       let next :=
         do '(ac, err) <~ ensureAutomationConfig client mdb then
         match err with
         | Some e =>
             ret (false, Some ("failed to ensure AutomationConfig: " +:+ e))
         | None =>
             agent_AllReachedGoalState sts client
               (StatefulSetReplicasThisReconciliation mdb) (Version ac)
         end in
       match err with
       | Some e =>
           if negb (apiErrors_IsNotFound e) then
             ret (false, Some ("failed to get StatefulSet: " +:+ e))
           else next
       | None => next
       end) |}.

Definition NewDeployStatefulSetState (client : Client)
    (mdb : MongoDBCommunity) : State World :=
  {| Name := deployStatefulSetStateName;
     Reconcile :=
       do '(ready, err) <~ deployStatefulSet client mdb then
       match err with
       | Some e =>
           returnStatusUpdate client mdb
             [withMessage severity.Error
                ("Error deploying MongoDB StatefulSet: " +:+ e);
              withFailedPhase]
       | None =>
           if negb ready then
             returnStatusUpdate client mdb
               [withMessage severity.Info
                  "StatefulSet is not yet ready, retrying in 10 seconds";
                withPendingPhase 10]
           else ret (result_Retry 0)
       end;
     IsComplete := Some (
       do '(currentSts, err) <~ GetStatefulSet client (NamespacedName mdb) then
       match err with
       | Some e => ret (false, Some ("error getting StatefulSet: " +:+ e))
       | None =>
           let isReady :=
             statefulset_IsReady currentSts
               (StatefulSetReplicasThisReconciliation mdb) in
           ret (isReady
                || String.eqb (UpdateStrategyType currentSts)
                     appsv1.OnDeleteStatefulSetStrategyType, None)
       end) |}.

(** [mdb.Annotations[key] = value], after a nil map has been replaced by an
    empty one.  The closure writes to its own copy of the resource; a map
    that was not nil is shared with the other copies, which nothing reads
    again during the tick of the terminal state: that state has no
    completion check and no transition leaves it. *)
Definition setAnnotation (mdb : MongoDBCommunity) (key value : string)
    : MongoDBCommunity :=
  {| Namespace := Namespace mdb;
     Annotations := Some (<[key := value]> (default ∅ (Annotations mdb)));
     Spec := Spec mdb;
     Status := Status mdb |}.

Definition NewReconciliationEndState (client : Client)
    (mdb : MongoDBCommunity) : State World :=
  {| Name := reconciliationEndState;
     Reconcile :=
       let allStates := newAllStates in
       let '(bytes, err) := json_Marshal allStates in
       match err with
       | Some e =>
           run Errorf ("error marshalling states: " +:+ e) then
           ret (reconcile.zero, Some e)
       | None =>
           let mdb := setAnnotation mdb stateMachineAnnotation bytes in
           do err <~ Update client mdb then
           match err with
           | Some e =>
               run Errorf ("error updating annotations: " +:+ e) then
               ret (reconcile.zero, Some e)
           | None =>
               run Infof "Successfully finished reconciliation" then
               ret result_OK
           end
       end;
     IsComplete := None |}.

Definition NewTLSValidationState (client : Client) (mdb : MongoDBCommunity)
    (secretWatcher : ResourceWatcher) : State World :=
  {| Name := tlsValidationStateName;
     Reconcile :=
       do '(isTLSValid, err) <~ validateTLSConfig client mdb secretWatcher then
       match err with
       | Some e =>
           returnStatusUpdate client mdb
             [withMessage severity.Error
                ("Error validating TLS config: " +:+ e);
              withFailedPhase]
       | None =>
           if negb isTLSValid then
             returnStatusUpdate client mdb
               [withMessage severity.Info
                  "TLS config is not yet valid, retrying in 10 seconds";
                withPendingPhase 10]
           else
             run Debugf "Successfully validated TLS configuration." then
             ret (result_Retry 0)
       end;
     IsComplete := None |}.

(** The names of the states of the workflow. *)
Definition stateNames : list string :=
  [startFreshStateName; validateSpecStateName; createServiceStateName;
   tlsValidationStateName; tlsResourcesStateName;
   deployAutomationConfigStateName; deployStatefulSetStateName;
   resetStatefulSetUpdateStrategyStateName; reconciliationEndState;
   updateStatusState].

(** The states of the workflow that have an unconditional way out. *)
Definition fallbackStateNames : list string :=
  [startFreshStateName; validateSpecStateName; tlsValidationStateName;
   deployAutomationConfigStateName; deployStatefulSetStateName;
   resetStatefulSetUpdateStrategyStateName; updateStatusState].

(** [BuildStateMachine] up to its last [AddTransition]: the machine with
    the graph of the workflow and no current state yet. *)
Definition BuildStateMachine_graph (client : Client) (mdb : MongoDBCommunity)
    (secretWatcher : ResourceWatcher) : Machine World :=
  let sm := NewStateMachine (MongoDBCommunityCompleter (NamespacedName mdb) client) in

  let startFresh := NewStartFreshState mdb in
  let validateSpec := NewValidateSpecState client mdb in
  let serviceState := NewCreateServiceState client mdb in
  let tlsValidationState := NewTLSValidationState client mdb secretWatcher in
  let tlsResourcesState := NewEnsureTLSResourcesState client mdb in
  let deployAutomationConfigState := NewDeployAutomationConfigState client mdb in
  let deployStatefulSetState := NewDeployStatefulSetState client mdb in
  let resetUpdateStrategyState :=
    NewResetStatefulSetUpdateStrategyState client mdb in
  let updateStatusState := NewUpdateStatusState client mdb in
  let endState := NewReconciliationEndState client mdb in

  let tlsEnabled : TransitionPredicate World := ret (TLSEnabled (Spec mdb)) in
  let publishFirst : TransitionPredicate World :=
    needToPublishStateFirst client mdb in
  let notPublishFirst : TransitionPredicate World :=
    do b <~ needToPublishStateFirst client mdb then ret (negb b) in
  let stillScaling : TransitionPredicate World :=
    ret (scale_IsStillScaling mdb) in
  let changingVersion : TransitionPredicate World :=
    ret (IsChangingVersion mdb) in

  let sm := Machine_AddTransition sm startFresh validateSpec noCondition in
  let sm := Machine_AddTransition sm validateSpec serviceState noCondition in
  let sm := Machine_AddTransition sm validateSpec tlsValidationState tlsEnabled in
  let sm := Machine_AddTransition sm validateSpec deployAutomationConfigState
              publishFirst in
  let sm := Machine_AddTransition sm validateSpec deployStatefulSetState
              notPublishFirst in

  let sm := Machine_AddTransition sm serviceState tlsValidationState tlsEnabled in
  let sm := Machine_AddTransition sm serviceState deployAutomationConfigState
              publishFirst in
  let sm := Machine_AddTransition sm serviceState deployStatefulSetState
              notPublishFirst in

  let sm := Machine_AddTransition sm deployStatefulSetState updateStatusState
              stillScaling in

  let sm := Machine_AddTransition sm tlsValidationState tlsResourcesState
              noCondition in

  let sm := Machine_AddTransition sm tlsResourcesState
              deployAutomationConfigState publishFirst in
  let sm := Machine_AddTransition sm tlsResourcesState deployStatefulSetState
              notPublishFirst in

  let sm := Machine_AddTransition sm deployStatefulSetState
              deployAutomationConfigState notPublishFirst in
  let sm := Machine_AddTransition sm deployStatefulSetState
              resetUpdateStrategyState changingVersion in

  let sm := Machine_AddTransition sm deployStatefulSetState updateStatusState
              noCondition in

  let sm := Machine_AddTransition sm deployAutomationConfigState
              deployStatefulSetState publishFirst in

  let sm := Machine_AddTransition sm deployAutomationConfigState
              resetUpdateStrategyState changingVersion in
  let sm := Machine_AddTransition sm deployAutomationConfigState
              updateStatusState noCondition in

  let sm := Machine_AddTransition sm resetUpdateStrategyState updateStatusState
              noCondition in

  let sm := Machine_AddTransition sm updateStatusState deployStatefulSetState
              stillScaling in

  let sm := Machine_AddTransition sm updateStatusState endState noCondition in
  sm.

(** The [AddTransition] calls of [BuildStateMachine], in their order. *)
Definition workflowCalls (client : Client) (mdb : MongoDBCommunity)
    (secretWatcher : ResourceWatcher)
    : list (State World * State World * TransitionPredicate World) :=
  let startFresh := NewStartFreshState mdb in
  let validateSpec := NewValidateSpecState client mdb in
  let serviceState := NewCreateServiceState client mdb in
  let tlsValidationState := NewTLSValidationState client mdb secretWatcher in
  let tlsResourcesState := NewEnsureTLSResourcesState client mdb in
  let deployAutomationConfigState := NewDeployAutomationConfigState client mdb in
  let deployStatefulSetState := NewDeployStatefulSetState client mdb in
  let resetUpdateStrategyState :=
    NewResetStatefulSetUpdateStrategyState client mdb in
  let updateStatusState := NewUpdateStatusState client mdb in
  let endState := NewReconciliationEndState client mdb in
  let tlsEnabled : TransitionPredicate World := ret (TLSEnabled (Spec mdb)) in
  let publishFirst : TransitionPredicate World :=
    needToPublishStateFirst client mdb in
  let notPublishFirst : TransitionPredicate World :=
    do b <~ needToPublishStateFirst client mdb then ret (negb b) in
  let stillScaling : TransitionPredicate World :=
    ret (scale_IsStillScaling mdb) in
  let changingVersion : TransitionPredicate World :=
    ret (IsChangingVersion mdb) in
  [ (startFresh, validateSpec, noCondition);
    (validateSpec, serviceState, noCondition);
    (validateSpec, tlsValidationState, tlsEnabled);
    (validateSpec, deployAutomationConfigState, publishFirst);
    (validateSpec, deployStatefulSetState, notPublishFirst);
    (serviceState, tlsValidationState, tlsEnabled);
    (serviceState, deployAutomationConfigState, publishFirst);
    (serviceState, deployStatefulSetState, notPublishFirst);
    (deployStatefulSetState, updateStatusState, stillScaling);
    (tlsValidationState, tlsResourcesState, noCondition);
    (tlsResourcesState, deployAutomationConfigState, publishFirst);
    (tlsResourcesState, deployStatefulSetState, notPublishFirst);
    (deployStatefulSetState, deployAutomationConfigState, notPublishFirst);
    (deployStatefulSetState, resetUpdateStrategyState, changingVersion);
    (deployStatefulSetState, updateStatusState, noCondition);
    (deployAutomationConfigState, deployStatefulSetState, publishFirst);
    (deployAutomationConfigState, resetUpdateStrategyState, changingVersion);
    (deployAutomationConfigState, updateStatusState, noCondition);
    (resetUpdateStrategyState, updateStatusState, noCondition);
    (updateStatusState, deployStatefulSetState, stillScaling);
    (updateStatusState, endState, noCondition) ].

Definition BuildStateMachine (client : Client) (mdb : MongoDBCommunity)
    (secretWatcher : ResourceWatcher)
    : option (Machine World) * option error :=
  let sm := BuildStateMachine_graph client mdb secretWatcher in
  let '(startingStateName, err) := getLastStateName mdb in
  match err with
  | Some e =>
      (None,
       Some ("error fetching last state name from MongoDBCommunity annotations: "
               +:+ e))
  | None =>
      let startingStateName :=
        if String.eqb startingStateName EmptyString then startFreshStateName
        else startingStateName in
      match States sm !! startingStateName with
      | None =>
          (None,
           Some ("attempted to set starting state to " +:+ startingStateName
                   +:+ ", but it was not registered with the State Machine!"))
      | Some startingState => (Some (Machine_SetState sm startingState), None)
      end
  end.

End Workflow.
End controllers.

(** ** A small pipeline to run

    States [Start], [Middle] and [End] over a world that holds the external
    condition [isDone], the persisted resume point and the list of the
    actions that ran: [Start] goes to [Middle], and [Middle], whose
    completion check asks [isDone], goes to [End].  Beside them a state
    whose action fails, one whose completion check fails, and a state [A]
    with three guarded ways out. *)

Module Scenario.
Import state.

Record Store : Type := mkStore {
  isDone : bool;
  resumePoint : string;
  executed : list string
}.

Definition fresh : Store :=
  {| isDone := false; resumePoint := EmptyString; executed := [] |}.

(** The store after the action named [name] has run on [fresh]. *)
Definition after (name : string) (done : bool) : Store :=
  {| isDone := done; resumePoint := EmptyString; executed := [name] |}.

Definition requeue : reconcile.Result :=
  {| reconcile.Requeue := true; reconcile.RequeueAfter := 0 |}.

(** An action that notes its name in the world and returns [outcome]. *)
Definition action (name : string) (outcome : reconcile.Result * option error)
    : M Store (reconcile.Result * option error) :=
  fun w =>
    (Val outcome,
     {| isDone := isDone w; resumePoint := resumePoint w;
        executed := executed w ++ [name] |},
     []).

Definition storeSaver : Saver Store :=
  {| SaveNextState := fun stateName w =>
       (Val None,
        {| isDone := isDone w; resumePoint := stateName;
           executed := executed w |},
        []) |}.

Definition readIsDone : M Store bool := fun w => (Val (isDone w), w, []).

Definition Start : State Store :=
  {| Name := "Start"; Reconcile := action "Start" (requeue, None);
     IsComplete := None |}.

Definition Middle : State Store :=
  {| Name := "Middle"; Reconcile := action "Middle" (requeue, None);
     IsComplete := Some (fun w => (Val (isDone w, None), w, [])) |}.

Definition End : State Store :=
  {| Name := "End"; Reconcile := action "End" (reconcile.zero, None);
     IsComplete := None |}.

Definition Broken : State Store :=
  {| Name := "Broken"; Reconcile := action "Broken" (requeue, Some "boom");
     IsComplete := None |}.

Definition Unsure : State Store :=
  {| Name := "Unsure"; Reconcile := action "Unsure" (requeue, None);
     IsComplete := Some (ret (false, Some "cannot tell")) |}.

Definition pipeline : Machine Store :=
  let sm := NewStateMachine storeSaver in
  let sm := Machine_AddTransition sm Start Middle DirectTransition in
  let sm := Machine_AddTransition sm Middle End readIsDone in
  sm.

Definition A : State Store :=
  {| Name := "A"; Reconcile := action "A" (requeue, None);
     IsComplete := None |}.
Definition B : State Store :=
  {| Name := "B"; Reconcile := action "B" (requeue, None);
     IsComplete := None |}.
Definition C : State Store :=
  {| Name := "C"; Reconcile := action "C" (requeue, None);
     IsComplete := None |}.
Definition D : State Store :=
  {| Name := "D"; Reconcile := action "D" (requeue, None);
     IsComplete := None |}.

(** From [A]: a false guard to [B], then true guards to [C] and to [D]. *)
Definition priorities : Machine Store :=
  let sm := NewStateMachine storeSaver in
  let sm := Machine_AddTransition sm A B (FromBool false) in
  let sm := Machine_AddTransition sm A C (FromBool true) in
  let sm := Machine_AddTransition sm A D DirectTransition in
  sm.

(** A resource and the externals of the workflow, with a last state name
    that is read as it stands in the state machine annotation. *)
Definition resource (annotations : option (gmap string string))
    : @controllers.MongoDBCommunity unit unit :=
  {| controllers.Namespace := "default";
     controllers.Annotations := annotations;
     controllers.Spec := tt;
     controllers.Status := tt |}.

(** A client whose [Update] succeeds and notes the annotation it is given
    as the resume point. *)
Definition client : @controllers.Client Store unit unit unit unit :=
  {| controllers.Create := fun _ => ret None;
     controllers.Update := fun mdb w =>
       (Val None,
        {| isDone := isDone w;
           resumePoint :=
             default EmptyString
               (default ∅ (controllers.Annotations mdb)
                  !! controllers.stateMachineAnnotation);
           executed := executed w |},
        []);
     controllers.GetService := fun _ => ret (tt, None);
     controllers.GetStatefulSet := fun _ => ret (tt, None) |}.

#[export] Instance externals
  : @controllers.Externals Store unit unit unit unit unit unit :=
  {| controllers.TLSEnabled := fun _ => false;
     controllers.NamespacedName := fun mdb =>
       {| types.Namespace := controllers.Namespace mdb;
          types.Name := "example" |};
     controllers.ServiceName := fun _ => "example-svc";
     controllers.MongoURI := fun _ => "mongodb://example";
     controllers.AutomationConfigMembersThisReconciliation := fun _ => 3;
     controllers.StatefulSetReplicasThisReconciliation := fun _ => 3;
     controllers.CurrentReplicas := fun _ => 3;
     controllers.DesiredReplicas := fun _ => 3;
     controllers.IsChangingVersion := fun _ => false;
     controllers.UpdateStrategyType := fun _ =>
       appsv1.RollingUpdateStatefulSetStrategyType;
     controllers.ServiceNamespace := fun _ => "default";
     controllers.ServiceObjectName := fun _ => "example-svc";
     controllers.Version := fun _ => 1;
     controllers.apiErrors_IsNotFound := fun _ => false;
     controllers.apiErrors_IsAlreadyExists := fun _ => false;
     controllers.json_Marshal := fun a => (NextState a, None);
     controllers.result_OK := (reconcile.zero, None);
     controllers.result_Retry := fun after =>
       ({| reconcile.Requeue := true;
           reconcile.RequeueAfter := after * 1000000000 |}, None);
     controllers.scale_IsStillScaling := fun _ => false;
     controllers.status_Update := fun _ mdb _ => ret (mdb, (requeue, None));
     controllers.statefulset_ResetUpdateStrategy := fun _ _ => ret None;
     controllers.statefulset_IsReady := fun _ _ => true;
     controllers.agent_AllReachedGoalState := fun _ _ _ _ => ret (true, None);
     controllers.annotations_UpdateLastAppliedMongoDBVersion :=
       fun mdb _ => ret (mdb, None);
     controllers.MongoDBCommunityCompleter := fun _ _ => storeSaver;
     controllers.getLastStateName := fun mdb =>
       (default EmptyString
          (default ∅ (controllers.Annotations mdb)
             !! controllers.stateMachineAnnotation), None);
     controllers.needToPublishStateFirst := fun _ _ => ret false;
     controllers.validateUpdate := fun _ => ret None;
     controllers.buildService := fun _ => tt;
     controllers.validateTLSConfig := fun _ _ _ => ret (true, None);
     controllers.ensureTLSResources := fun _ _ => ret None;
     controllers.deployAutomationConfig := fun _ _ => ret (true, None);
     controllers.deployStatefulSet := fun _ _ => ret (true, None);
     controllers.ensureAutomationConfig := fun _ _ => ret (tt, None);
     controllers.updateLastSuccessfulConfiguration := fun _ _ => ret None |}.

End Scenario.

(** ** More of the small pipeline

    A saver that fails, a state with a false completion check in front of a
    fallback, and externals of the workflow whose answers can be chosen. *)

Module ExtraScenario.
Import state Scenario.

Definition failingSaver : Saver Store :=
  {| SaveNextState := fun _ => ret (Some "store is down") |}.

(** [Start] to [Middle] with a saver that fails. *)
Definition unsaved : Machine Store :=
  Machine_AddTransition (NewStateMachine failingSaver) Start Middle
    DirectTransition.

(** From [A]: a false guard to [B], a false guard to [C], then the
    unconditional way to [D]. *)
Definition withFallback : Machine Store :=
  let sm := NewStateMachine storeSaver in
  let sm := Machine_AddTransition sm A B (FromBool false) in
  let sm := Machine_AddTransition sm A C (FromBool false) in
  let sm := Machine_AddTransition sm A D DirectTransition in
  sm.

(** A second state that calls itself [Middle]. *)
Definition Impostor : State Store :=
  {| Name := "Middle"; Reconcile := action "Impostor" (reconcile.zero, None);
     IsComplete := None |}.

(** An answer of [needToPublishStateFirst] that is read off the world and
    turns true once it has been asked. *)
Definition askOnce : M Store bool :=
  fun w =>
    (Val (isDone w),
     {| isDone := true; resumePoint := resumePoint w; executed := executed w |},
     []).

(** A client whose [Create] and [GetService] answer as given. *)
Definition clientWith (created : option error) (found : option error)
    : @controllers.Client Store unit unit unit unit :=
  {| controllers.Create := fun _ => ret created;
     controllers.Update := controllers.Update Scenario.client;
     controllers.GetService := fun _ => ret (tt, found);
     controllers.GetStatefulSet := fun _ => ret (tt, found) |}.

(** Externals with a chosen validation result, TLS flag, scaling flag,
    answer to [needToPublishStateFirst] and result of [json.Marshal]; an
    error counts as "not found" or "already exists" when its message says
    so. *)
Definition externalsWith (validation : option error) (tls scaling : bool)
    (publishFirst : M Store bool) (marshalError : option error)
  : @controllers.Externals Store unit unit unit unit unit unit :=
  {| controllers.TLSEnabled := fun _ => tls;
     controllers.NamespacedName := fun mdb =>
       {| types.Namespace := controllers.Namespace mdb;
          types.Name := "example" |};
     controllers.ServiceName := fun _ => "example-svc";
     controllers.MongoURI := fun _ => "mongodb://example";
     controllers.AutomationConfigMembersThisReconciliation := fun _ => 3;
     controllers.StatefulSetReplicasThisReconciliation := fun _ => 3;
     controllers.CurrentReplicas := fun _ => 3;
     controllers.DesiredReplicas := fun _ => 3;
     controllers.IsChangingVersion := fun _ => false;
     controllers.UpdateStrategyType := fun _ =>
       appsv1.RollingUpdateStatefulSetStrategyType;
     controllers.ServiceNamespace := fun _ => "default";
     controllers.ServiceObjectName := fun _ => "example-svc";
     controllers.Version := fun _ => 1;
     controllers.apiErrors_IsNotFound := fun e => String.eqb e "not found";
     controllers.apiErrors_IsAlreadyExists :=
       fun e => String.eqb e "already exists";
     controllers.json_Marshal := fun a => (NextState a, marshalError);
     controllers.result_OK := (reconcile.zero, None);
     controllers.result_Retry := fun after =>
       ({| reconcile.Requeue := true;
           reconcile.RequeueAfter := after * 1000000000 |}, None);
     controllers.scale_IsStillScaling := fun _ => scaling;
     controllers.status_Update := fun _ mdb _ => ret (mdb, (requeue, None));
     controllers.statefulset_ResetUpdateStrategy := fun _ _ => ret None;
     controllers.statefulset_IsReady := fun _ _ => true;
     controllers.agent_AllReachedGoalState := fun _ _ _ _ => ret (true, None);
     controllers.annotations_UpdateLastAppliedMongoDBVersion :=
       fun mdb _ => ret (mdb, Some "no version annotation");
     controllers.MongoDBCommunityCompleter := fun _ _ => storeSaver;
     controllers.getLastStateName := fun mdb =>
       match default ∅ (controllers.Annotations mdb)
               !! controllers.stateMachineAnnotation with
       | Some "corrupt" => (EmptyString, Some "cannot decode")
       | Some n => (n, None)
       | None => (EmptyString, None)
       end;
     controllers.needToPublishStateFirst := fun _ _ => publishFirst;
     controllers.validateUpdate := fun _ => ret validation;
     controllers.buildService := fun _ => tt;
     controllers.validateTLSConfig := fun _ _ _ => ret (true, None);
     controllers.ensureTLSResources := fun _ _ => ret None;
     controllers.deployAutomationConfig := fun _ _ => ret (true, None);
     controllers.deployStatefulSet := fun _ _ => ret (true, None);
     controllers.ensureAutomationConfig := fun _ _ => ret (tt, None);
     controllers.updateLastSuccessfulConfiguration :=
       fun _ _ => ret (Some "no spec annotation") |}.

(** Externals that reject the resource. *)
Module Rejecting.
#[export] Instance ext
  : @controllers.Externals Store unit unit unit unit unit unit :=
  externalsWith (Some "invalid") false false (ret false) None.
End Rejecting.

(** Externals whose answer to [needToPublishStateFirst] turns. *)
Module Flipping.
#[export] Instance ext
  : @controllers.Externals Store unit unit unit unit unit unit :=
  externalsWith None false false askOnce None.
End Flipping.

(** Externals whose [json.Marshal] fails. *)
Module Unmarshalable.
#[export] Instance ext
  : @controllers.Externals Store unit unit unit unit unit unit :=
  externalsWith None false false (ret false) (Some "cannot marshal").
End Unmarshalable.

End ExtraScenario.

(** ** Formatting *)

Example fmt_d_42 : fmt_d 42 = "42".
Proof. reflexivity. Qed.

Example fmt_d_neg : fmt_d (-7) = "-7".
Proof. reflexivity. Qed.

(** ** Properties of the engine *)

Module EngineProps.
Import state.

Section Engine.
Context {World : Type}.
Implicit Types (m : Machine World) (s cur : State World)
  (x : transition World) (xs pre post : list (transition World)) (w : World).

(** *** Running monadic code *)

Lemma bind_val {A B} (c : M World A) (k : A -> M World B) w a w1 t1 :
  c w = (Val a, w1, t1) ->
  bind c k w = (resultOf (k a w1), worldOf (k a w1), t1 ++ traceOf (k a w1)).
Proof.
  intros E. unfold bind. rewrite E.
  destruct (k a w1) as [[r w2] t2]. reflexivity.
Qed.

Lemma bind_panic {A B} (c : M World A) (k : A -> M World B) w msg w1 t1 :
  c w = (Panic msg, w1, t1) -> bind c k w = (Panic msg, w1, t1).
Proof. intros E. unfold bind. rewrite E. reflexivity. Qed.

Lemma call_run {A} (c : Callee) (f : M World A) w r w1 t1 :
  f w = (r, w1, t1) -> call c f w = (r, w1, [Call c t1]).
Proof. intros E. unfold call. rewrite E. reflexivity. Qed.

Lemma run_eta {A} (x : Res A * World * list Event) :
  x = (resultOf x, worldOf x, traceOf x).
Proof. destruct x as [[r w] t]. reflexivity. Qed.

(** *** Resolution of the next state *)

Lemma firstAvailable_app_false xs w w1 tr rest :
  allFalse xs w w1 tr ->
  firstAvailable (xs ++ rest) w =
    (resultOf (firstAvailable rest w1), worldOf (firstAvailable rest w1),
     tr ++ traceOf (firstAvailable rest w1)).
Proof.
  induction 1 as [w|x xs w w1 w2 t1 t2 Hp _ IH]; simpl.
  - apply run_eta.
  - rewrite (bind_val _ _ _ false w1
               [Call (Predicate (Name (from x)) (Name (to x))) t1]).
    + rewrite IH. reflexivity.
    + apply call_run. exact Hp.
Qed.

Lemma firstAvailable_none xs w w1 tr :
  allFalse xs w w1 tr -> firstAvailable xs w = (Val None, w1, tr).
Proof.
  intros H. pose proof (firstAvailable_app_false xs w w1 tr [] H) as E.
  rewrite app_nil_r in E. rewrite E. simpl. rewrite app_nil_r. reflexivity.
Qed.

Lemma firstAvailable_first pre x post w w1 tr w2 tx :
  allFalse pre w w1 tr ->
  predicate x w1 = (Val true, w2, tx) ->
  firstAvailable (pre ++ x :: post) w =
    (Val (Some x), w2,
     tr ++ [Call (Predicate (Name (from x)) (Name (to x))) tx]).
Proof.
  intros H Hp. rewrite (firstAvailable_app_false _ _ _ _ _ H). simpl.
  rewrite (bind_val _ _ _ true w2
             [Call (Predicate (Name (from x)) (Name (to x))) tx]).
  - reflexivity.
  - apply call_run. exact Hp.
Qed.

Lemma firstAvailable_total xs w :
  exists r w1 tr, firstAvailable xs w = (r, w1, tr) /\
    saveCalls tr = [] /\ actionCalls tr = [] /\
    (forall o, r = Val (Some o) -> o ∈ xs).
Proof.
  revert w. induction xs as [|x xs IH]; intros w; simpl.
  - exists (Val None), w, []. repeat split; try reflexivity. intros o [=].
  - destruct (predicate x w) as [[r w1] t1] eqn:Hp.
    destruct r as [[|]|msg].
    + exists (Val (Some x)), w1,
        [Call (Predicate (Name (from x)) (Name (to x))) t1].
      split; [|repeat split; try reflexivity].
      * rewrite (bind_val _ _ _ true w1
                   [Call (Predicate (Name (from x)) (Name (to x))) t1]);
          [reflexivity | apply call_run; exact Hp].
      * intros o [= <-]. left.
    + destruct (IH w1) as (r & w2 & tr & E & Hs & Ha & Hin).
      exists r, w2, (Call (Predicate (Name (from x)) (Name (to x))) t1 :: tr).
      split; [|repeat split].
      * rewrite (bind_val _ _ _ false w1
                   [Call (Predicate (Name (from x)) (Name (to x))) t1]);
          [rewrite E; reflexivity | apply call_run; exact Hp].
      * exact Hs.
      * exact Ha.
      * intros o Ho. right. apply Hin. exact Ho.
    + exists (Panic msg), w1,
        [Call (Predicate (Name (from x)) (Name (to x))) t1].
      split; [|repeat split; try reflexivity].
      * apply bind_panic. apply call_run. exact Hp.
      * intros o [=].
Qed.

(** *** The tail of a tick *)

Lemma Reconcile_finish_complete m cur res w tr w1 t1 saved w2 t2 :
  Machine_getTransitionForState m cur w = (Val tr, w1, t1) ->
  SaveNextState (saver m) (nextStateName tr) w1 = (saved, w2, t2) ->
  Reconcile_finish m cur res true w =
    (finishResult res saved, w2,
     finishTrace cur t1 (nextStateName tr) t2 saved).
Proof.
  intros Hg Hs.
  unfold Reconcile_finish, finishTrace, bind, call.
  cbn [Debugf emit time_Sleep ret]. rewrite Hg. cbn zeta.
  fold (nextStateName tr).
  destruct (String.eqb (nextStateName tr) EmptyString);
    cbn [Debugf emit time_Sleep ret]; rewrite Hs;
    destruct saved as [[e|]|msg]; reflexivity.
Qed.

Lemma Reconcile_finish_guard_panic m cur res w msg w1 t1 :
  Machine_getTransitionForState m cur w = (Panic msg, w1, t1) ->
  Reconcile_finish m cur res true w =
    (Panic msg, w1,
     Log DebugLevel ("Completed state: [" +:+ Name cur +:+ "]") :: t1).
Proof.
  intros Hg. unfold Reconcile_finish.
  rewrite (bind_val _ _ _ tt w
             [Log DebugLevel ("Completed state: [" +:+ Name cur +:+ "]")])
    by reflexivity.
  rewrite (bind_panic _ _ _ msg w1 t1 Hg). reflexivity.
Qed.

Lemma Reconcile_finish_incomplete m cur res w :
  Reconcile_finish m cur res false w =
    (Val (res, None), w,
     [Log DebugLevel ("State [" +:+ Name cur +:+ "] is not yet complete")]).
Proof. reflexivity. Qed.

(** *** Reading traces *)

Lemma allFalse_guardCalls xs w w1 tr :
  allFalse xs w w1 tr ->
  guardCalls tr = map endpoints xs /\ saveCalls tr = [] /\ actionCalls tr = [].
Proof.
  induction 1 as [w|x xs w w1 w2 t1 t2 _ _ (IHg & IHs & IHa)].
  - repeat split.
  - repeat split; simpl; [rewrite IHg; reflexivity | exact IHs | exact IHa].
Qed.

Lemma firstTrue_guardCalls xs w o w1 tr :
  firstTrue xs w o w1 tr ->
  saveCalls tr = [] /\ actionCalls tr = [] /\
  match o with
  | Some x => exists pre post,
      xs = pre ++ x :: post /\ guardCalls tr = map endpoints (pre ++ [x])
  | None => guardCalls tr = map endpoints xs
  end.
Proof.
  destruct 1 as [pre x post w w1 t1 w2 tx Hf Hp|xs w w1 t1 Hf];
    destruct (allFalse_guardCalls _ _ _ _ Hf) as (Hg & Hs & Ha).
  - unfold saveCalls, actionCalls, guardCalls in *.
    rewrite !omap_app, ?Hs, ?Ha, ?Hg.
    repeat split. exists pre, post. split; [reflexivity|].
    rewrite map_app. reflexivity.
  - repeat split; assumption.
Qed.

Lemma firstTrue_run xs w o w1 tr :
  firstTrue xs w o w1 tr -> firstAvailable xs w = (Val o, w1, tr).
Proof.
  destruct 1 as [pre x post w w1 t1 w2 tx Hf Hp|xs w w1 t1 Hf].
  - eapply firstAvailable_first; eassumption.
  - apply firstAvailable_none. exact Hf.
Qed.

Lemma firstTrue_cons_false x xs w w1 tx o w2 tr :
  predicate x w = (Val false, w1, tx) ->
  firstTrue xs w1 o w2 tr ->
  firstTrue (x :: xs) w o w2
            (Call (Predicate (Name (from x)) (Name (to x))) tx :: tr).
Proof.
  intros Hp H.
  destruct H as [pre y post w1 w2 t1 w3 ty Hf Hy|xs w1 w2 t1 Hf].
  - apply (firstTrue_found (x :: pre) y post w w2
             (Call (Predicate (Name (from x)) (Name (to x))) tx :: t1) w3 ty).
    + econstructor; eassumption.
    + exact Hy.
  - apply firstTrue_none. econstructor; eassumption.
Qed.

(** Every scan that returns is a scan to the first true guard. *)
Lemma firstAvailable_firstTrue xs w o w1 tr :
  firstAvailable xs w = (Val o, w1, tr) -> firstTrue xs w o w1 tr.
Proof.
  revert w o w1 tr. induction xs as [|x xs IH]; intros w o w1 tr; simpl.
  - intros [= <- <- <-]. apply firstTrue_none. constructor.
  - unfold bind, call. destruct (predicate x w) as [[[[|]|msg] wx] tx] eqn:Hp.
    + intros [= <- <- <-].
      apply (firstTrue_found [] x xs w w [] wx tx); [constructor|exact Hp].
    + destruct (firstAvailable xs wx) as [[r w2] t2] eqn:Hrest.
      intros [= -> -> <-].
      apply firstTrue_cons_false with (w1 := wx); [exact Hp|].
      apply IH. exact Hrest.
    + intros [=].
Qed.

Lemma saveCalls_finishTrace cur guards next inner saved :
  saveCalls guards = [] ->
  saveCalls (finishTrace cur guards next inner saved) = [next].
Proof.
  intros Hg. unfold finishTrace, saveCalls in *.
  change (?a :: guards ++ ?r) with ([a] ++ guards ++ r).
  rewrite !omap_app, Hg.
  destruct (String.eqb next EmptyString), saved as [[e|]|msg]; reflexivity.
Qed.

Lemma guardCalls_finishTrace cur guards next inner saved :
  guardCalls (finishTrace cur guards next inner saved) = guardCalls guards.
Proof.
  unfold finishTrace, guardCalls.
  change (?a :: guards ++ ?r) with ([a] ++ guards ++ r).
  rewrite !omap_app.
  destruct (String.eqb next EmptyString), saved as [[e|]|msg];
    simpl; rewrite ?app_nil_r; reflexivity.
Qed.

Lemma actionCalls_finishTrace cur guards next inner saved :
  actionCalls guards = [] ->
  actionCalls (finishTrace cur guards next inner saved) = [].
Proof.
  intros Hg. unfold finishTrace, actionCalls in *.
  change (?a :: guards ++ ?r) with ([a] ++ guards ++ r).
  rewrite !omap_app, Hg.
  destruct (String.eqb next EmptyString), saved as [[e|]|msg]; reflexivity.
Qed.

Lemma calls_tickPrelude cur inner rest :
  guardCalls (tickPrelude cur inner ++ rest) = guardCalls rest /\
  saveCalls (tickPrelude cur inner ++ rest) = saveCalls rest /\
  actionCalls (tickPrelude cur inner ++ rest) = Name cur :: actionCalls rest.
Proof. repeat split. Qed.

(** *** The tick *)

(** The three ways the action of the current state can come back. *)
Lemma Machine_Reconcile_unfold m cur w :
  currentState m = Some cur ->
  Machine_Reconcile m w =
    match Reconcile cur w with
    | (Val (res, None), w1, t1) =>
        (resultOf (Reconcile_check m cur res w1),
         worldOf (Reconcile_check m cur res w1),
         tickPrelude cur t1 ++ traceOf (Reconcile_check m cur res w1))
    | (Val (res, Some e), w1, t1) =>
        (Val (res, Some e), w1,
         tickPrelude cur t1
         ++ [Log DebugLevel ("Error reconciling state [" +:+ Name cur
                               +:+ "]: " +:+ e)])
    | (Panic msg, w1, t1) => (Panic msg, w1, tickPrelude cur t1)
    end.
Proof.
  intros Hc. unfold Machine_Reconcile. rewrite Hc.
  destruct (Reconcile cur w) as [[[[res [e|]]|msg] w1] t1] eqn:Ha;
    unfold bind, call; cbn [Infof Debugf time_Sleep emit ret]; rewrite Ha;
    try reflexivity.
  destruct (Reconcile_check m cur res w1) as [[r w2] t2]. reflexivity.
Qed.

(** Every tick of a machine with a current state opens by running that
    state's action on the world it is given. *)
Lemma Machine_Reconcile_prelude m cur w :
  currentState m = Some cur ->
  exists rest,
    traceOf (Machine_Reconcile m w)
      = tickPrelude cur (traceOf (Reconcile cur w)) ++ rest.
Proof.
  intros Hc. rewrite (Machine_Reconcile_unfold m cur w Hc).
  destruct (Reconcile cur w) as [[[[res [e|]]|msg] w1] t1];
    cbn [traceOf snd]; eauto.
Qed.

Lemma Reconcile_check_unfold m cur res w :
  Reconcile_check m cur res w =
    match IsComplete cur with
    | None => Reconcile_finish m cur res true w
    | Some check =>
        match check w with
        | (Val (isComplete, None), w1, t1) =>
            (resultOf (Reconcile_finish m cur res isComplete w1),
             worldOf (Reconcile_finish m cur res isComplete w1),
             Call (StateIsComplete (Name cur)) t1
             :: traceOf (Reconcile_finish m cur res isComplete w1))
        | (Val (isComplete, Some e), w1, t1) =>
            (Val (reconcile.zero, Some e), w1,
             [Call (StateIsComplete (Name cur)) t1;
              Log DebugLevel ("Error determining if state [" +:+ Name cur
                                +:+ "] is complete: " +:+ e)])
        | (Panic msg, w1, t1) =>
            (Panic msg, w1, [Call (StateIsComplete (Name cur)) t1])
        end
    end.
Proof.
  unfold Reconcile_check. destruct (IsComplete cur) as [check|]; [|reflexivity].
  destruct (check w) as [[[[b [e|]]|msg] w1] t1] eqn:Hk;
    unfold bind, call; cbn [Debugf emit ret]; rewrite Hk; try reflexivity.
  destruct (Reconcile_finish m cur res b w1) as [[r w2] t2]. reflexivity.
Qed.

Lemma Machine_getTransitionForState_total m cur w :
  exists r w1 tr,
    Machine_getTransitionForState m cur w = (r, w1, tr) /\
    saveCalls tr = [] /\ actionCalls tr = [].
Proof.
  unfold Machine_getTransitionForState.
  destruct (firstAvailable_total (default [] (allTransitions m !! Name cur)) w)
    as (r & w1 & tr & E & Hs & Ha & _).
  exists r, w1, tr. auto.
Qed.

Lemma Reconcile_finish_val m cur res0 b w res w' tr :
  Reconcile_finish m cur res0 b w = (Val (res, None), w', tr) -> res = res0.
Proof.
  destruct b.
  - destruct (Machine_getTransitionForState_total m cur w)
      as ([o|msg] & w1 & t1 & Hg & _).
    + destruct (SaveNextState (saver m) (nextStateName o) w1)
        as [[saved w2] t2] eqn:Hs.
      rewrite (Reconcile_finish_complete _ _ _ _ _ _ _ _ _ _ Hg Hs).
      destruct saved as [[e|]|msg]; cbn [finishResult]; congruence.
    + rewrite (Reconcile_finish_guard_panic _ _ _ _ _ _ _ Hg). congruence.
  - rewrite Reconcile_finish_incomplete. congruence.
Qed.

(** *** The claims about the tick *)

(** C1.  Resolution scans the transitions registered from the current state
    in their order and stops at the first whose guard answers true when it
    is asked, whatever the guards behind it would answer: only the guards up
    to that one are evaluated, and the name handed to the saver is the name
    of its target.  When every guard answers false there is no transition
    and the name handed to the saver is the empty string.  A resolution
    that returns has returned in one of these two ways. *)
Theorem resolveNext_first_true_guard m cur res w o w1 tr :
  firstTrue (default [] (allTransitions m !! Name cur)) w o w1 tr ->
  Machine_getTransitionForState m cur w = (Val o, w1, tr) /\
  match o with
  | Some x => exists pre post,
      default [] (allTransitions m !! Name cur) = pre ++ x :: post /\
      guardCalls tr = map endpoints (pre ++ [x])
  | None =>
      guardCalls tr = map endpoints (default [] (allTransitions m !! Name cur))
  end /\
  nextStateName o
    = match o with Some x => Name (to x) | None => EmptyString end /\
  saveCalls (traceOf (Reconcile_finish m cur res true w)) = [nextStateName o] /\
  (forall o' w' tr',
     Machine_getTransitionForState m cur w = (Val o', w', tr') ->
     firstTrue (default [] (allTransitions m !! Name cur)) w o' w' tr').
Proof.
  intros H.
  pose proof (firstTrue_run _ _ _ _ _ H) as Hrun.
  destruct (firstTrue_guardCalls _ _ _ _ _ H) as (Hs & _ & Hg).
  split; [exact Hrun|]. split; [exact Hg|]. split; [reflexivity|].
  split; [|intros o' w' tr'; apply firstAvailable_firstTrue].
  destruct (SaveNextState (saver m) (nextStateName o) w1)
    as [[saved w2] t2] eqn:Hsv.
  rewrite (Reconcile_finish_complete m cur res w o w1 tr saved w2 t2 Hrun Hsv).
  cbn [traceOf snd]. apply saveCalls_finishTrace. exact Hs.
Qed.

(** C2.  When the action of the current state returns an error, the tick
    returns the action's result and that error, with the world as the
    action left it; the engine evaluates no guard and calls the saver not at
    all, and a tick of the same machine runs the same action again. *)
Theorem tick_action_error m cur w res e w1 t1 :
  currentState m = Some cur ->
  Reconcile cur w = (Val (res, Some e), w1, t1) ->
  Machine_Reconcile m w =
    (Val (res, Some e), w1,
     tickPrelude cur t1
     ++ [Log DebugLevel ("Error reconciling state [" +:+ Name cur +:+ "]: "
                           +:+ e)]) /\
  guardCalls (traceOf (Machine_Reconcile m w)) = [] /\
  saveCalls (traceOf (Machine_Reconcile m w)) = [] /\
  actionCalls (traceOf (Machine_Reconcile m w)) = [Name cur] /\
  forall w', exists rest,
    traceOf (Machine_Reconcile m w')
      = tickPrelude cur (traceOf (Reconcile cur w')) ++ rest.
Proof.
  intros Hc Ha. rewrite (Machine_Reconcile_unfold m cur w Hc), Ha.
  repeat split. intros w'. apply Machine_Reconcile_prelude. exact Hc.
Qed.

(** The tick of a state without a completion check whose action succeeds. *)
Lemma Machine_Reconcile_no_check m cur w res w1 t1 :
  currentState m = Some cur ->
  IsComplete cur = None ->
  Reconcile cur w = (Val (res, None), w1, t1) ->
  Machine_Reconcile m w =
    (resultOf (Reconcile_finish m cur res true w1),
     worldOf (Reconcile_finish m cur res true w1),
     tickPrelude cur t1 ++ traceOf (Reconcile_finish m cur res true w1)) /\
  actionCalls (traceOf (Machine_Reconcile m w)) = [Name cur] /\
  forall o w2 t2,
    Machine_getTransitionForState m cur w1 = (Val o, w2, t2) ->
    saveCalls (traceOf (Machine_Reconcile m w)) = [nextStateName o].
Proof.
  intros Hc Hn Ha.
  rewrite (Machine_Reconcile_unfold m cur w Hc), Ha.
  rewrite Reconcile_check_unfold, Hn.
  split; [reflexivity|].
  destruct (Machine_getTransitionForState_total m cur w1)
    as (r & w2 & t2 & Hg & Hs & Hact).
  cbn [traceOf snd].
  destruct r as [o|msg].
  - destruct (SaveNextState (saver m) (nextStateName o) w2)
      as [[saved w3] t3] eqn:Hsv.
    rewrite (Reconcile_finish_complete m cur res w1 o w2 t2 saved w3 t3 Hg Hsv).
    cbn [traceOf snd].
    destruct (calls_tickPrelude cur t1
                (finishTrace cur t2 (nextStateName o) t3 saved))
      as (_ & -> & ->).
    rewrite (actionCalls_finishTrace _ _ _ _ _ Hact),
      (saveCalls_finishTrace _ _ _ _ _ Hs).
    split; [reflexivity|].
    intros o' w2' t2' E. assert (o' = o) as -> by congruence. reflexivity.
  - rewrite (Reconcile_finish_guard_panic m cur res w1 msg w2 t2 Hg).
    cbn [traceOf snd]. split.
    + destruct (calls_tickPrelude cur t1
        (Log DebugLevel ("Completed state: [" +:+ Name cur +:+ "]") :: t2))
        as (_ & _ & ->).
      change (actionCalls (?a :: t2)) with (actionCalls t2).
      rewrite Hact. reflexivity.
    + intros o' w2' t2' E. congruence.
Qed.

(** C3.  A state without a completion check is complete as soon as its
    action has returned without error: the same tick goes on with the
    resolution of the next state from the world the action left and, once
    that has answered, calls [SaveNextState] of the machine's saver with the
    resolved name on the world the resolution left.  What the tick returns
    is decided by that call: the action's result and no error when the saver
    returns no error, the zero result and the saver's error when it returns
    one; the world of the tick is the world the saver left, and the trace of
    the tick holds the saver's own trace.  The action runs once, and no
    second tick is needed. *)
Theorem tick_no_check_completes m cur w res w1 t1 :
  currentState m = Some cur ->
  IsComplete cur = None ->
  Reconcile cur w = (Val (res, None), w1, t1) ->
  Machine_Reconcile m w =
    (resultOf (Reconcile_finish m cur res true w1),
     worldOf (Reconcile_finish m cur res true w1),
     tickPrelude cur t1 ++ traceOf (Reconcile_finish m cur res true w1)) /\
  actionCalls (traceOf (Machine_Reconcile m w)) = [Name cur] /\
  (forall o w2 t2,
    Machine_getTransitionForState m cur w1 = (Val o, w2, t2) ->
    saveCalls (traceOf (Machine_Reconcile m w)) = [nextStateName o]) /\
  (forall o w2 tg saved w3 ts,
    Machine_getTransitionForState m cur w1 = (Val o, w2, tg) ->
    SaveNextState (saver m) (nextStateName o) w2 = (saved, w3, ts) ->
    Machine_Reconcile m w =
      (match saved with
       | Val None => Val (res, None)
       | Val (Some e) => Val (reconcile.zero, Some e)
       | Panic msg => Panic msg
       end,
       w3,
       tickPrelude cur t1
       ++ [Log DebugLevel ("Completed state: [" +:+ Name cur +:+ "]")]
       ++ tg
       ++ (if String.eqb (nextStateName o) EmptyString then []
           else [Log DebugLevel ("preparing transition [" +:+ Name cur
                                   +:+ "] -> [" +:+ nextStateName o +:+ "]")])
       ++ [Sleep 3; Call (SaverSaveNextState (nextStateName o)) ts]
       ++ match saved with
          | Val (Some e) =>
              [Log DebugLevel ("Error marking state: [" +:+ Name cur
                                 +:+ "] as complete: " +:+ e)]
          | _ => []
          end)) /\
  (forall msg w2 tg,
    Machine_getTransitionForState m cur w1 = (Panic msg, w2, tg) ->
    Machine_Reconcile m w =
      (Panic msg, w2,
       tickPrelude cur t1
       ++ Log DebugLevel ("Completed state: [" +:+ Name cur +:+ "]") :: tg)).
Proof.
  intros Hc Hn Ha.
  destruct (Machine_Reconcile_no_check m cur w res w1 t1 Hc Hn Ha)
    as (Hrun & Hact & Hsave).
  split; [exact Hrun|]. split; [exact Hact|]. split; [exact Hsave|]. split.
  - intros o w2 tg saved w3 ts Hg Hs. rewrite Hrun.
    rewrite (Reconcile_finish_complete m cur res w1 o w2 tg saved w3 ts Hg Hs).
    unfold finishTrace, finishResult. cbn [resultOf worldOf traceOf fst snd].
    destruct saved as [[e|]|msg]; reflexivity.
  - intros msg w2 tg Hg. rewrite Hrun.
    rewrite (Reconcile_finish_guard_panic m cur res w1 msg w2 tg Hg).
    reflexivity.
Qed.

(** C4.  When the action succeeds and the completion check answers false
    without error, the tick returns the action's result and no error, with
    the world as the check left it; the engine evaluates no guard and calls
    the saver not at all, and a tick of the same machine runs the same
    action again. *)
Theorem tick_incomplete m cur w res w1 t1 check w2 t2 :
  currentState m = Some cur ->
  Reconcile cur w = (Val (res, None), w1, t1) ->
  IsComplete cur = Some check ->
  check w1 = (Val (false, None), w2, t2) ->
  Machine_Reconcile m w =
    (Val (res, None), w2,
     tickPrelude cur t1
     ++ [Call (StateIsComplete (Name cur)) t2;
         Log DebugLevel ("State [" +:+ Name cur +:+ "] is not yet complete")])
  /\ guardCalls (traceOf (Machine_Reconcile m w)) = []
  /\ saveCalls (traceOf (Machine_Reconcile m w)) = []
  /\ actionCalls (traceOf (Machine_Reconcile m w)) = [Name cur]
  /\ forall w', exists rest,
       traceOf (Machine_Reconcile m w')
         = tickPrelude cur (traceOf (Reconcile cur w')) ++ rest.
Proof.
  intros Hc Ha Hi Hk.
  rewrite (Machine_Reconcile_unfold m cur w Hc), Ha.
  rewrite Reconcile_check_unfold, Hi, Hk, Reconcile_finish_incomplete.
  repeat split. intros w'. apply Machine_Reconcile_prelude. exact Hc.
Qed.

(** C6.  A tick that returns without error returns the very result that the
    action of the current state returned. *)
Theorem tick_outcome_is_action_outcome m w res w' tr :
  Machine_Reconcile m w = (Val (res, None), w', tr) ->
  exists cur w1 t1,
    currentState m = Some cur /\
    Reconcile cur w = (Val (res, None), w1, t1).
Proof.
  intros H. destruct (currentState m) as [cur|] eqn:Hc.
  - exists cur. rewrite (Machine_Reconcile_unfold m cur w Hc) in H.
    destruct (Reconcile cur w) as [[[[res0 [e|]]|msg] w1] t1];
      cbn [resultOf worldOf traceOf fst snd] in H; [congruence| |congruence].
    exists w1, t1. split; [reflexivity|].
    rewrite Reconcile_check_unfold in H.
    destruct (IsComplete cur) as [check|].
    + destruct (check w1) as [[[[b [e|]]|msg] w2] t2];
        cbn [resultOf worldOf traceOf fst snd] in H; [congruence| |congruence].
      destruct (Reconcile_finish m cur res0 b w2) as [[r w3] t3] eqn:Hf.
      cbn [resultOf worldOf traceOf fst snd] in H.
      assert (r = Val (res, None)) as -> by congruence.
      rewrite (Reconcile_finish_val _ _ _ _ _ _ _ _ Hf). reflexivity.
    + destruct (Reconcile_finish m cur res0 true w1) as [[r w3] t3] eqn:Hf.
      cbn [resultOf worldOf traceOf fst snd] in H.
      assert (r = Val (res, None)) as -> by congruence.
      rewrite (Reconcile_finish_val _ _ _ _ _ _ _ _ Hf). reflexivity.
  - unfold Machine_Reconcile in H. rewrite Hc in H. discriminate H.
Qed.

(** C7.  When the action succeeds and the completion check returns an
    error, the tick returns that error at once, with the world as the check
    left it; as after an action error, the engine evaluates no guard and
    calls the saver not at all. *)
Theorem tick_check_error m cur w res w1 t1 check b e w2 t2 :
  currentState m = Some cur ->
  Reconcile cur w = (Val (res, None), w1, t1) ->
  IsComplete cur = Some check ->
  check w1 = (Val (b, Some e), w2, t2) ->
  Machine_Reconcile m w =
    (Val (reconcile.zero, Some e), w2,
     tickPrelude cur t1
     ++ [Call (StateIsComplete (Name cur)) t2;
         Log DebugLevel ("Error determining if state [" +:+ Name cur
                           +:+ "] is complete: " +:+ e)])
  /\ guardCalls (traceOf (Machine_Reconcile m w)) = []
  /\ saveCalls (traceOf (Machine_Reconcile m w)) = []
  /\ actionCalls (traceOf (Machine_Reconcile m w)) = [Name cur].
Proof.
  intros Hc Ha Hi Hk.
  rewrite (Machine_Reconcile_unfold m cur w Hc), Ha.
  rewrite Reconcile_check_unfold, Hi, Hk.
  repeat split.
Qed.


(** *** The registry *)

Lemma States_AddTransition_is_Some m f t p k :
  is_Some (States m !! k) ->
  is_Some (States (Machine_AddTransition m f t p) !! k).
Proof.
  intros H. cbn [Machine_AddTransition States].
  destruct (decide (Name t = k)) as [<-|Ht].
  - rewrite lookup_insert_eq. eauto.
  - rewrite lookup_insert_ne by exact Ht.
    destruct (decide (Name f = k)) as [<-|Hf].
    + rewrite lookup_insert_eq. eauto.
    + rewrite lookup_insert_ne by exact Hf. exact H.
Qed.

Lemma States_AddTransition_endpoints m f t p :
  States (Machine_AddTransition m f t p) !! Name t = Some t /\
  States (Machine_AddTransition m f t p) !! Name f
    = Some (if decide (Name t = Name f) then t else f).
Proof.
  cbn [Machine_AddTransition States]. split.
  - apply lookup_insert_eq.
  - destruct (decide (Name t = Name f)) as [E|N].
    + rewrite E. apply lookup_insert_eq.
    + rewrite lookup_insert_ne by exact N. apply lookup_insert_eq.
Qed.

Lemma wellFormed_AddTransition m f t p :
  wellFormed m -> wellFormed (Machine_AddTransition m f t p).
Proof.
  intros Hwf k xs x Hk Hin.
  assert (Hold : forall k0 xs0, allTransitions m !! k0 = Some xs0 ->
            x ∈ xs0 ->
            Name (from x) = k0 /\
            is_Some (States (Machine_AddTransition m f t p) !! Name (from x)) /\
            is_Some (States (Machine_AddTransition m f t p) !! Name (to x))).
  { intros k0 xs0 H0 Hx. destruct (Hwf k0 xs0 x H0 Hx) as (E & Hf & Ht).
    split; [exact E|].
    split; apply States_AddTransition_is_Some; assumption. }
  cbn [Machine_AddTransition allTransitions] in Hk.
  destruct (decide (Name f = k)) as [<-|Hne].
  - rewrite lookup_insert_eq in Hk. injection Hk as <-.
    apply elem_of_app in Hin as [Hin|Hin].
    + destruct (allTransitions m !! Name f) as [old|] eqn:E.
      * exact (Hold (Name f) old E Hin).
      * inversion Hin.
    + apply list_elem_of_singleton in Hin as ->. cbn [from to].
      destruct (States_AddTransition_endpoints m f t p) as (Ht & Hf).
      split; [reflexivity|]. rewrite Ht, Hf. eauto.
  - rewrite lookup_insert_ne in Hk by exact Hne.
    exact (Hold k xs Hk Hin).
Qed.

Lemma wellFormed_built m : built m -> wellFormed m.
Proof.
  induction 1 as [sv|m f t p _ IH|m s _ IH].
  - intros k xs x Hk. cbn [NewStateMachine allTransitions] in Hk.
    rewrite lookup_empty in Hk. discriminate Hk.
  - apply wellFormed_AddTransition. exact IH.
  - exact IH.
Qed.

(** In a machine the package has built, a state is filed under its name. *)
Lemma States_built_named m k s :
  built m -> States m !! k = Some s -> Name s = k.
Proof.
  intros Hb. revert k s.
  induction Hb as [sv|m f t p _ IH|m s0 _ IH]; intros k s Hk.
  - cbn [NewStateMachine States] in Hk. rewrite lookup_empty in Hk.
    discriminate Hk.
  - cbn [Machine_AddTransition States] in Hk.
    destruct (decide (Name t = k)) as [<-|Ht].
    + rewrite lookup_insert_eq in Hk. congruence.
    + rewrite lookup_insert_ne in Hk by exact Ht.
      destruct (decide (Name f = k)) as [<-|Hf].
      * rewrite lookup_insert_eq in Hk. congruence.
      * rewrite lookup_insert_ne in Hk by exact Hf. exact (IH k s Hk).
  - exact (IH k s Hk).
Qed.

(** C9.  [AddTransition from to guard] files both endpoints in the registry
    under their names and leaves every other name of the registry as it
    was; it puts the new transition behind those already registered from
    the same source, which stay as they were and in their order, and leaves
    the lists of the other sources alone; and it keeps the invariant that
    every transition is filed under its source's name with both endpoints
    in the registry, which holds of the empty machine and so of every
    machine the package builds. *)
Theorem AddTransition_registers_and_appends m f t p :
  (States (Machine_AddTransition m f t p) !! Name t = Some t /\
   States (Machine_AddTransition m f t p) !! Name f
     = Some (if decide (Name t = Name f) then t else f) /\
   forall k, k <> Name f -> k <> Name t ->
     States (Machine_AddTransition m f t p) !! k = States m !! k) /\
  (allTransitions (Machine_AddTransition m f t p) !! Name f
     = Some (default [] (allTransitions m !! Name f) ++ [mkTransition f t p]) /\
   forall k, k <> Name f ->
     allTransitions (Machine_AddTransition m f t p) !! k
       = allTransitions m !! k) /\
  (wellFormed m -> wellFormed (Machine_AddTransition m f t p)) /\
  (forall sv : Saver World, wellFormed (NewStateMachine sv)) /\
  (built m -> wellFormed (Machine_AddTransition m f t p)).
Proof.
  split; [|split; [|split; [|split]]].
  - destruct (States_AddTransition_endpoints m f t p) as (Ht & Hf).
    split; [exact Ht|]. split; [exact Hf|].
    intros k Hkf Hkt. cbn [Machine_AddTransition States].
    rewrite !lookup_insert_ne by congruence. reflexivity.
  - cbn [Machine_AddTransition allTransitions]. split.
    + rewrite lookup_insert_eq.
      destruct (allTransitions m !! Name f); reflexivity.
    + intros k Hk. rewrite lookup_insert_ne by congruence. reflexivity.
  - apply wellFormed_AddTransition.
  - intros sv. apply wellFormed_built. constructor.
  - intros Hb. apply wellFormed_built. constructor. exact Hb.
Qed.

End Engine.
End EngineProps.

(** ** Properties of the workflow *)

Module ControllersProps.
Import state controllers EngineProps.

Section Workflow.
Context {World : Type}.
Context {MongoDBCommunitySpec MongoDBCommunityStatus : Type}.
Context {StatefulSet Service AutomationConfig ResourceWatcher : Type}.
Context `{Ext : @Externals World MongoDBCommunitySpec MongoDBCommunityStatus
                   StatefulSet Service AutomationConfig ResourceWatcher}.
Implicit Types
  (client : @Client World MongoDBCommunitySpec MongoDBCommunityStatus
              StatefulSet Service)
  (mdb : @MongoDBCommunity MongoDBCommunitySpec MongoDBCommunityStatus)
  (secretWatcher : ResourceWatcher).

(** *** The graph *)

Lemma graph_built client mdb secretWatcher :
  built (BuildStateMachine_graph client mdb secretWatcher).
Proof. unfold BuildStateMachine_graph. repeat constructor. Qed.

Lemma graph_no_current_state client mdb secretWatcher :
  currentState (BuildStateMachine_graph client mdb secretWatcher) = None.
Proof. reflexivity. Qed.

Lemma graph_dom client mdb secretWatcher :
  dom (States (BuildStateMachine_graph client mdb secretWatcher))
  = list_to_set stateNames.
Proof. reflexivity. Qed.

Lemma graph_registered client mdb secretWatcher (n : string) :
  is_Some (States (BuildStateMachine_graph client mdb secretWatcher) !! n)
  <-> n ∈ stateNames.
Proof.
  rewrite <- elem_of_dom, graph_dom, elem_of_list_to_set. reflexivity.
Qed.

Lemma graph_startFresh client mdb secretWatcher :
  States (BuildStateMachine_graph client mdb secretWatcher)
    !! startFreshStateName
  = Some (NewStartFreshState mdb).
Proof. reflexivity. Qed.

(** No transition leaves the terminal state. *)
Lemma graph_end_is_terminal client mdb secretWatcher :
  allTransitions (BuildStateMachine_graph client mdb secretWatcher)
    !! reconciliationEndState = None.
Proof. reflexivity. Qed.

(** *** Bootstrap *)

Lemma BuildStateMachine_unfold client mdb secretWatcher n :
  getLastStateName mdb = (n, None) ->
  BuildStateMachine client mdb secretWatcher =
    let sm := BuildStateMachine_graph client mdb secretWatcher in
    let start := if String.eqb n EmptyString then startFreshStateName else n in
    match States sm !! start with
    | Some s => (Some (Machine_SetState sm s), None)
    | None =>
        (None,
         Some ("attempted to set starting state to " +:+ start
                 +:+ ", but it was not registered with the State Machine!"))
    end.
Proof.
  intros Hn. unfold BuildStateMachine. rewrite Hn. cbv zeta.
  destruct (States _ !! _); reflexivity.
Qed.

(** C5.  With the name of the last state read from the resource: the empty
    name selects the state [StartFresh]; any other name is looked up as it
    is in the registry, and the state found there, which bears that name,
    becomes the current state; a name that is not the name of a state of the
    workflow makes the construction fail with the error that names it, and
    no machine is returned. *)
Theorem BuildStateMachine_starting_state client mdb secretWatcher n :
  getLastStateName mdb = (n, None) ->
  (n = EmptyString ->
     BuildStateMachine client mdb secretWatcher
     = (Some (Machine_SetState
                (BuildStateMachine_graph client mdb secretWatcher)
                (NewStartFreshState mdb)), None)) /\
  (n <> EmptyString ->
     forall s,
       States (BuildStateMachine_graph client mdb secretWatcher) !! n = Some s ->
       Name s = n /\
       BuildStateMachine client mdb secretWatcher
       = (Some (Machine_SetState
                  (BuildStateMachine_graph client mdb secretWatcher) s), None)) /\
  (n <> EmptyString -> n ∉ stateNames ->
     BuildStateMachine client mdb secretWatcher
     = (None,
        Some ("attempted to set starting state to " +:+ n
                +:+ ", but it was not registered with the State Machine!"))) /\
  (n ∈ stateNames ->
     is_Some (States (BuildStateMachine_graph client mdb secretWatcher) !! n)).
Proof.
  intros Hn.
  pose proof (BuildStateMachine_unfold client mdb secretWatcher n Hn) as E.
  cbv zeta in E.
  split; [|split; [|split]].
  - intros ->. rewrite E. reflexivity.
  - intros Hne s Hs.
    split; [exact (States_built_named _ _ _ (graph_built _ _ _) Hs)|].
    rewrite E. apply String.eqb_neq in Hne. rewrite Hne, Hs. reflexivity.
  - intros Hne Hnot. rewrite E. apply String.eqb_neq in Hne. rewrite Hne.
    destruct (States _ !! n) as [s|] eqn:Hs; [|reflexivity].
    exfalso. apply Hnot. apply (graph_registered client mdb secretWatcher).
    rewrite Hs. eauto.
  - apply graph_registered.
Qed.

(** *** The terminal state *)

Lemma ReconciliationEnd_unfold client mdb w :
  Reconcile (NewReconciliationEndState client mdb) w =
    match json_Marshal newAllStates with
    | (bytes, Some e) =>
        (Val (reconcile.zero, Some e), w,
         [Log ErrorLevel ("error marshalling states: " +:+ e)])
    | (bytes, None) =>
        match Update client (setAnnotation mdb stateMachineAnnotation bytes) w
        with
        | (Val (Some e), w1, t1) =>
            (Val (reconcile.zero, Some e), w1,
             t1 ++ [Log ErrorLevel ("error updating annotations: " +:+ e)])
        | (Val None, w1, t1) =>
            (Val result_OK, w1,
             t1 ++ [Log InfoLevel "Successfully finished reconciliation"])
        | (Panic msg, w1, t1) => (Panic msg, w1, t1)
        end
    end.
Proof.
  cbn [NewReconciliationEndState Reconcile].
  destruct (json_Marshal newAllStates) as [bytes [e|]]; [reflexivity|].
  unfold bind.
  destruct (Update client (setAnnotation mdb stateMachineAnnotation bytes) w)
    as [[[[e|]|msg] w1] t1]; reflexivity.
Qed.

(** C10.  When the action of [ReconciliationEnd] returns without error, it
    has handed to the client's [Update], which succeeded and left the world
    as the action leaves it, the resource whose state machine annotation is
    the encoding of the record [newAllStates], whose next state is
    [StartFresh]; and a resource whose last state name reads as that next
    state, or as the empty name, makes [BuildStateMachine] start at the
    state [StartFresh], not at [ReconciliationEnd]. *)
Theorem ReconciliationEnd_resets_progress client mdb w res w1 tr :
  Reconcile (NewReconciliationEndState client mdb) w
    = (Val (res, None), w1, tr) ->
  (exists bytes t1,
     json_Marshal newAllStates = (bytes, None) /\
     NextState newAllStates = "StartFresh" /\
     Update client (setAnnotation mdb stateMachineAnnotation bytes) w
       = (Val None, w1, t1) /\
     default ∅ (Annotations (setAnnotation mdb stateMachineAnnotation bytes))
       !! stateMachineAnnotation = Some bytes /\
     (forall k, k <> stateMachineAnnotation ->
        default ∅ (Annotations (setAnnotation mdb stateMachineAnnotation bytes))
          !! k = default ∅ (Annotations mdb) !! k)) /\
  (forall client' mdb' secretWatcher,
     getLastStateName mdb' = (NextState newAllStates, None) \/
     getLastStateName mdb' = (EmptyString, None) ->
     exists sm,
       BuildStateMachine client' mdb' secretWatcher = (Some sm, None) /\
       currentState sm = Some (NewStartFreshState mdb') /\
       Name (NewStartFreshState mdb') = "StartFresh" /\
       Name (NewStartFreshState mdb') <> Name (NewReconciliationEndState client mdb)).
Proof.
  intros Hrun. split.
  - rewrite ReconciliationEnd_unfold in Hrun.
    destruct (json_Marshal newAllStates) as [bytes [e|]]; [discriminate Hrun|].
    destruct (Update client (setAnnotation mdb stateMachineAnnotation bytes) w)
      as [[[[e|]|msg] w2] t1] eqn:Hu; try discriminate Hrun.
    exists bytes, t1.
    injection Hrun as _ Hw _. subst w2.
    split; [reflexivity|]. split; [reflexivity|]. split; [exact Hu|].
    cbn [setAnnotation Annotations default]. split.
    + apply lookup_insert_eq.
    + intros k Hk. apply lookup_insert_ne. intros E. apply Hk. symmetry. exact E.
  - intros client' mdb' secretWatcher Hlast.
    exists (Machine_SetState (BuildStateMachine_graph client' mdb' secretWatcher)
              (NewStartFreshState mdb')).
    split; [|split; [reflexivity|split; [reflexivity|discriminate]]].
    destruct Hlast as [Hlast|Hlast];
      rewrite (BuildStateMachine_unfold _ _ _ _ Hlast); cbv zeta.
    + change (if String.eqb (NextState newAllStates) EmptyString
              then startFreshStateName else NextState newAllStates)
        with startFreshStateName.
      rewrite graph_startFresh. reflexivity.
    + change (if String.eqb EmptyString EmptyString
              then startFreshStateName else EmptyString)
        with startFreshStateName.
      rewrite graph_startFresh. reflexivity.
Qed.

(** A tick at the terminal state whose action succeeds finds no transition
    and hands the empty name to the saver. *)
Lemma tick_at_end_saves_empty_name client mdb secretWatcher w res w1 t1 :
  Reconcile (NewReconciliationEndState client mdb) w
    = (Val (res, None), w1, t1) ->
  saveCalls
    (traceOf
       (Machine_Reconcile
          (Machine_SetState (BuildStateMachine_graph client mdb secretWatcher)
             (NewReconciliationEndState client mdb)) w))
  = [EmptyString].
Proof.
  intros Hrun.
  destruct (Machine_Reconcile_no_check
              (Machine_SetState (BuildStateMachine_graph client mdb secretWatcher)
                 (NewReconciliationEndState client mdb))
              (NewReconciliationEndState client mdb) w res w1 t1
              eq_refl eq_refl Hrun) as (_ & _ & Hsave).
  apply (Hsave None w1 []). reflexivity.
Qed.

End Workflow.
End ControllersProps.

(** ** Further properties of the engine *)

Module EngineExtra.
Import state EngineProps.

Section Engine.
Context {World : Type}.
Implicit Types (m : Machine World) (s cur : State World)
  (x : transition World) (xs pre post : list (transition World)) (w : World).

(** *** What a tick can call *)

Lemma firstAvailable_calls xs w :
  saveCalls (traceOf (firstAvailable xs w)) = [] /\
  actionCalls (traceOf (firstAvailable xs w)) = [] /\
  guardCalls (traceOf (firstAvailable xs w)) `prefix_of` map endpoints xs.
Proof.
  revert w. induction xs as [|x xs IH]; intros w; simpl.
  - repeat split. apply prefix_nil.
  - unfold bind, call.
    destruct (predicate x w) as [[[[|]|msg] wx] tx].
    + repeat split. apply prefix_cons, prefix_nil.
    + destruct (IH wx) as (Hs & Ha & Hg).
      destruct (firstAvailable xs wx) as [[r w2] t2].
      cbn [traceOf snd] in *. repeat split; [exact Hs|exact Ha|].
      apply prefix_cons. exact Hg.
    + repeat split. apply prefix_cons, prefix_nil.
Qed.

Lemma Reconcile_finish_calls m cur res b w :
  actionCalls (traceOf (Reconcile_finish m cur res b w)) = [] /\
  (saveCalls (traceOf (Reconcile_finish m cur res b w)) = [] \/
   exists n, saveCalls (traceOf (Reconcile_finish m cur res b w)) = [n]) /\
  guardCalls (traceOf (Reconcile_finish m cur res b w))
    `prefix_of` map endpoints (default [] (allTransitions m !! Name cur)) /\
  (b = false ->
   guardCalls (traceOf (Reconcile_finish m cur res b w)) = [] /\
   saveCalls (traceOf (Reconcile_finish m cur res b w)) = []).
Proof.
  destruct b.
  - pose proof (firstAvailable_calls
                  (default [] (allTransitions m !! Name cur)) w) as Hc.
    fold (Machine_getTransitionForState m cur w) in Hc.
    destruct (Machine_getTransitionForState m cur w) as [[[o|msg] w1] t1] eqn:Hg;
      cbn [traceOf snd] in Hc; destruct Hc as (Hs & Ha & Hp).
    + destruct (SaveNextState (saver m) (nextStateName o) w1)
        as [[saved w2] t2] eqn:Hsv.
      rewrite (Reconcile_finish_complete m cur res w o w1 t1 saved w2 t2 Hg Hsv).
      cbn [traceOf snd].
      rewrite (actionCalls_finishTrace _ _ _ _ _ Ha),
        (saveCalls_finishTrace _ _ _ _ _ Hs), guardCalls_finishTrace.
      split; [reflexivity|]. split; [right; eauto|].
      split; [exact Hp|discriminate].
    + rewrite (Reconcile_finish_guard_panic m cur res w msg w1 t1 Hg).
      cbn [traceOf snd].
      change (actionCalls (?a :: t1)) with (actionCalls t1).
      change (saveCalls (?a :: t1)) with (saveCalls t1).
      change (guardCalls (?a :: t1)) with (guardCalls t1).
      rewrite Ha, Hs. split; [reflexivity|]. split; [left; reflexivity|].
      split; [exact Hp|discriminate].
  - rewrite Reconcile_finish_incomplete. cbn [traceOf snd].
    split; [reflexivity|]. split; [left; reflexivity|].
    split; [apply prefix_nil|]. intros _. split; reflexivity.
Qed.

(** X1.  Whatever its closures do, a tick of a machine with a current state
    runs the action of that state and no other, calls the saver at most
    once, and evaluates guards only of transitions registered from the
    current state's name, from the first on and in their order. *)
Theorem tick_bounded m cur w :
  currentState m = Some cur ->
  actionCalls (traceOf (Machine_Reconcile m w)) = [Name cur] /\
  (saveCalls (traceOf (Machine_Reconcile m w)) = [] \/
   exists n, saveCalls (traceOf (Machine_Reconcile m w)) = [n]) /\
  guardCalls (traceOf (Machine_Reconcile m w))
    `prefix_of` map endpoints (default [] (allTransitions m !! Name cur)).
Proof.
  intros Hc. rewrite (Machine_Reconcile_unfold m cur w Hc).
  destruct (Reconcile cur w) as [[[[res [e|]]|msg] w1] t1]; cbn [traceOf snd];
    try (split; [reflexivity|]; split; [left; reflexivity|apply prefix_nil]).
  destruct (calls_tickPrelude cur t1 (traceOf (Reconcile_check m cur res w1)))
    as (-> & -> & ->).
  rewrite Reconcile_check_unfold.
  destruct (IsComplete cur) as [check|].
  - destruct (check w1) as [[[[b [e|]]|msg] w2] t2]; cbn [traceOf snd];
      try (split; [reflexivity|]; split; [left; reflexivity|apply prefix_nil]).
    change (actionCalls (?a :: ?l)) with (actionCalls l).
    change (saveCalls (?a :: ?l)) with (saveCalls l).
    change (guardCalls (?a :: ?l)) with (guardCalls l).
    destruct (Reconcile_finish_calls m cur res b w2) as (Ha & Hs & Hg & _).
    rewrite Ha. auto.
  - destruct (Reconcile_finish_calls m cur res true w1) as (Ha & Hs & Hg & _).
    rewrite Ha. auto.
Qed.

(** X2.  A tick that evaluates a guard or calls the saver has seen the
    action of the current state return without error and has found the state
    complete: there is no completion check, or the check has answered true
    without error. *)
Theorem tick_effects_only_when_complete m cur w :
  currentState m = Some cur ->
  guardCalls (traceOf (Machine_Reconcile m w)) <> [] \/
  saveCalls (traceOf (Machine_Reconcile m w)) <> [] ->
  exists res w1 t1 w2 t2,
    Reconcile cur w = (Val (res, None), w1, t1) /\ completes cur w1 w2 t2.
Proof.
  intros Hc. rewrite (Machine_Reconcile_unfold m cur w Hc).
  destruct (Reconcile cur w) as [[[[res [e|]]|msg] w1] t1]; cbn [traceOf snd];
    try (intros [H|H]; exfalso; apply H; reflexivity).
  destruct (calls_tickPrelude cur t1 (traceOf (Reconcile_check m cur res w1)))
    as (-> & -> & _).
  rewrite Reconcile_check_unfold.
  destruct (IsComplete cur) as [check|] eqn:Hi.
  - destruct (check w1) as [[[[b [e|]]|msg] w2] t2] eqn:Hk; cbn [traceOf snd];
      try (intros [H|H]; exfalso; apply H; reflexivity).
    change (saveCalls (?a :: ?l)) with (saveCalls l).
    change (guardCalls (?a :: ?l)) with (guardCalls l).
    destruct b.
    + intros _. exists res, w1, t1, w2, [Call (StateIsComplete (Name cur)) t2].
      split; [reflexivity|]. eapply completes_check; [exact Hi|exact Hk].
    + destruct (Reconcile_finish_calls m cur res false w2)
        as (_ & _ & _ & Hf). destruct (Hf eq_refl) as (-> & ->).
      intros [H|H]; exfalso; apply H; reflexivity.
  - intros _. exists res, w1, t1, w1, [].
    split; [reflexivity|]. apply completes_no_check. exact Hi.
Qed.

(** *** Complete ticks *)

Lemma Machine_Reconcile_completes m cur w res w1 t1 w2 tc :
  currentState m = Some cur ->
  Reconcile cur w = (Val (res, None), w1, t1) ->
  completes cur w1 w2 tc ->
  Machine_Reconcile m w =
    (resultOf (Reconcile_finish m cur res true w2),
     worldOf (Reconcile_finish m cur res true w2),
     tickPrelude cur t1 ++ tc ++ traceOf (Reconcile_finish m cur res true w2)).
Proof.
  intros Hc Ha Hk. rewrite (Machine_Reconcile_unfold m cur w Hc), Ha.
  rewrite Reconcile_check_unfold.
  destruct Hk as [w1 Hi|check w1 w2 t2 Hi Hk]; rewrite Hi.
  - reflexivity.
  - rewrite Hk. reflexivity.
Qed.

(** X3.  When the state is complete, the resolution answers and the saver
    comes back, the tick returns with the world as the saver left it:
    after a successful save the action's result and no error, after a failed
    save the zero result and the saver's error.  In both cases the action
    has run and the saver was called once, with the resolved name; nothing
    is undone. *)
Theorem tick_complete_then_save m cur w res w1 t1 w2 tc o w3 tg saved w4 tsv :
  currentState m = Some cur ->
  Reconcile cur w = (Val (res, None), w1, t1) ->
  completes cur w1 w2 tc ->
  Machine_getTransitionForState m cur w2 = (Val o, w3, tg) ->
  SaveNextState (saver m) (nextStateName o) w3 = (Val saved, w4, tsv) ->
  Machine_Reconcile m w =
    (Val match saved with
         | None => (res, None)
         | Some e => (reconcile.zero, Some e)
         end,
     w4,
     tickPrelude cur t1 ++ tc
     ++ finishTrace cur tg (nextStateName o) tsv (Val saved)) /\
  actionCalls (traceOf (Machine_Reconcile m w)) = [Name cur] /\
  saveCalls (traceOf (Machine_Reconcile m w)) = [nextStateName o].
Proof.
  intros Hc Ha Hk Hg Hs.
  pose proof (firstAvailable_calls
                (default [] (allTransitions m !! Name cur)) w2) as Hcalls.
  fold (Machine_getTransitionForState m cur w2) in Hcalls. rewrite Hg in Hcalls.
  cbn [traceOf snd] in Hcalls. destruct Hcalls as (Hsg & Hag & _).
  rewrite (Machine_Reconcile_completes m cur w res w1 t1 w2 tc Hc Ha Hk).
  rewrite (Reconcile_finish_complete m cur res w2 o w3 tg (Val saved) w4 tsv
             Hg Hs).
  cbn [resultOf worldOf traceOf fst snd].
  split; [destruct saved; reflexivity|].
  destruct (calls_tickPrelude cur t1
              (tc ++ finishTrace cur tg (nextStateName o) tsv (Val saved)))
    as (_ & -> & ->).
  unfold actionCalls, saveCalls. rewrite !omap_app.
  fold (actionCalls (finishTrace cur tg (nextStateName o) tsv (Val saved))).
  fold (saveCalls (finishTrace cur tg (nextStateName o) tsv (Val saved))).
  rewrite (actionCalls_finishTrace _ _ _ _ _ Hag),
    (saveCalls_finishTrace _ _ _ _ _ Hsg).
  destruct Hk; split; reflexivity.
Qed.

Lemma Machine_Reconcile_without_transitions m cur w res w1 t1 w2 tc :
  currentState m = Some cur ->
  Reconcile cur w = (Val (res, None), w1, t1) ->
  completes cur w1 w2 tc ->
  default [] (allTransitions m !! Name cur) = [] ->
  Machine_getTransitionForState m cur w2 = (Val None, w2, []) /\
  guardCalls (traceOf (Machine_Reconcile m w)) = [] /\
  saveCalls (traceOf (Machine_Reconcile m w)) = [EmptyString].
Proof.
  intros Hc Ha Hk Hnone.
  assert (Hg : Machine_getTransitionForState m cur w2 = (Val None, w2, [])).
  { unfold Machine_getTransitionForState. rewrite Hnone. reflexivity. }
  split; [exact Hg|].
  rewrite (Machine_Reconcile_completes m cur w res w1 t1 w2 tc Hc Ha Hk).
  destruct (SaveNextState (saver m) EmptyString w2) as [[saved w3] t3] eqn:Hs.
  rewrite (Reconcile_finish_complete m cur res w2 None w2 [] saved w3 t3 Hg Hs).
  cbn [traceOf snd nextStateName].
  destruct (calls_tickPrelude cur t1
              (tc ++ finishTrace cur [] EmptyString t3 saved))
    as (-> & -> & _).
  unfold guardCalls, saveCalls. rewrite !omap_app.
  fold (guardCalls (finishTrace cur [] EmptyString t3 saved)).
  fold (saveCalls (finishTrace cur [] EmptyString t3 saved)).
  rewrite guardCalls_finishTrace,
    (saveCalls_finishTrace cur [] EmptyString t3 saved eq_refl).
  destruct Hk; split; reflexivity.
Qed.

(** X4.  A complete state from whose name no transition is registered
    is terminal: the tick evaluates no guard and hands the empty name to the
    saver.  The tick returns as that call of [SaveNextState] decides, with
    the world as the saver left it. *)
Theorem tick_without_transitions m cur w res w1 t1 w2 tc :
  currentState m = Some cur ->
  Reconcile cur w = (Val (res, None), w1, t1) ->
  completes cur w1 w2 tc ->
  default [] (allTransitions m !! Name cur) = [] ->
  Machine_getTransitionForState m cur w2 = (Val None, w2, []) /\
  guardCalls (traceOf (Machine_Reconcile m w)) = [] /\
  saveCalls (traceOf (Machine_Reconcile m w)) = [EmptyString] /\
  (forall saved w3 ts,
     SaveNextState (saver m) EmptyString w2 = (saved, w3, ts) ->
     Machine_Reconcile m w =
       (match saved with
        | Val None => Val (res, None)
        | Val (Some e) => Val (reconcile.zero, Some e)
        | Panic msg => Panic msg
        end,
        w3,
        tickPrelude cur t1 ++ tc
        ++ [Log DebugLevel ("Completed state: [" +:+ Name cur +:+ "]");
            Sleep 3; Call (SaverSaveNextState EmptyString) ts]
        ++ match saved with
           | Val (Some e) =>
               [Log DebugLevel ("Error marking state: [" +:+ Name cur
                                  +:+ "] as complete: " +:+ e)]
           | _ => []
           end)).
Proof.
  intros Hc Ha Hk Hnone.
  destruct (Machine_Reconcile_without_transitions m cur w res w1 t1 w2 tc
              Hc Ha Hk Hnone) as (Hg & Hgc & Hsc).
  split; [exact Hg|]. split; [exact Hgc|]. split; [exact Hsc|].
  intros saved w3 ts Hs.
  rewrite (Machine_Reconcile_completes m cur w res w1 t1 w2 tc Hc Ha Hk).
  rewrite (Reconcile_finish_complete m cur res w2 None w2 [] saved w3 ts Hg Hs).
  unfold finishTrace, finishResult.
  cbn [resultOf worldOf traceOf fst snd nextStateName].
  destruct saved as [[e|]|msg]; reflexivity.
Qed.

(** *** Constant guards *)

(** X5.  When the guards of a state's transitions are made by [FromBool],
    resolution leaves the world as it is and gives the first transition
    whose flag is true, or none when no flag is; [DirectTransition] is the
    flag true. *)
Theorem resolution_with_constant_guards m cur xs (flags : list bool) w :
  default [] (allTransitions m !! Name cur) = xs ->
  Forall2 (fun x b => predicate x = FromBool b) xs flags ->
  resultOf (Machine_getTransitionForState m cur w)
    = Val (firstFlagged xs flags) /\
  worldOf (Machine_getTransitionForState m cur w) = w /\
  DirectTransition = FromBool (World := World) true.
Proof.
  intros Hxs Hf. unfold Machine_getTransitionForState. rewrite Hxs. clear Hxs.
  split; [|split; [|reflexivity]].
  - induction Hf as [|x b xs flags Hp _ IH]; [reflexivity|].
    simpl. unfold bind, call. rewrite Hp. destruct b; [reflexivity|].
    cbn [FromBool ret]. destruct (firstAvailable xs w) as [[r w1] t1].
    exact IH.
  - induction Hf as [|x b xs flags Hp _ IH]; [reflexivity|].
    simpl. unfold bind, call. rewrite Hp. destruct b; [reflexivity|].
    cbn [FromBool ret]. destruct (firstAvailable xs w) as [[r w1] t1].
    exact IH.
Qed.

(** *** Building the graph *)

Lemma allTransitions_AddTransition m f t p k :
  default [] (allTransitions (Machine_AddTransition m f t p) !! k)
  = default [] (allTransitions m !! k)
    ++ (if String.eqb (Name f) k then [mkTransition f t p] else []).
Proof.
  cbn [Machine_AddTransition allTransitions].
  destruct (String.eqb_spec (Name f) k) as [<-|Hne].
  - rewrite lookup_insert_eq. destruct (allTransitions m !! Name f); reflexivity.
  - rewrite lookup_insert_ne by exact Hne. rewrite app_nil_r. reflexivity.
Qed.

Lemma AddTransitions_run m
    (calls : list (State World * State World * TransitionPredicate World)) k :
  default [] (allTransitions (AddTransitions m calls) !! k)
    = default [] (allTransitions m !! k) ++ transitionsFrom k calls /\
  currentState (AddTransitions m calls) = currentState m /\
  saver (AddTransitions m calls) = saver m /\
  (built m -> built (AddTransitions m calls)).
Proof.
  revert m. induction calls as [|c calls IH]; intros m.
  - unfold transitionsFrom. simpl. rewrite app_nil_r. auto.
  - destruct (IH (Machine_AddTransition m c.1.1 c.1.2 c.2))
      as (Ht & Hc & Hs & Hb).
    change (AddTransitions m (c :: calls))
      with (AddTransitions (Machine_AddTransition m c.1.1 c.1.2 c.2) calls).
    rewrite Ht, Hc, Hs, allTransitions_AddTransition.
    split; [|split; [reflexivity|split; [reflexivity|]]].
    + unfold transitionsFrom. simpl.
      destruct (String.eqb (Name c.1.1) k); simpl.
      * rewrite <- app_assoc. reflexivity.
      * rewrite app_nil_r. reflexivity.
    + intros Hm. apply Hb. constructor. exact Hm.
Qed.

(** X6.  After a run of [AddTransition] calls the transitions registered
    from a name are those that were there, followed by the calls of the run
    that start at that name, each one kept, in the order of the calls; the
    current state and the saver are as before. *)
Theorem AddTransitions_keeps_call_order m
    (calls : list (State World * State World * TransitionPredicate World)) k :
  default [] (allTransitions (AddTransitions m calls) !! k)
    = default [] (allTransitions m !! k) ++ transitionsFrom k calls /\
  currentState (AddTransitions m calls) = currentState m /\
  saver (AddTransitions m calls) = saver m /\
  (built m -> built (AddTransitions m calls)).
Proof. apply AddTransitions_run. Qed.

Lemma faithful_AddTransition m f t p :
  faithful m ->
  (forall s, States m !! Name f = Some s -> s = f) ->
  (forall s, States m !! Name t = Some s -> s = t) ->
  (Name f = Name t -> f = t) ->
  faithful (Machine_AddTransition m f t p).
Proof.
  intros Hm Hf Ht Hft.
  assert (Hkeep : forall s, States m !! Name s = Some s ->
            States (Machine_AddTransition m f t p) !! Name s = Some s).
  { intros s Hs. cbn [Machine_AddTransition States].
    destruct (decide (Name t = Name s)) as [E|N].
    - rewrite E, lookup_insert_eq. f_equal.
      rewrite <- E in Hs. symmetry. exact (Ht s Hs).
    - rewrite lookup_insert_ne by exact N.
      destruct (decide (Name f = Name s)) as [E|N'].
      + rewrite E, lookup_insert_eq. f_equal.
        rewrite <- E in Hs. symmetry. exact (Hf s Hs).
      + rewrite lookup_insert_ne by exact N'. exact Hs. }
  assert (Hnew : States (Machine_AddTransition m f t p) !! Name f = Some f /\
                 States (Machine_AddTransition m f t p) !! Name t = Some t).
  { destruct (States_AddTransition_endpoints m f t p) as (Et & Ef).
    split; [|exact Et]. rewrite Ef.
    destruct (decide (Name t = Name f)) as [E|N]; [|reflexivity].
    f_equal. symmetry. apply Hft. symmetry. exact E. }
  intros k xs x Hk Hin. cbn [Machine_AddTransition allTransitions] in Hk.
  destruct (decide (Name f = k)) as [<-|Hne].
  - rewrite lookup_insert_eq in Hk. injection Hk as <-.
    apply elem_of_app in Hin as [Hin|Hin].
    + destruct (allTransitions m !! Name f) as [old|] eqn:E; [|inversion Hin].
      destruct (Hm (Name f) old x E Hin) as (H1 & H2).
      split; apply Hkeep; assumption.
    + apply list_elem_of_singleton in Hin as ->. exact Hnew.
  - rewrite lookup_insert_ne in Hk by exact Hne.
    destruct (Hm k xs x Hk Hin) as (H1 & H2).
    split; apply Hkeep; assumption.
Qed.

(** X7.  As long as no call registers a state under a name that the
    registry already gives to another state, the registry stays true to the
    graph: under the name of each endpoint of each transition it holds that
    very state, so that what bootstrap finds under a name is what the
    transitions to that name mean. *)
Theorem AddTransition_keeps_registry_faithful m f t p :
  faithful m ->
  (forall s, States m !! Name f = Some s -> s = f) ->
  (forall s, States m !! Name t = Some s -> s = t) ->
  (Name f = Name t -> f = t) ->
  faithful (Machine_AddTransition m f t p) /\
  (forall sv : Saver World, faithful (NewStateMachine sv)).
Proof.
  intros Hm Hf Ht Hft. split.
  - apply faithful_AddTransition; assumption.
  - intros sv k xs x Hk. cbn [NewStateMachine allTransitions] in Hk.
    rewrite lookup_empty in Hk. discriminate Hk.
Qed.

Lemma States_AddTransition m f t p k :
  States (Machine_AddTransition m f t p) !! k
  = if String.eqb (Name t) k then Some t
    else if String.eqb (Name f) k then Some f
    else States m !! k.
Proof.
  cbn [Machine_AddTransition States].
  destruct (String.eqb_spec (Name t) k) as [<-|Ht].
  - apply lookup_insert_eq.
  - rewrite lookup_insert_ne by exact Ht.
    destruct (String.eqb_spec (Name f) k) as [<-|Hf].
    + apply lookup_insert_eq.
    + apply lookup_insert_ne. exact Hf.
Qed.

Lemma AddTransitions_States m
    (calls : list (State World * State World * TransitionPredicate World)) k :
  States (AddTransitions m calls) !! k
  = match lastNamed k (registered calls) with
    | Some s => Some s
    | None => States m !! k
    end.
Proof.
  revert m. induction calls as [|c calls IH]; intros m; [reflexivity|].
  change (AddTransitions m (c :: calls))
    with (AddTransitions (Machine_AddTransition m c.1.1 c.1.2 c.2) calls).
  rewrite IH. cbn [registered flat_map app lastNamed].
  fold (registered calls).
  destruct (lastNamed k (registered calls)) as [s|]; [reflexivity|].
  rewrite States_AddTransition.
  destruct (String.eqb (Name c.1.2) k); [reflexivity|].
  destruct (String.eqb (Name c.1.1) k); reflexivity.
Qed.

(** X8.  The registry is overwritten without notice: after a run of
    [AddTransition] calls it holds under a name the state that was
    registered last under that name, whatever stood there before and
    whatever the transitions registered earlier hold; a name that no call
    of the run bears keeps its entry. *)
Theorem AddTransitions_last_registration_wins m
    (calls : list (State World * State World * TransitionPredicate World)) k :
  States (AddTransitions m calls) !! k
  = match lastNamed k (registered calls) with
    | Some s => Some s
    | None => States m !! k
    end.
Proof. apply AddTransitions_States. Qed.

Lemma faithful_AddTransitions_new (sv : Saver World)
    (calls : list (State World * State World * TransitionPredicate World)) :
  Forall (fun c =>
            lastNamed (Name c.1.1) (registered calls) = Some c.1.1 /\
            lastNamed (Name c.1.2) (registered calls) = Some c.1.2) calls ->
  faithful (AddTransitions (NewStateMachine sv) calls).
Proof.
  intros Hall k xs x Hk Hin.
  destruct (AddTransitions_run (NewStateMachine sv) calls k) as (Ht & _).
  rewrite Hk in Ht. cbn [NewStateMachine allTransitions] in Ht.
  rewrite lookup_empty in Ht. change (xs = transitionsFrom k calls) in Ht.
  subst xs.
  unfold transitionsFrom in Hin. apply list_elem_of_fmap in Hin as (c & -> & Hc).
  apply list_elem_of_In, List.filter_In in Hc as (Hc & _).
  apply list_elem_of_In in Hc.
  rewrite Forall_forall in Hall. destruct (Hall c Hc) as (Hf & Hto).
  cbn [from to]. rewrite !AddTransitions_States, Hf, Hto. split; reflexivity.
Qed.

(** *** Unconditional transitions *)

Lemma allFalse_elem xs w w1 tr x :
  allFalse xs w w1 tr -> x ∈ xs ->
  exists wa wb tx, predicate x wa = (Val false, wb, tx).
Proof.
  induction 1 as [w|y ys w w1 w2 t1 t2 Hp _ IH]; intros Hin.
  - inversion Hin.
  - apply elem_of_cons in Hin as [->|Hin]; eauto.
Qed.

Lemma firstAvailable_with_fallback xs w o w1 tr x :
  x ∈ xs -> predicate x = FromBool true ->
  firstAvailable xs w = (Val o, w1, tr) ->
  exists y, o = Some y /\ y ∈ xs.
Proof.
  intros Hin Hp Hrun. apply firstAvailable_firstTrue in Hrun.
  inversion Hrun as [pre y post wa wb t1 wc ty Hf Hy|ys wa wb t1 Hf]; subst.
  - exists y. split; [reflexivity|]. apply elem_of_app. right. left.
  - destruct (allFalse_elem _ _ _ _ x Hf Hin) as (wa & wb & tx & Hx).
    rewrite Hp in Hx. discriminate Hx.
Qed.

Lemma getTransition_with_fallback m cur w o w1 tr x :
  x ∈ default [] (allTransitions m !! Name cur) ->
  predicate x = FromBool true ->
  Machine_getTransitionForState m cur w = (Val o, w1, tr) ->
  exists y, o = Some y /\ y ∈ default [] (allTransitions m !! Name cur).
Proof. apply firstAvailable_with_fallback. Qed.

(** X9.  A state that has an unconditional transition among those
    registered from its name, wherever in the list, never resolves to
    nothing: a resolution that returns gives one of the registered
    transitions, and the name handed on is that of its target. *)
Theorem resolution_with_fallback m cur w o w1 tr x :
  x ∈ default [] (allTransitions m !! Name cur) ->
  predicate x = DirectTransition ->
  Machine_getTransitionForState m cur w = (Val o, w1, tr) ->
  exists y,
    o = Some y /\ y ∈ default [] (allTransitions m !! Name cur) /\
    resolvedName m cur w = Some (Name (to y)).
Proof.
  intros Hin Hp Hrun.
  destruct (firstAvailable_with_fallback _ _ _ _ _ x Hin Hp Hrun)
    as (y & -> & Hy).
  exists y. split; [reflexivity|]. split; [exact Hy|].
  unfold resolvedName. rewrite Hrun. reflexivity.
Qed.

Lemma allTransitions_SetState m s :
  allTransitions (Machine_SetState m s) = allTransitions m.
Proof. reflexivity. Qed.

(** *** What a tick persists *)

Lemma Reconcile_finish_saved m cur res b w n :
  saveCalls (traceOf (Reconcile_finish m cur res b w)) = [n] ->
  n = EmptyString \/
  exists x, x ∈ default [] (allTransitions m !! Name cur) /\ n = Name (to x).
Proof.
  destruct b.
  - destruct (firstAvailable_total
                (default [] (allTransitions m !! Name cur)) w)
      as (r & w1 & t1 & Hg & Hs & _ & Hin).
    fold (Machine_getTransitionForState m cur w) in Hg.
    destruct r as [o|msg].
    + destruct (SaveNextState (saver m) (nextStateName o) w1)
        as [[saved w2] t2] eqn:Hsv.
      rewrite (Reconcile_finish_complete m cur res w o w1 t1 saved w2 t2 Hg Hsv).
      cbn [traceOf snd]. rewrite (saveCalls_finishTrace _ _ _ _ _ Hs).
      intros [= <-]. destruct o as [x|]; [right|left; reflexivity].
      exists x. split; [apply Hin; reflexivity|reflexivity].
    + rewrite (Reconcile_finish_guard_panic m cur res w msg w1 t1 Hg).
      cbn [traceOf snd]. change (saveCalls (?a :: t1)) with (saveCalls t1).
      rewrite Hs. discriminate.
  - rewrite Reconcile_finish_incomplete. discriminate.
Qed.

Lemma Machine_Reconcile_saved m cur w n :
  currentState m = Some cur ->
  saveCalls (traceOf (Machine_Reconcile m w)) = [n] ->
  n = EmptyString \/
  exists x, x ∈ default [] (allTransitions m !! Name cur) /\ n = Name (to x).
Proof.
  intros Hc. rewrite (Machine_Reconcile_unfold m cur w Hc).
  destruct (Reconcile cur w) as [[[[res [e|]]|msg] w1] t1]; cbn [traceOf snd];
    try discriminate.
  destruct (calls_tickPrelude cur t1 (traceOf (Reconcile_check m cur res w1)))
    as (_ & -> & _).
  rewrite Reconcile_check_unfold.
  destruct (IsComplete cur) as [check|].
  - destruct (check w1) as [[[[b [e|]]|msg] w2] t2]; cbn [traceOf snd];
      try discriminate.
    change (saveCalls (?a :: ?l)) with (saveCalls l).
    apply Reconcile_finish_saved.
  - apply Reconcile_finish_saved.
Qed.

(** X23.  In a machine that keeps the registry invariant, the name a tick
    hands to the saver is the empty name or the name of a registered state,
    the target of a transition registered from the current state's name:
    the engine persists nothing that a lookup in the registry would not
    find. *)
Theorem tick_saves_a_registered_name m cur w n :
  wellFormed m ->
  currentState m = Some cur ->
  saveCalls (traceOf (Machine_Reconcile m w)) = [n] ->
  n = EmptyString \/
  (is_Some (States m !! n) /\
   exists x, x ∈ default [] (allTransitions m !! Name cur) /\ n = Name (to x)).
Proof.
  intros Hwf Hc Hs.
  destruct (Machine_Reconcile_saved m cur w n Hc Hs) as [->|(x & Hx & ->)];
    [left; reflexivity|right].
  split; [|eauto].
  destruct (allTransitions m !! Name cur) as [xs|] eqn:Hk; [|inversion Hx].
  destruct (Hwf (Name cur) xs x Hk Hx) as (_ & _ & Hto). exact Hto.
Qed.

End Engine.
End EngineExtra.

(** ** Further properties of the workflow *)

Module ControllersExtra.
Import state controllers EngineProps ControllersProps EngineExtra.

Section Workflow.
Context {World : Type}.
Context {MongoDBCommunitySpec MongoDBCommunityStatus : Type}.
Context {StatefulSet Service AutomationConfig ResourceWatcher : Type}.
Context `{Ext : @Externals World MongoDBCommunitySpec MongoDBCommunityStatus
                   StatefulSet Service AutomationConfig ResourceWatcher}.
Implicit Types
  (client : @Client World MongoDBCommunitySpec MongoDBCommunityStatus
              StatefulSet Service)
  (mdb : @MongoDBCommunity MongoDBCommunitySpec MongoDBCommunityStatus)
  (secretWatcher : ResourceWatcher) (w : World).

(** *** The graph and its registry *)

Lemma graph_as_calls client mdb secretWatcher :
  BuildStateMachine_graph client mdb secretWatcher
  = AddTransitions
      (NewStateMachine (MongoDBCommunityCompleter (NamespacedName mdb) client))
      (workflowCalls client mdb secretWatcher).
Proof. reflexivity. Qed.

Lemma graph_faithful client mdb secretWatcher :
  faithful (BuildStateMachine_graph client mdb secretWatcher).
Proof.
  rewrite graph_as_calls. apply faithful_AddTransitions_new.
  unfold workflowCalls. cbv zeta.
  repeat (apply Forall_cons; split; [split; reflexivity|]).
  apply Forall_nil. exact I.
Qed.

Lemma graph_transitions client mdb secretWatcher (k : string) :
  default [] (allTransitions (BuildStateMachine_graph client mdb secretWatcher)
                !! k)
  = transitionsFrom k (workflowCalls client mdb secretWatcher).
Proof.
  rewrite graph_as_calls.
  destruct (AddTransitions_run
              (NewStateMachine
                 (MongoDBCommunityCompleter (NamespacedName mdb) client))
              (workflowCalls client mdb secretWatcher) k) as (-> & _).
  cbn [NewStateMachine allTransitions]. rewrite lookup_empty. reflexivity.
Qed.

Lemma graph_targets_registered client mdb secretWatcher x k :
  x ∈ default [] (allTransitions
                    (BuildStateMachine_graph client mdb secretWatcher) !! k) ->
  Name (from x) = k /\ Name (to x) ∈ stateNames.
Proof.
  intros Hin.
  destruct (allTransitions (BuildStateMachine_graph client mdb secretWatcher)
              !! k) as [xs|] eqn:Hk; [|inversion Hin].
  destruct (wellFormed_built _ (graph_built client mdb secretWatcher)
              k xs x Hk Hin) as (Hf & _ & Hto).
  split; [exact Hf|].
  apply (graph_registered client mdb secretWatcher). exact Hto.
Qed.

Lemma stateNames_not_empty (n : string) :
  n ∈ stateNames -> n <> EmptyString.
Proof.
  intros Hn ->. unfold stateNames in Hn.
  repeat (apply elem_of_cons in Hn as [Hn|Hn]; [discriminate Hn|]).
  inversion Hn.
Qed.

(** X10.  [BuildStateMachine] returns either a machine and no error, or an
    error and no machine.  The machine it returns is the graph of the
    workflow with a current state set: a state of the workflow, the one the
    registry holds under its name; so a tick of it does not panic for want
    of a current state.  An error of [getLastStateName] gives an error that
    carries it. *)
Theorem BuildStateMachine_result client mdb secretWatcher :
  ((exists s,
      BuildStateMachine client mdb secretWatcher
      = (Some (Machine_SetState
                 (BuildStateMachine_graph client mdb secretWatcher) s), None) /\
      Name s ∈ stateNames /\
      States (BuildStateMachine_graph client mdb secretWatcher) !! Name s
      = Some s /\
      forall w,
        traceOf (Machine_Reconcile
                   (Machine_SetState
                      (BuildStateMachine_graph client mdb secretWatcher) s) w)
        <> []) \/
   (exists e, BuildStateMachine client mdb secretWatcher = (None, Some e))) /\
  (forall n e,
     getLastStateName mdb = (n, Some e) ->
     BuildStateMachine client mdb secretWatcher
     = (None,
        Some ("error fetching last state name from MongoDBCommunity annotations: "
                +:+ e))).
Proof.
  split.
  - destruct (getLastStateName mdb) as [n [e|]] eqn:Hn.
    + right. unfold BuildStateMachine. rewrite Hn. eauto.
    + rewrite (BuildStateMachine_unfold client mdb secretWatcher n Hn).
      cbv zeta.
      destruct (States (BuildStateMachine_graph client mdb secretWatcher)
                  !! (if String.eqb n EmptyString then startFreshStateName
                      else n)) as [s|] eqn:Hs; [left|right; eauto].
      pose proof (States_built_named _ _ _
                    (graph_built client mdb secretWatcher) Hs) as Hname.
      exists s. split; [reflexivity|]. split; [|split].
      * apply (graph_registered client mdb secretWatcher).
        rewrite Hname, Hs. eauto.
      * rewrite Hname. exact Hs.
      * intros w.
        destruct (Machine_Reconcile_prelude
                    (Machine_SetState
                       (BuildStateMachine_graph client mdb secretWatcher) s)
                    s w eq_refl) as [rest ->].
        discriminate.
  - intros n e Hn. unfold BuildStateMachine. rewrite Hn. reflexivity.
Qed.

(** X11.  No state of the workflow has overwritten another: the ten names
    are distinct and are the names of the registry, and the registry holds
    under the name of each endpoint of each transition of the graph that
    very state. *)
Theorem workflow_registry_is_faithful client mdb secretWatcher :
  faithful (BuildStateMachine_graph client mdb secretWatcher) /\
  NoDup stateNames /\
  dom (States (BuildStateMachine_graph client mdb secretWatcher))
  = list_to_set stateNames /\
  length (workflowCalls client mdb secretWatcher) = 21%nat /\
  BuildStateMachine_graph client mdb secretWatcher
  = AddTransitions
      (NewStateMachine (MongoDBCommunityCompleter (NamespacedName mdb) client))
      (workflowCalls client mdb secretWatcher).
Proof.
  split; [apply graph_faithful|]. split; [|split; [apply graph_dom|]].
  - unfold stateNames. repeat (apply NoDup_cons; split;
      [intros Hin; repeat (apply elem_of_cons in Hin as [Hin|Hin];
                             [discriminate Hin|]); inversion Hin|]).
    apply NoDup_nil. exact I.
  - split; reflexivity.
Qed.

(** X12.  From [ValidateSpec] the first registered transition is the
    unconditional one to [CreateService]: resolution takes it and evaluates
    no other guard, so the three transitions registered behind it, to
    [TLSValidation], [DeployAutomationConfig] and [DeployStatefulSet], are
    never taken. *)
Theorem ValidateSpec_always_goes_to_CreateService client mdb secretWatcher w :
  Machine_getTransitionForState
    (BuildStateMachine_graph client mdb secretWatcher)
    (NewValidateSpecState client mdb) w
  = (Val (Some (mkTransition (NewValidateSpecState client mdb)
                  (NewCreateServiceState client mdb) noCondition)),
     w, [Call (Predicate "ValidateSpec" "CreateService") []]) /\
  map (fun x => Name (to x))
      (default [] (allTransitions
                     (BuildStateMachine_graph client mdb secretWatcher)
                     !! "ValidateSpec"))
  = ["CreateService"; "TLSValidation"; "DeployAutomationConfig";
     "DeployStatefulSet"].
Proof. split; reflexivity. Qed.

(** X13.  Where all guards of a state are constant for the tick, resolution
    leaves the world as it is and gives: from [StartFresh], [ValidateSpec];
    from [TLSValidation], [CreateTLSResources]; from
    [ResetStatefulSetUpdateStrategy], [UpdateStatus]; from [UpdateStatus],
    [DeployStatefulSet] while the resource is still scaling and
    [ReconciliationEnd] otherwise; from [ReconciliationEnd], nothing. *)
Theorem workflow_constant_branches client mdb secretWatcher w :
  let g := BuildStateMachine_graph client mdb secretWatcher in
  (resolvedName g (NewStartFreshState mdb) w = Some "ValidateSpec" /\
   worldOf (Machine_getTransitionForState g (NewStartFreshState mdb) w) = w) /\
  (resolvedName g (NewTLSValidationState client mdb secretWatcher) w
   = Some "CreateTLSResources" /\
   worldOf (Machine_getTransitionForState g
              (NewTLSValidationState client mdb secretWatcher) w) = w) /\
  (resolvedName g (NewResetStatefulSetUpdateStrategyState client mdb) w
   = Some "UpdateStatus" /\
   worldOf (Machine_getTransitionForState g
              (NewResetStatefulSetUpdateStrategyState client mdb) w) = w) /\
  (resolvedName g (NewUpdateStatusState client mdb) w
   = Some (if scale_IsStillScaling mdb then "DeployStatefulSet"
           else "ReconciliationEnd") /\
   worldOf (Machine_getTransitionForState g (NewUpdateStatusState client mdb) w)
   = w) /\
  (resolvedName g (NewReconciliationEndState client mdb) w = Some EmptyString /\
   worldOf (Machine_getTransitionForState g
              (NewReconciliationEndState client mdb) w) = w).
Proof.
  cbv zeta. repeat split; try reflexivity.
  - unfold resolvedName, Machine_getTransitionForState.
    rewrite graph_transitions. cbn.
    unfold bind, call. cbn. destruct (scale_IsStillScaling mdb); reflexivity.
  - unfold Machine_getTransitionForState.
    rewrite graph_transitions. cbn.
    unfold bind, call. cbn. destruct (scale_IsStillScaling mdb); reflexivity.
Qed.

Lemma transitionsFrom_elem (k : string)
    (calls : list (State World * State World * TransitionPredicate World)) c :
  c ∈ calls -> String.eqb (Name c.1.1) k = true ->
  mkTransition c.1.1 c.1.2 c.2 ∈ transitionsFrom k calls.
Proof.
  intros Hc Hk. unfold transitionsFrom.
  apply list_elem_of_fmap. exists c. split; [reflexivity|].
  apply list_elem_of_In, List.filter_In. split; [|exact Hk].
  apply list_elem_of_In. exact Hc.
Qed.

Ltac pick_call c :=
  exists c; split;
  [ unfold workflowCalls; cbv zeta; apply list_elem_of_In; cbn [In];
    repeat (first [left; reflexivity|right])
  | split; reflexivity ].

(** The call of the workflow that gives the state named [n] its
    unconditional way out. *)
Lemma fallback_call client mdb secretWatcher n :
  n ∈ fallbackStateNames ->
  exists c,
    c ∈ workflowCalls client mdb secretWatcher /\
    String.eqb (Name c.1.1) n = true /\ c.2 = noCondition.
Proof.
  intros Hn. unfold fallbackStateNames in Hn.
  apply elem_of_cons in Hn as [->|Hn].
  { pick_call (NewStartFreshState mdb, NewValidateSpecState client mdb,
               noCondition (World := World)). }
  apply elem_of_cons in Hn as [->|Hn].
  { pick_call (NewValidateSpecState client mdb,
               NewCreateServiceState client mdb,
               noCondition (World := World)). }
  apply elem_of_cons in Hn as [->|Hn].
  { pick_call (NewTLSValidationState client mdb secretWatcher,
               NewEnsureTLSResourcesState client mdb,
               noCondition (World := World)). }
  apply elem_of_cons in Hn as [->|Hn].
  { pick_call (NewDeployAutomationConfigState client mdb,
               NewUpdateStatusState client mdb,
               noCondition (World := World)). }
  apply elem_of_cons in Hn as [->|Hn].
  { pick_call (NewDeployStatefulSetState client mdb,
               NewUpdateStatusState client mdb,
               noCondition (World := World)). }
  apply elem_of_cons in Hn as [->|Hn].
  { pick_call (NewResetStatefulSetUpdateStrategyState client mdb,
               NewUpdateStatusState client mdb,
               noCondition (World := World)). }
  apply elem_of_cons in Hn as [->|Hn].
  { pick_call (NewUpdateStatusState client mdb,
               NewReconciliationEndState client mdb,
               noCondition (World := World)). }
  inversion Hn.
Qed.

(** X14.  Seven states of the workflow have an unconditional way out:
    [StartFresh], [ValidateSpec], [TLSValidation],
    [DeployAutomationConfig], [DeployStatefulSet],
    [ResetStatefulSetUpdateStrategy] and [UpdateStatus].  Whatever their
    other guards answer, a resolution from one of them that returns gives a
    transition of the graph to a state of the workflow, never the empty
    name. *)
Theorem workflow_fallback_states_never_stop client mdb secretWatcher n s w
    o w1 tr :
  n ∈ fallbackStateNames ->
  States (BuildStateMachine_graph client mdb secretWatcher) !! n = Some s ->
  Machine_getTransitionForState
    (BuildStateMachine_graph client mdb secretWatcher) s w = (Val o, w1, tr) ->
  exists y,
    o = Some y /\ Name (from y) = n /\ Name (to y) ∈ stateNames /\
    Name (to y) <> EmptyString.
Proof.
  intros Hn Hs Hrun.
  pose proof (States_built_named _ _ _
                (graph_built client mdb secretWatcher) Hs) as Hname.
  destruct (fallback_call client mdb secretWatcher n Hn) as (c & Hc & Hk & Hp).
  rewrite <- Hname in Hk.
  pose proof (transitionsFrom_elem (Name s) _ c Hc Hk) as Hin.
  rewrite <- (graph_transitions client mdb secretWatcher) in Hin.
  destruct (getTransition_with_fallback
              (BuildStateMachine_graph client mdb secretWatcher) s
              w o w1 tr (mkTransition c.1.1 c.1.2 c.2) Hin Hp Hrun)
    as (y & -> & Hy).
  exists y. split; [reflexivity|].
  destruct (graph_targets_registered client mdb secretWatcher y (Name s) Hy)
    as (Hfrom & Hto).
  split; [rewrite Hfrom; exact Hname|].
  split; [exact Hto|]. apply stateNames_not_empty. exact Hto.
Qed.

(** X15.  From [CreateService]: with TLS enabled the next state is
    [TLSValidation] and [needToPublishStateFirst] is not asked.  With TLS
    disabled it is asked; a true answer gives [DeployAutomationConfig]; a
    false answer makes the next guard ask it again, and a second false
    answer gives [DeployStatefulSet], while an answer that has turned true
    in between leaves no transition, and the name handed on is empty. *)
Theorem CreateService_branches client mdb secretWatcher w :
  let g := BuildStateMachine_graph client mdb secretWatcher in
  let cur := NewCreateServiceState client mdb in
  (TLSEnabled (Spec mdb) = true ->
   resolvedName g cur w = Some "TLSValidation" /\
   worldOf (Machine_getTransitionForState g cur w) = w) /\
  (TLSEnabled (Spec mdb) = false ->
   forall b w1 t1,
     needToPublishStateFirst client mdb w = (Val b, w1, t1) ->
     (b = true ->
      resolvedName g cur w = Some "DeployAutomationConfig" /\
      worldOf (Machine_getTransitionForState g cur w) = w1) /\
     (b = false ->
      forall b2 w2 t2,
        needToPublishStateFirst client mdb w1 = (Val b2, w2, t2) ->
        resolvedName g cur w
        = Some (if b2 then EmptyString else "DeployStatefulSet") /\
        worldOf (Machine_getTransitionForState g cur w) = w2)).
Proof.
  cbv zeta. unfold resolvedName, Machine_getTransitionForState.
  rewrite graph_transitions. cbn. unfold bind, call. cbn.
  split.
  - intros ->. split; reflexivity.
  - intros -> b w1 t1 H1. rewrite H1. split.
    + intros ->. split; reflexivity.
    + intros -> b2 w2 t2 H2. rewrite H2. destruct b2; split; reflexivity.
Qed.

(** *** The actions and checks of the states *)

(** X16.  [ensureService] adopts a service that is already there: it
    returns an error only when [Create] failed with an error that is not
    "already exists", and then that error; the world is as [Create] left
    it. *)
Theorem ensureService_adopts_existing client mdb w r w1 t1 :
  Create client (buildService mdb) w = (Val r, w1, t1) ->
  resultOf (ensureService client mdb w)
  = Val match r with
        | Some e => if apiErrors_IsAlreadyExists e then None else Some e
        | None => None
        end /\
  worldOf (ensureService client mdb w) = w1 /\
  (forall e, resultOf (ensureService client mdb w) = Val (Some e) ->
             r = Some e /\ apiErrors_IsAlreadyExists e = false).
Proof.
  intros Hc. unfold ensureService, bind. rewrite Hc.
  destruct r as [e|]; [destruct (apiErrors_IsAlreadyExists e) eqn:Ha|];
    cbn [Infof emit ret resultOf worldOf fst snd];
    (split; [reflexivity|split; [reflexivity|]]); intros e' [=].
  subst e'. split; [reflexivity|exact Ha].
Qed.

(** X17.  The completion check of [CreateService] never answers "not yet":
    when [GetService] returns, the check gives true and no error if
    [GetService] gave no error, and false with that very error otherwise, so
    a tick at this state either goes on or fails. *)
Theorem CreateService_check_never_waits client mdb w svc err w1 t1 :
  GetService client
    {| types.Name := ServiceName mdb; types.Namespace := Namespace mdb |} w
  = (Val (svc, err), w1, t1) ->
  exists check,
    IsComplete (NewCreateServiceState client mdb) = Some check /\
    check w = (Val (match err with None => true | Some _ => false end, err),
               w1, t1 ++ []) /\
    resultOf (check w) <> Val (false, None).
Proof.
  intros Hg. eexists. split; [reflexivity|].
  unfold bind. rewrite Hg. cbn [ret]. split; [reflexivity|].
  cbn [resultOf fst]. destruct err; discriminate.
Qed.

(** X18.  [UpdateStatus], when the resource is not scaling and the status
    update went through, returns [result.Retry(0)] whatever the two
    annotation updates return: their errors are logged and dropped, and the
    second update is made on the resource as the first left it. *)
Theorem UpdateStatus_drops_annotation_errors client mdb w mdb1 res w1 t1
    mdb2 e1 w2 t2 e2 w3 t3 :
  scale_IsStillScaling mdb = false ->
  status_Update client mdb
    [withMongoURI (MongoURI mdb);
     withMongoDBMembers (AutomationConfigMembersThisReconciliation mdb);
     withStatefulSetReplicas (StatefulSetReplicasThisReconciliation mdb);
     withMessage severity.None EmptyString;
     withRunningPhase] w = (Val (mdb1, (res, None)), w1, t1) ->
  annotations_UpdateLastAppliedMongoDBVersion mdb1 client w1
  = (Val (mdb2, e1), w2, t2) ->
  updateLastSuccessfulConfiguration client mdb2 w2 = (Val e2, w3, t3) ->
  resultOf (Reconcile (NewUpdateStatusState client mdb) w)
  = Val (result_Retry 0) /\
  worldOf (Reconcile (NewUpdateStatusState client mdb) w) = w3.
Proof.
  intros Hs Hu Ha Hl. cbn [NewUpdateStatusState Reconcile]. rewrite Hs.
  unfold bind. rewrite Hu. cbv beta iota. rewrite Ha. cbv beta iota.
  destruct e1 as [e1|]; cbn [Errorf emit ret]; rewrite Hl;
    destruct e2 as [e2|]; split; reflexivity.
Qed.

(** X19.  The completion check of [DeployAutomationConfig] lets a "not
    found" error of [GetStatefulSet] pass: any other error ends the check
    with an error that carries it, before [ensureAutomationConfig] is
    called, while after "not found", as after no error, the check goes on
    to [ensureAutomationConfig] and gives its error or the answer of
    [AllReachedGoalState]. *)
Theorem DeployAutomationConfig_check_tolerates_not_found client mdb w sts err
    w1 t1 :
  GetStatefulSet client (NamespacedName mdb) w = (Val (sts, err), w1, t1) ->
  exists check,
    IsComplete (NewDeployAutomationConfigState client mdb) = Some check /\
    (forall e, err = Some e -> apiErrors_IsNotFound e = false ->
       check w = (Val (false, Some ("failed to get StatefulSet: " +:+ e)),
                  w1, t1 ++ [])) /\
    ((err = None \/ exists e, err = Some e /\ apiErrors_IsNotFound e = true) ->
     forall ac cerr w2 t2,
       ensureAutomationConfig client mdb w1 = (Val (ac, cerr), w2, t2) ->
       match cerr with
       | Some e =>
           check w
           = (Val (false, Some ("failed to ensure AutomationConfig: " +:+ e)),
              w2, t1 ++ t2 ++ [])
       | None =>
           resultOf (check w)
           = resultOf (agent_AllReachedGoalState sts client
                         (StatefulSetReplicasThisReconciliation mdb)
                         (Version ac) w2) /\
           worldOf (check w)
           = worldOf (agent_AllReachedGoalState sts client
                        (StatefulSetReplicasThisReconciliation mdb)
                        (Version ac) w2)
       end).
Proof.
  intros Hg. eexists. split; [reflexivity|]. split.
  - intros e -> Hnf. unfold bind. rewrite Hg. cbv beta iota zeta.
    rewrite Hnf. reflexivity.
  - intros Hok ac cerr w2 t2 He.
    destruct Hok as [->|(e & -> & Hnf)];
      unfold bind; rewrite Hg; cbv beta iota zeta;
      rewrite ?Hnf; cbn [negb]; rewrite He;
      (destruct cerr as [e'|]; [reflexivity|]); cbv beta iota;
      destruct (agent_AllReachedGoalState sts client
                  (StatefulSetReplicasThisReconciliation mdb) (Version ac) w2)
        as [[r w3] t3]; split; reflexivity.
Qed.

Lemma graph_saver client mdb secretWatcher s :
  saver (Machine_SetState (BuildStateMachine_graph client mdb secretWatcher) s)
  = MongoDBCommunityCompleter (NamespacedName mdb) client.
Proof. reflexivity. Qed.

Lemma ValidateSpec_failure_run client mdb w e w1 t1 mdb' r w2 t2 :
  validateUpdate mdb w = (Val (Some e), w1, t1) ->
  status_Update client mdb
    [withMessage severity.Error ("error validating new Spec: " +:+ e);
     withFailedPhase] w1 = (Val (mdb', r), w2, t2) ->
  Reconcile (NewValidateSpecState client mdb) w
  = (Val r, w2,
     [Log DebugLevel "Validating MongoDB.Spec"] ++ t1 ++ t2 ++ []).
Proof.
  intros Hv Hu. cbn [NewValidateSpecState Reconcile].
  unfold returnStatusUpdate, bind. cbn [Debugf emit]. rewrite Hv.
  cbv beta iota. rewrite Hu. reflexivity.
Qed.

(** X20.  When [validateUpdate] rejects the resource, the action of
    [ValidateSpec] returns what [status.Update] returns for the failed
    phase, not the validation error.  If that carries no error, the state
    counts as complete and the tick hands [CreateService] to the saver, and
    returns as that call of [SaveNextState] decides, with the world as the
    saver left it; if it carries an error, the tick returns it and the saver
    is not called. *)
Theorem ValidateSpec_failure_is_reported_through_status client mdb
    secretWatcher w e w1 t1 mdb' r w2 t2 :
  validateUpdate mdb w = (Val (Some e), w1, t1) ->
  status_Update client mdb
    [withMessage severity.Error ("error validating new Spec: " +:+ e);
     withFailedPhase] w1 = (Val (mdb', r), w2, t2) ->
  resultOf (Reconcile (NewValidateSpecState client mdb) w) = Val r /\
  worldOf (Reconcile (NewValidateSpecState client mdb) w) = w2 /\
  (r.2 = None ->
   saveCalls
     (traceOf
        (Machine_Reconcile
           (Machine_SetState (BuildStateMachine_graph client mdb secretWatcher)
              (NewValidateSpecState client mdb)) w))
   = ["CreateService"]) /\
  (forall e', r.2 = Some e' ->
   resultOf
     (Machine_Reconcile
        (Machine_SetState (BuildStateMachine_graph client mdb secretWatcher)
           (NewValidateSpecState client mdb)) w) = Val r /\
   saveCalls
     (traceOf
        (Machine_Reconcile
           (Machine_SetState (BuildStateMachine_graph client mdb secretWatcher)
              (NewValidateSpecState client mdb)) w))
   = []) /\
  (r.2 = None ->
   forall saved w3 ts,
     SaveNextState (MongoDBCommunityCompleter (NamespacedName mdb) client)
       "CreateService" w2 = (saved, w3, ts) ->
     resultOf
       (Machine_Reconcile
          (Machine_SetState (BuildStateMachine_graph client mdb secretWatcher)
             (NewValidateSpecState client mdb)) w)
     = match saved with
       | Val None => Val (r.1, None)
       | Val (Some e') => Val (reconcile.zero, Some e')
       | Panic msg => Panic msg
       end /\
     worldOf
       (Machine_Reconcile
          (Machine_SetState (BuildStateMachine_graph client mdb secretWatcher)
             (NewValidateSpecState client mdb)) w) = w3).
Proof.
  intros Hv Hu.
  pose proof (ValidateSpec_failure_run client mdb w e w1 t1 mdb' r w2 t2 Hv Hu)
    as Hrun.
  split; [rewrite Hrun; reflexivity|]. split; [rewrite Hrun; reflexivity|].
  destruct r as [res err]. cbn [fst snd]. split; [|split].
  - intros ->.
    destruct (Machine_Reconcile_no_check
                (Machine_SetState
                   (BuildStateMachine_graph client mdb secretWatcher)
                   (NewValidateSpecState client mdb))
                (NewValidateSpecState client mdb) w res w2 _
                eq_refl eq_refl Hrun) as (_ & _ & Hsave).
    apply (Hsave (Some (mkTransition (NewValidateSpecState client mdb)
                          (NewCreateServiceState client mdb) noCondition))
             w2 [Call (Predicate "ValidateSpec" "CreateService") []]).
    reflexivity.
  - intros e' ->.
    rewrite (Machine_Reconcile_unfold
               (Machine_SetState
                  (BuildStateMachine_graph client mdb secretWatcher)
                  (NewValidateSpecState client mdb))
               (NewValidateSpecState client mdb) w eq_refl), Hrun.
    split; reflexivity.
  - intros -> saved w3 ts Hs.
    destruct (Machine_Reconcile_no_check
                (Machine_SetState
                   (BuildStateMachine_graph client mdb secretWatcher)
                   (NewValidateSpecState client mdb))
                (NewValidateSpecState client mdb) w res w2 _
                eq_refl eq_refl Hrun) as (Htick & _ & _).
    assert (Hg : Machine_getTransitionForState
                   (Machine_SetState
                      (BuildStateMachine_graph client mdb secretWatcher)
                      (NewValidateSpecState client mdb))
                   (NewValidateSpecState client mdb) w2
                 = (Val (Some (mkTransition (NewValidateSpecState client mdb)
                                 (NewCreateServiceState client mdb)
                                 noCondition)),
                    w2, [Call (Predicate "ValidateSpec" "CreateService") []]))
      by reflexivity.
    rewrite <- (graph_saver client mdb secretWatcher
                  (NewValidateSpecState client mdb)) in Hs.
    rewrite Htick.
    rewrite (Reconcile_finish_complete _ _ res w2 _ w2 _ saved w3 ts Hg Hs).
    unfold finishResult. cbn [resultOf worldOf fst snd].
    split; [destruct saved as [[e'|]|msg]; reflexivity|reflexivity].
Qed.

(** X21.  The two ways the action of [ReconciliationEnd] fails.  When
    [json.Marshal] fails, the action returns the zero result and that error
    and the client's [Update] is not called: the world is untouched.  When
    [Update] fails, the action returns the zero result and that error.  In
    both cases the tick returns the error and the saver is not called. *)
Theorem ReconciliationEnd_failures client mdb secretWatcher w bytes :
  (forall e,
     json_Marshal newAllStates = (bytes, Some e) ->
     Reconcile (NewReconciliationEndState client mdb) w
     = (Val (reconcile.zero, Some e), w,
        [Log ErrorLevel ("error marshalling states: " +:+ e)])) /\
  (forall e w1 t1,
     json_Marshal newAllStates = (bytes, None) ->
     Update client (setAnnotation mdb stateMachineAnnotation bytes) w
     = (Val (Some e), w1, t1) ->
     Reconcile (NewReconciliationEndState client mdb) w
     = (Val (reconcile.zero, Some e), w1,
        t1 ++ [Log ErrorLevel ("error updating annotations: " +:+ e)])) /\
  (forall e w1 t1,
     Reconcile (NewReconciliationEndState client mdb) w
     = (Val (reconcile.zero, Some e), w1, t1) ->
     resultOf
       (Machine_Reconcile
          (Machine_SetState (BuildStateMachine_graph client mdb secretWatcher)
             (NewReconciliationEndState client mdb)) w)
     = Val (reconcile.zero, Some e) /\
     saveCalls
       (traceOf
          (Machine_Reconcile
             (Machine_SetState
                (BuildStateMachine_graph client mdb secretWatcher)
                (NewReconciliationEndState client mdb)) w))
     = []).
Proof.
  split; [|split].
  - intros e Hm. rewrite ReconciliationEnd_unfold, Hm. reflexivity.
  - intros e w1 t1 Hm Hu. rewrite ReconciliationEnd_unfold, Hm, Hu.
    reflexivity.
  - intros e w1 t1 Hrun.
    rewrite (Machine_Reconcile_unfold
               (Machine_SetState
                  (BuildStateMachine_graph client mdb secretWatcher)
                  (NewReconciliationEndState client mdb))
               (NewReconciliationEndState client mdb) w eq_refl), Hrun.
    split; reflexivity.
Qed.

(** X22.  A tick at [ReconciliationEnd] whose action succeeds evaluates no
    guard, as no transition leaves that state, and calls the saver once,
    with the empty name: what is persisted after a finished pipeline is the
    empty name, which bootstrap reads as [StartFresh].  The tick returns as
    that call of [SaveNextState] decides, with the world as the saver left
    it. *)
Theorem ReconciliationEnd_tick_saves_empty_name client mdb secretWatcher w res
    w1 t1 :
  Reconcile (NewReconciliationEndState client mdb) w
  = (Val (res, None), w1, t1) ->
  guardCalls
    (traceOf
       (Machine_Reconcile
          (Machine_SetState (BuildStateMachine_graph client mdb secretWatcher)
             (NewReconciliationEndState client mdb)) w)) = [] /\
  saveCalls
    (traceOf
       (Machine_Reconcile
          (Machine_SetState (BuildStateMachine_graph client mdb secretWatcher)
             (NewReconciliationEndState client mdb)) w)) = [EmptyString] /\
  (forall client' mdb' secretWatcher',
     getLastStateName mdb' = (EmptyString, None) ->
     BuildStateMachine client' mdb' secretWatcher'
     = (Some (Machine_SetState
                (BuildStateMachine_graph client' mdb' secretWatcher')
                (NewStartFreshState mdb')), None)) /\
  (forall saved w2 ts,
     SaveNextState (MongoDBCommunityCompleter (NamespacedName mdb) client)
       EmptyString w1 = (saved, w2, ts) ->
     resultOf
       (Machine_Reconcile
          (Machine_SetState (BuildStateMachine_graph client mdb secretWatcher)
             (NewReconciliationEndState client mdb)) w)
     = match saved with
       | Val None => Val (res, None)
       | Val (Some e) => Val (reconcile.zero, Some e)
       | Panic msg => Panic msg
       end /\
     worldOf
       (Machine_Reconcile
          (Machine_SetState (BuildStateMachine_graph client mdb secretWatcher)
             (NewReconciliationEndState client mdb)) w) = w2).
Proof.
  intros Hrun.
  assert (Hk : completes (NewReconciliationEndState client mdb) w1 w1 [])
    by (apply completes_no_check; reflexivity).
  destruct (Machine_Reconcile_without_transitions
              (Machine_SetState
                 (BuildStateMachine_graph client mdb secretWatcher)
                 (NewReconciliationEndState client mdb))
              (NewReconciliationEndState client mdb) w res w1 t1 w1 []
              eq_refl Hrun Hk eq_refl)
    as (Hres & Hg & Hs).
  split; [exact Hg|]. split; [exact Hs|]. split.
  - intros client' mdb' secretWatcher' Hn.
    rewrite (BuildStateMachine_unfold _ _ _ _ Hn). cbv zeta.
    change (if String.eqb EmptyString EmptyString
            then startFreshStateName else EmptyString)
      with startFreshStateName.
    rewrite graph_startFresh. reflexivity.
  - intros saved w2 ts Hsv.
    rewrite <- (graph_saver client mdb secretWatcher
                  (NewReconciliationEndState client mdb)) in Hsv.
    rewrite (Machine_Reconcile_completes
               (Machine_SetState
                  (BuildStateMachine_graph client mdb secretWatcher)
                  (NewReconciliationEndState client mdb))
               (NewReconciliationEndState client mdb) w res w1 t1 w1 []
               eq_refl Hrun Hk).
    rewrite (Reconcile_finish_complete _ _ res w1 None w1 [] saved w2 ts
               Hres Hsv).
    unfold finishResult. cbn [resultOf worldOf fst snd].
    split; [destruct saved as [[e|]|msg]; reflexivity|reflexivity].
Qed.

(** *** From one invocation to the next *)

(** X24.  Whatever name a tick of the workflow hands to the saver, at
    whatever state it stands, bootstrap accepts it as the last state name:
    it is the empty name or the name of a state of the workflow, and
    [BuildStateMachine] returns a machine whose current state bears that
    name, or [StartFresh] for the empty name. *)
Theorem workflow_persists_only_resumable_names client mdb secretWatcher cur w n
    client' mdb' secretWatcher' :
  saveCalls
    (traceOf
       (Machine_Reconcile
          (Machine_SetState (BuildStateMachine_graph client mdb secretWatcher)
             cur) w)) = [n] ->
  getLastStateName mdb' = (n, None) ->
  (n = EmptyString \/ n ∈ stateNames) /\
  exists s,
    BuildStateMachine client' mdb' secretWatcher'
    = (Some (Machine_SetState
               (BuildStateMachine_graph client' mdb' secretWatcher') s), None) /\
    Name s = (if String.eqb n EmptyString then startFreshStateName else n).
Proof.
  intros Hs Hn.
  assert (Hcases : n = EmptyString \/ n ∈ stateNames).
  { destruct (Machine_Reconcile_saved
                (Machine_SetState
                   (BuildStateMachine_graph client mdb secretWatcher) cur)
                cur w n eq_refl Hs) as [->|(x & Hx & ->)];
      [left; reflexivity|right].
    rewrite allTransitions_SetState in Hx.
    exact (proj2 (graph_targets_registered client mdb secretWatcher x
                    (Name cur) Hx)). }
  split; [exact Hcases|].
  rewrite (BuildStateMachine_unfold client' mdb' secretWatcher' n Hn). cbv zeta.
  assert (Hreg : (if String.eqb n EmptyString then startFreshStateName else n)
                 ∈ stateNames).
  { destruct Hcases as [->|Hin]; [left|].
    destruct (String.eqb n EmptyString); [left|exact Hin]. }
  apply (graph_registered client' mdb' secretWatcher') in Hreg
    as [s Hlook].
  rewrite Hlook. exists s. split; [reflexivity|].
  exact (States_built_named _ _ _
           (graph_built client' mdb' secretWatcher') Hlook).
Qed.

(** X25.  The two deploy states hand over to each other on opposite
    answers of [needToPublishStateFirst].  From [DeployStatefulSet], a
    resource that is still scaling goes to [UpdateStatus] unasked; otherwise
    a false answer gives [DeployAutomationConfig], and a true answer gives
    [ResetStatefulSetUpdateStrategy] during a version change and
    [UpdateStatus] else.  From [DeployAutomationConfig], a true answer gives
    [DeployStatefulSet], and a false answer gives
    [ResetStatefulSetUpdateStrategy] during a version change and
    [UpdateStatus] else. *)
Theorem deploy_states_branches client mdb secretWatcher w :
  let g := BuildStateMachine_graph client mdb secretWatcher in
  (scale_IsStillScaling mdb = true ->
   resolvedName g (NewDeployStatefulSetState client mdb) w
   = Some "UpdateStatus" /\
   worldOf (Machine_getTransitionForState g
              (NewDeployStatefulSetState client mdb) w) = w) /\
  (forall b w1 t1,
     needToPublishStateFirst client mdb w = (Val b, w1, t1) ->
     (scale_IsStillScaling mdb = false ->
      resolvedName g (NewDeployStatefulSetState client mdb) w
      = Some (if negb b then "DeployAutomationConfig"
              else if IsChangingVersion mdb
                   then "ResetStatefulSetUpdateStrategy"
                   else "UpdateStatus")) /\
     resolvedName g (NewDeployAutomationConfigState client mdb) w
     = Some (if b then "DeployStatefulSet"
             else if IsChangingVersion mdb
                  then "ResetStatefulSetUpdateStrategy"
                  else "UpdateStatus")).
Proof.
  cbv zeta. unfold resolvedName, Machine_getTransitionForState.
  rewrite !graph_transitions.
  destruct (scale_IsStillScaling mdb) eqn:Hs;
    cbn; unfold bind, call; cbn; rewrite ?Hs; cbn.
  - split; [intros _; split; reflexivity|].
    intros b w1 t1 Hb. split; [discriminate|].
    rewrite Hb. destruct b, (IsChangingVersion mdb); reflexivity.
  - split; [discriminate|].
    intros b w1 t1 Hb. rewrite Hb.
    split; [intros _|]; destruct b, (IsChangingVersion mdb); reflexivity.
Qed.

End Workflow.
End ControllersExtra.

(** ** The claims on the small pipeline *)

Module Witnesses.
Import state EngineProps ControllersProps Scenario.

Lemma resolveNext_first_true_guard_witness :
  firstTrue (default [] (allTransitions priorities !! Name A)) fresh
    (Some (mkTransition A C (FromBool true))) fresh
    ([Call (Predicate "A" "B") []] ++ [Call (Predicate "A" "C") []]) /\
  Machine_getTransitionForState priorities A fresh
    = (Val (Some (mkTransition A C (FromBool true))), fresh,
       [Call (Predicate "A" "B") []; Call (Predicate "A" "C") []]) /\
  saveCalls (traceOf (Reconcile_finish priorities A requeue true fresh))
    = ["C"].
Proof.
  assert (H : firstTrue (default [] (allTransitions priorities !! Name A)) fresh
                (Some (mkTransition A C (FromBool true))) fresh
                ([Call (Predicate "A" "B") []]
                 ++ [Call (Predicate "A" "C") []])).
  { apply (firstTrue_found [mkTransition A B (FromBool false)]
             (mkTransition A C (FromBool true))
             [mkTransition A D DirectTransition] fresh fresh
             [Call (Predicate "A" "B") []] fresh []).
    - apply (allFalse_cons (mkTransition A B (FromBool false)) []
               fresh fresh fresh [] []); [reflexivity|constructor].
    - reflexivity. }
  split; [exact H|].
  pose proof (resolveNext_first_true_guard priorities A requeue fresh _ _ _ H)
    as (Hrun & _ & _ & Hsave & _).
  split; [exact Hrun|exact Hsave].
Defined.

Lemma tick_action_error_witness :
  currentState (Machine_SetState pipeline Broken) = Some Broken /\
  Reconcile Broken fresh = (Val (requeue, Some "boom"), after "Broken" false, [])
  /\ resultOf (Machine_Reconcile (Machine_SetState pipeline Broken) fresh)
     = Val (requeue, Some "boom") /\
  resumePoint (worldOf (Machine_Reconcile (Machine_SetState pipeline Broken)
                          fresh)) = resumePoint fresh /\
  saveCalls (traceOf (Machine_Reconcile (Machine_SetState pipeline Broken)
                        fresh)) = [].
Proof.
  split; [reflexivity|]. split; [reflexivity|].
  pose proof (tick_action_error (Machine_SetState pipeline Broken) Broken fresh
                requeue "boom" (after "Broken" false) [] eq_refl eq_refl)
    as (Hrun & _ & Hsave & _).
  rewrite Hrun. split; [reflexivity|]. split; [reflexivity|].
  rewrite Hrun in Hsave. exact Hsave.
Defined.

Lemma tick_no_check_completes_witness :
  currentState (Machine_SetState pipeline Start) = Some Start /\
  IsComplete Start = None /\
  Reconcile Start fresh = (Val (requeue, None), after "Start" false, []) /\
  Machine_getTransitionForState (Machine_SetState pipeline Start) Start
    (after "Start" false)
  = (Val (Some (mkTransition Start Middle DirectTransition)),
     after "Start" false, [Call (Predicate "Start" "Middle") []]) /\
  SaveNextState (saver (Machine_SetState pipeline Start)) "Middle"
    (after "Start" false)
  = (Val None,
     {| isDone := false; resumePoint := "Middle"; executed := ["Start"] |},
     []) /\
  saveCalls (traceOf (Machine_Reconcile (Machine_SetState pipeline Start)
                        fresh)) = ["Middle"] /\
  Machine_Reconcile (Machine_SetState pipeline Start) fresh
  = (Val (requeue, None),
     {| isDone := false; resumePoint := "Middle"; executed := ["Start"] |},
     [Log InfoLevel "Reconciling state: [Start]";
      Sleep 2;
      Call (StateReconcile "Start") [];
      Log DebugLevel "Completed state: [Start]";
      Call (Predicate "Start" "Middle") [];
      Log DebugLevel "preparing transition [Start] -> [Middle]";
      Sleep 3;
      Call (SaverSaveNextState "Middle") []]) /\
  resumePoint (worldOf (Machine_Reconcile (Machine_SetState pipeline Start)
                          fresh)) = "Middle".
Proof.
  split; [reflexivity|]. split; [reflexivity|]. split; [reflexivity|].
  split; [reflexivity|]. split; [reflexivity|].
  pose proof (tick_no_check_completes (Machine_SetState pipeline Start) Start
                fresh requeue (after "Start" false) [] eq_refl eq_refl eq_refl)
    as (_ & _ & Hsave & Hpersist & _).
  pose proof (Hpersist (Some (mkTransition Start Middle DirectTransition))
                (after "Start" false) [Call (Predicate "Start" "Middle") []]
                (Val None)
                {| isDone := false; resumePoint := "Middle";
                   executed := ["Start"] |} []
                eq_refl eq_refl) as Hrun.
  split.
  - apply (Hsave (Some (mkTransition Start Middle DirectTransition))
             (after "Start" false) [Call (Predicate "Start" "Middle") []]).
    reflexivity.
  - split; [exact Hrun|]. rewrite Hrun. reflexivity.
Defined.

Lemma tick_incomplete_witness :
  currentState (Machine_SetState pipeline Middle) = Some Middle /\
  Reconcile Middle fresh = (Val (requeue, None), after "Middle" false, []) /\
  IsComplete Middle = Some (fun w => (Val (isDone w, None), w, [])) /\
  resultOf (Machine_Reconcile (Machine_SetState pipeline Middle) fresh)
    = Val (requeue, None) /\
  worldOf (Machine_Reconcile (Machine_SetState pipeline Middle) fresh)
    = after "Middle" false.
Proof.
  split; [reflexivity|]. split; [reflexivity|]. split; [reflexivity|].
  pose proof (tick_incomplete (Machine_SetState pipeline Middle) Middle fresh
                requeue (after "Middle" false) []
                (fun w => (Val (isDone w, None), w, []))
                (after "Middle" false) [] eq_refl eq_refl eq_refl eq_refl)
    as (Hrun & _).
  rewrite Hrun. split; reflexivity.
Defined.

Lemma tick_outcome_is_action_outcome_witness :
  Machine_Reconcile (Machine_SetState pipeline Start) fresh
    = (Val (requeue, None),
       {| isDone := false; resumePoint := "Middle"; executed := ["Start"] |},
       [Log InfoLevel "Reconciling state: [Start]";
        Sleep 2;
        Call (StateReconcile "Start") [];
        Log DebugLevel "Completed state: [Start]";
        Call (Predicate "Start" "Middle") [];
        Log DebugLevel "preparing transition [Start] -> [Middle]";
        Sleep 3;
        Call (SaverSaveNextState "Middle") []]) /\
  exists cur w1 t1,
    currentState (Machine_SetState pipeline Start) = Some cur /\
    Reconcile cur fresh = (Val (requeue, None), w1, t1).
Proof.
  split; [reflexivity|].
  exact (tick_outcome_is_action_outcome
           (Machine_SetState pipeline Start) fresh requeue _ _ eq_refl).
Defined.

Lemma tick_check_error_witness :
  currentState (Machine_SetState pipeline Unsure) = Some Unsure /\
  Reconcile Unsure fresh = (Val (requeue, None), after "Unsure" false, []) /\
  IsComplete Unsure = Some (ret (false, Some "cannot tell")) /\
  resultOf (Machine_Reconcile (Machine_SetState pipeline Unsure) fresh)
    = Val (reconcile.zero, Some "cannot tell") /\
  worldOf (Machine_Reconcile (Machine_SetState pipeline Unsure) fresh)
    = after "Unsure" false.
Proof.
  split; [reflexivity|]. split; [reflexivity|]. split; [reflexivity|].
  pose proof (tick_check_error (Machine_SetState pipeline Unsure) Unsure fresh
                requeue (after "Unsure" false) []
                (ret (false, Some "cannot tell")) false "cannot tell"
                (after "Unsure" false) [] eq_refl eq_refl eq_refl eq_refl)
    as (Hrun & _).
  rewrite Hrun. split; reflexivity.
Defined.


Lemma AddTransition_registers_and_appends_witness :
  wellFormed (NewStateMachine storeSaver) /\
  wellFormed (Machine_AddTransition (NewStateMachine storeSaver) Start Middle
                DirectTransition) /\
  allTransitions
    (Machine_AddTransition
       (Machine_AddTransition (NewStateMachine storeSaver) Start Middle
          DirectTransition)
       Start Middle DirectTransition) !! "Start"
  = Some [mkTransition Start Middle DirectTransition;
          mkTransition Start Middle DirectTransition].
Proof.
  pose proof (AddTransition_registers_and_appends (NewStateMachine storeSaver)
                Start Middle DirectTransition) as (_ & _ & Hwf & Hnew & _).
  split; [exact (Hnew storeSaver)|].
  split; [exact (Hwf (Hnew storeSaver))|].
  pose proof (AddTransition_registers_and_appends
                (Machine_AddTransition (NewStateMachine storeSaver) Start
                   Middle DirectTransition)
                Start Middle DirectTransition) as (_ & (Happ & _) & _).
  exact Happ.
Defined.

Lemma BuildStateMachine_starting_state_witness :
  controllers.getLastStateName
    (resource (Some {[controllers.stateMachineAnnotation := "Bogus"]}))
    = ("Bogus", None) /\
  controllers.BuildStateMachine client
    (resource (Some {[controllers.stateMachineAnnotation := "Bogus"]})) tt
    = (None,
       Some ("attempted to set starting state to Bogus, "
               +:+ "but it was not registered with the State Machine!")) /\
  controllers.getLastStateName (resource None) = (EmptyString, None) /\
  option_map (fun sm => option_map Name (currentState sm))
    (fst (controllers.BuildStateMachine client (resource None) tt))
    = Some (Some "StartFresh").
Proof.
  split; [reflexivity|].
  pose proof (BuildStateMachine_starting_state client
                (resource (Some {[controllers.stateMachineAnnotation := "Bogus"]}))
                tt "Bogus" eq_refl) as (_ & _ & Hbad & _).
  split.
  { apply Hbad; [discriminate|].
    unfold controllers.stateNames. intros Hin.
    repeat (apply elem_of_cons in Hin as [Hin|Hin]; [discriminate Hin|]).
    inversion Hin. }
  split; [reflexivity|].
  pose proof (BuildStateMachine_starting_state client (resource None) tt
                EmptyString eq_refl) as (Hfresh & _).
  rewrite (Hfresh eq_refl). reflexivity.
Defined.

Lemma ReconciliationEnd_resets_progress_witness :
  Reconcile (controllers.NewReconciliationEndState client (resource None)) fresh
    = (Val (reconcile.zero, None),
       {| isDone := false; resumePoint := "StartFresh"; executed := [] |},
       [Log InfoLevel "Successfully finished reconciliation"]) /\
  exists bytes t1,
    controllers.json_Marshal controllers.newAllStates = (bytes, None) /\
    NextState controllers.newAllStates = "StartFresh" /\
    controllers.Update client
      (controllers.setAnnotation (resource None)
         controllers.stateMachineAnnotation bytes) fresh
      = (Val None,
         {| isDone := false; resumePoint := "StartFresh"; executed := [] |},
         t1).
Proof.
  assert (H : Reconcile (controllers.NewReconciliationEndState client
                           (resource None)) fresh
              = (Val (reconcile.zero, None),
                 {| isDone := false; resumePoint := "StartFresh";
                    executed := [] |},
                 [Log InfoLevel "Successfully finished reconciliation"]))
    by reflexivity.
  split; [exact H|].
  pose proof (ReconciliationEnd_resets_progress client (resource None) fresh
                _ _ _ H) as ((bytes & t1 & Hm & Hn & Hu & _) & _).
  exists bytes, t1. split; [exact Hm|]. split; [exact Hn|exact Hu].
Defined.

End Witnesses.

(** ** The further properties on the small pipeline *)

Module ExtraWitnesses.
Import state EngineProps EngineExtra Scenario ExtraScenario.

Lemma tick_bounded_witness :
  currentState (Machine_SetState priorities A) = Some A /\
  actionCalls (traceOf (Machine_Reconcile (Machine_SetState priorities A) fresh))
  = ["A"] /\
  guardCalls (traceOf (Machine_Reconcile (Machine_SetState priorities A) fresh))
  `prefix_of` [("A", "B"); ("A", "C"); ("A", "D")].
Proof.
  split; [reflexivity|].
  destruct (tick_bounded (Machine_SetState priorities A) A fresh eq_refl)
    as (Ha & _ & Hg).
  split; [exact Ha|exact Hg].
Defined.

Lemma tick_effects_only_when_complete_witness :
  currentState (Machine_SetState pipeline Start) = Some Start /\
  saveCalls (traceOf (Machine_Reconcile (Machine_SetState pipeline Start) fresh))
  <> [] /\
  exists res w1 t1 w2 t2,
    Reconcile Start fresh = (Val (res, None), w1, t1) /\
    completes Start w1 w2 t2.
Proof.
  assert (H : saveCalls (traceOf (Machine_Reconcile
                                    (Machine_SetState pipeline Start) fresh))
              <> []) by discriminate.
  split; [reflexivity|]. split; [exact H|].
  exact (tick_effects_only_when_complete (Machine_SetState pipeline Start)
           Start fresh eq_refl (or_intror H)).
Defined.

Lemma tick_complete_then_save_witness :
  currentState (Machine_SetState unsaved Start) = Some Start /\
  Reconcile Start fresh = (Val (requeue, None), after "Start" false, []) /\
  completes Start (after "Start" false) (after "Start" false) [] /\
  Machine_getTransitionForState (Machine_SetState unsaved Start) Start
    (after "Start" false)
  = (Val (Some (mkTransition Start Middle DirectTransition)),
     after "Start" false, [Call (Predicate "Start" "Middle") []]) /\
  SaveNextState failingSaver "Middle" (after "Start" false)
  = (Val (Some "store is down"), after "Start" false, []) /\
  resultOf (Machine_Reconcile (Machine_SetState unsaved Start) fresh)
  = Val (reconcile.zero, Some "store is down") /\
  executed (worldOf (Machine_Reconcile (Machine_SetState unsaved Start) fresh))
  = ["Start"].
Proof.
  assert (Hk : completes Start (after "Start" false) (after "Start" false) [])
    by (apply completes_no_check; reflexivity).
  split; [reflexivity|]. split; [reflexivity|]. split; [exact Hk|].
  split; [reflexivity|]. split; [reflexivity|].
  destruct (tick_complete_then_save (Machine_SetState unsaved Start) Start fresh
              requeue (after "Start" false) [] (after "Start" false) []
              (Some (mkTransition Start Middle DirectTransition))
              (after "Start" false) [Call (Predicate "Start" "Middle") []]
              (Some "store is down") (after "Start" false) []
              eq_refl eq_refl Hk eq_refl eq_refl) as (Hrun & _).
  rewrite Hrun. split; reflexivity.
Defined.

Lemma tick_without_transitions_witness :
  currentState (Machine_SetState pipeline End) = Some End /\
  Reconcile End fresh = (Val (reconcile.zero, None), after "End" false, []) /\
  completes End (after "End" false) (after "End" false) [] /\
  default [] (allTransitions (Machine_SetState pipeline End) !! Name End) = [] /\
  saveCalls (traceOf (Machine_Reconcile (Machine_SetState pipeline End) fresh))
  = [EmptyString] /\
  SaveNextState (saver (Machine_SetState unsaved End)) EmptyString
    (after "End" false)
  = (Val (Some "store is down"), after "End" false, []) /\
  resultOf (Machine_Reconcile (Machine_SetState unsaved End) fresh)
  = Val (reconcile.zero, Some "store is down").
Proof.
  assert (Hk : completes End (after "End" false) (after "End" false) [])
    by (apply completes_no_check; reflexivity).
  split; [reflexivity|]. split; [reflexivity|]. split; [exact Hk|].
  split; [reflexivity|].
  destruct (tick_without_transitions (Machine_SetState pipeline End) End fresh
              reconcile.zero (after "End" false) [] (after "End" false) []
              eq_refl eq_refl Hk eq_refl) as (_ & _ & Hs & _).
  split; [exact Hs|]. split; [reflexivity|].
  destruct (tick_without_transitions (Machine_SetState unsaved End) End fresh
              reconcile.zero (after "End" false) [] (after "End" false) []
              eq_refl eq_refl Hk eq_refl) as (_ & _ & _ & Hrun).
  rewrite (Hrun (Val (Some "store is down")) (after "End" false) [] eq_refl).
  reflexivity.
Defined.

Lemma resolution_with_constant_guards_witness :
  default [] (allTransitions priorities !! Name A)
  = [mkTransition A B (FromBool false); mkTransition A C (FromBool true);
     mkTransition A D DirectTransition] /\
  Forall2 (fun x b => predicate x = FromBool b)
    [mkTransition A B (FromBool false); mkTransition A C (FromBool true);
     mkTransition A D DirectTransition] [false; true; true] /\
  resultOf (Machine_getTransitionForState priorities A fresh)
  = Val (Some (mkTransition A C (FromBool true))).
Proof.
  assert (Hf : Forall2 (fun x b => predicate x = FromBool b)
                 [mkTransition A B (FromBool false);
                  mkTransition A C (FromBool true);
                  mkTransition A D DirectTransition] [false; true; true])
    by (repeat constructor).
  split; [reflexivity|]. split; [exact Hf|].
  exact (proj1 (resolution_with_constant_guards priorities A _ _ fresh
                  eq_refl Hf)).
Defined.

Lemma AddTransitions_keeps_call_order_witness :
  built (NewStateMachine storeSaver) /\
  default []
    (allTransitions
       (AddTransitions (NewStateMachine storeSaver)
          [(A, B, FromBool false); (Start, Middle, DirectTransition);
           (A, C, FromBool true); (A, B, FromBool false)]) !! "A")
  = [mkTransition A B (FromBool false); mkTransition A C (FromBool true);
     mkTransition A B (FromBool false)] /\
  built (AddTransitions (NewStateMachine storeSaver)
           [(A, B, FromBool false); (Start, Middle, DirectTransition);
            (A, C, FromBool true); (A, B, FromBool false)]).
Proof.
  assert (Hb : built (NewStateMachine storeSaver)) by constructor.
  split; [exact Hb|].
  destruct (AddTransitions_keeps_call_order (NewStateMachine storeSaver)
              [(A, B, FromBool false); (Start, Middle, DirectTransition);
               (A, C, FromBool true); (A, B, FromBool false)] "A")
    as (Ht & _ & _ & Hbuilt).
  split; [exact Ht|exact (Hbuilt Hb)].
Defined.

Lemma AddTransition_keeps_registry_faithful_witness :
  faithful (NewStateMachine storeSaver) /\
  (forall s, States (NewStateMachine storeSaver) !! Name Start = Some s ->
             s = Start) /\
  (forall s, States (NewStateMachine storeSaver) !! Name Middle = Some s ->
             s = Middle) /\
  (Name Start = Name Middle -> Start = Middle) /\
  faithful (Machine_AddTransition (NewStateMachine storeSaver) Start Middle
              DirectTransition).
Proof.
  assert (H0 : faithful (NewStateMachine storeSaver)).
  { intros k xs x Hk. cbn [NewStateMachine allTransitions] in Hk.
    rewrite lookup_empty in Hk. discriminate Hk. }
  assert (H1 : forall s, States (NewStateMachine storeSaver) !! Name Start
                         = Some s -> s = Start).
  { intros s Hs. cbn [NewStateMachine States] in Hs.
    rewrite lookup_empty in Hs. discriminate Hs. }
  assert (H2 : forall s, States (NewStateMachine storeSaver) !! Name Middle
                         = Some s -> s = Middle).
  { intros s Hs. cbn [NewStateMachine States] in Hs.
    rewrite lookup_empty in Hs. discriminate Hs. }
  assert (H3 : Name Start = Name Middle -> Start = Middle) by discriminate.
  split; [exact H0|]. split; [exact H1|]. split; [exact H2|].
  split; [exact H3|].
  exact (proj1 (AddTransition_keeps_registry_faithful
                  (NewStateMachine storeSaver) Start Middle DirectTransition
                  H0 H1 H2 H3)).
Defined.

Lemma AddTransitions_last_registration_wins_witness :
  option_map Name
    (States (AddTransitions (NewStateMachine storeSaver)
               [(Start, Middle, DirectTransition);
                (Start, Impostor, DirectTransition)]) !! "Middle")
  = Some "Middle" /\
  option_map (fun s => executed (worldOf (Reconcile s fresh)))
    (States (AddTransitions (NewStateMachine storeSaver)
               [(Start, Middle, DirectTransition);
                (Start, Impostor, DirectTransition)]) !! "Middle")
  = Some ["Impostor"].
Proof.
  rewrite (AddTransitions_last_registration_wins (NewStateMachine storeSaver)
             [(Start, Middle, DirectTransition);
              (Start, Impostor, DirectTransition)] "Middle").
  split; reflexivity.
Defined.

Lemma resolution_with_fallback_witness :
  mkTransition A D DirectTransition
    ∈ default [] (allTransitions withFallback !! Name A) /\
  predicate (mkTransition A D DirectTransition) = DirectTransition /\
  Machine_getTransitionForState withFallback A fresh
  = (Val (Some (mkTransition A D DirectTransition)), fresh,
     [Call (Predicate "A" "B") []; Call (Predicate "A" "C") [];
      Call (Predicate "A" "D") []]) /\
  resolvedName withFallback A fresh = Some "D".
Proof.
  assert (Hin : mkTransition A D DirectTransition
                  ∈ default [] (allTransitions withFallback !! Name A)).
  { apply list_elem_of_In. right. right. left. reflexivity. }
  split; [exact Hin|]. split; [reflexivity|]. split; [reflexivity|].
  destruct (resolution_with_fallback withFallback A fresh _ _ _
              (mkTransition A D DirectTransition) Hin eq_refl eq_refl)
    as (y & Hy & _ & Hname).
  injection Hy as <-. exact Hname.
Defined.

Lemma tick_saves_a_registered_name_witness :
  wellFormed (Machine_SetState pipeline Start) /\
  currentState (Machine_SetState pipeline Start) = Some Start /\
  saveCalls (traceOf (Machine_Reconcile (Machine_SetState pipeline Start) fresh))
  = ["Middle"] /\
  is_Some (States (Machine_SetState pipeline Start) !! "Middle").
Proof.
  assert (Hwf : wellFormed (Machine_SetState pipeline Start)).
  { apply wellFormed_built. unfold pipeline. repeat constructor. }
  split; [exact Hwf|]. split; [reflexivity|]. split; [reflexivity|].
  destruct (tick_saves_a_registered_name (Machine_SetState pipeline Start)
              Start fresh "Middle" Hwf eq_refl eq_refl) as [H|(H & _)].
  - discriminate H.
  - exact H.
Defined.

End ExtraWitnesses.

(** ** The further properties on the workflow *)

Module WorkflowWitnesses.

(** With the externals of the scenario. *)
Module Plain.
Import state controllers EngineProps ControllersProps ControllersExtra.
Import Scenario ExtraScenario.

Lemma workflow_fallback_states_never_stop_witness :
  "DeployStatefulSet" ∈ fallbackStateNames /\
  States (BuildStateMachine_graph client (resource None) tt)
    !! "DeployStatefulSet"
  = Some (NewDeployStatefulSetState client (resource None)) /\
  Machine_getTransitionForState
    (BuildStateMachine_graph client (resource None) tt)
    (NewDeployStatefulSetState client (resource None)) fresh
  = (Val (Some (mkTransition
                  (NewDeployStatefulSetState client (resource None))
                  (NewDeployAutomationConfigState client (resource None))
                  (bind (needToPublishStateFirst client (resource None))
                     (fun b => ret (negb b))))),
     fresh,
     [Call (Predicate "DeployStatefulSet" "UpdateStatus") [];
      Call (Predicate "DeployStatefulSet" "DeployAutomationConfig") []]) /\
  exists y,
    Some (mkTransition
            (NewDeployStatefulSetState client (resource None))
            (NewDeployAutomationConfigState client (resource None))
            (bind (needToPublishStateFirst client (resource None))
               (fun b => ret (negb b)))) = Some y /\
    Name (from y) = "DeployStatefulSet" /\ Name (to y) ∈ stateNames /\
    Name (to y) <> EmptyString.
Proof.
  assert (Hn : "DeployStatefulSet" ∈ fallbackStateNames).
  { unfold fallbackStateNames. apply list_elem_of_In.
    do 4 right. left. reflexivity. }
  split; [exact Hn|]. split; [reflexivity|]. split; [reflexivity|].
  exact (workflow_fallback_states_never_stop client (resource None) tt
           "DeployStatefulSet"
           (NewDeployStatefulSetState client (resource None)) fresh
           _ _ _ Hn eq_refl eq_refl).
Defined.

Lemma ReconciliationEnd_tick_saves_empty_name_witness :
  Reconcile (NewReconciliationEndState client (resource None)) fresh
  = (Val (reconcile.zero, None),
     {| isDone := false; resumePoint := "StartFresh"; executed := [] |},
     [Log InfoLevel "Successfully finished reconciliation"]) /\
  saveCalls
    (traceOf
       (Machine_Reconcile
          (Machine_SetState (BuildStateMachine_graph client (resource None) tt)
             (NewReconciliationEndState client (resource None))) fresh))
  = [EmptyString] /\
  resumePoint
    (worldOf
       (Machine_Reconcile
          (Machine_SetState (BuildStateMachine_graph client (resource None) tt)
             (NewReconciliationEndState client (resource None))) fresh))
  = EmptyString.
Proof.
  assert (H : Reconcile (NewReconciliationEndState client (resource None))
                fresh
              = (Val (reconcile.zero, None),
                 {| isDone := false; resumePoint := "StartFresh";
                    executed := [] |},
                 [Log InfoLevel "Successfully finished reconciliation"]))
    by reflexivity.
  split; [exact H|].
  destruct (ReconciliationEnd_tick_saves_empty_name client (resource None) tt
              fresh _ _ _ H) as (_ & Hs & _ & Hsaved).
  split; [exact Hs|].
  destruct (Hsaved (Val None)
              {| isDone := false; resumePoint := EmptyString; executed := [] |}
              [] eq_refl) as (_ & Hw).
  rewrite Hw. reflexivity.
Defined.

Lemma workflow_persists_only_resumable_names_witness :
  saveCalls
    (traceOf
       (Machine_Reconcile
          (Machine_SetState (BuildStateMachine_graph client (resource None) tt)
             (NewStartFreshState (resource None))) fresh))
  = ["ValidateSpec"] /\
  getLastStateName
    (resource (Some {[stateMachineAnnotation := "ValidateSpec"]}))
  = ("ValidateSpec", None) /\
  exists s,
    BuildStateMachine client
      (resource (Some {[stateMachineAnnotation := "ValidateSpec"]})) tt
    = (Some (Machine_SetState
               (BuildStateMachine_graph client
                  (resource (Some {[stateMachineAnnotation := "ValidateSpec"]}))
                  tt) s), None) /\
    Name s = "ValidateSpec".
Proof.
  split; [reflexivity|]. split; [reflexivity|].
  exact (proj2 (workflow_persists_only_resumable_names client (resource None)
                  tt (NewStartFreshState (resource None)) fresh "ValidateSpec"
                  client
                  (resource (Some {[stateMachineAnnotation := "ValidateSpec"]}))
                  tt eq_refl eq_refl)).
Defined.

End Plain.

(** With externals that reject the resource. *)
Module Rejected.
Import state controllers EngineProps ControllersProps ControllersExtra.
Import ExtraScenario ExtraScenario.Rejecting.

Lemma BuildStateMachine_result_witness :
  getLastStateName
    (Scenario.resource (Some {[stateMachineAnnotation := "corrupt"]}))
  = (EmptyString, Some "cannot decode") /\
  BuildStateMachine Scenario.client
    (Scenario.resource (Some {[stateMachineAnnotation := "corrupt"]})) tt
  = (None,
     Some ("error fetching last state name from MongoDBCommunity annotations: "
             +:+ "cannot decode")).
Proof.
  split; [reflexivity|].
  exact (proj2 (BuildStateMachine_result Scenario.client
                  (Scenario.resource
                     (Some {[stateMachineAnnotation := "corrupt"]})) tt)
           EmptyString "cannot decode" eq_refl).
Defined.

Lemma ensureService_adopts_existing_witness :
  Create (clientWith (Some "already exists") None)
    (buildService (Scenario.resource None)) Scenario.fresh
  = (Val (Some "already exists"), Scenario.fresh, []) /\
  resultOf (ensureService (clientWith (Some "already exists") None)
              (Scenario.resource None) Scenario.fresh) = Val None /\
  resultOf (ensureService (clientWith (Some "forbidden") None)
              (Scenario.resource None) Scenario.fresh)
  = Val (Some "forbidden").
Proof.
  split; [reflexivity|]. split.
  - exact (proj1 (ensureService_adopts_existing
                    (clientWith (Some "already exists") None)
                    (Scenario.resource None) Scenario.fresh
                    (Some "already exists") Scenario.fresh [] eq_refl)).
  - exact (proj1 (ensureService_adopts_existing
                    (clientWith (Some "forbidden") None)
                    (Scenario.resource None) Scenario.fresh
                    (Some "forbidden") Scenario.fresh [] eq_refl)).
Defined.

Lemma CreateService_check_never_waits_witness :
  GetService (clientWith None (Some "not found"))
    {| types.Name := ServiceName (Scenario.resource None);
       types.Namespace := Namespace (Scenario.resource None) |} Scenario.fresh
  = (Val (tt, Some "not found"), Scenario.fresh, []) /\
  exists check,
    IsComplete (NewCreateServiceState (clientWith None (Some "not found"))
                  (Scenario.resource None)) = Some check /\
    check Scenario.fresh
    = (Val (false, Some "not found"), Scenario.fresh, []).
Proof.
  split; [reflexivity|].
  destruct (CreateService_check_never_waits
              (clientWith None (Some "not found")) (Scenario.resource None)
              Scenario.fresh tt (Some "not found") Scenario.fresh [] eq_refl)
    as (check & Hi & Hc & _).
  exists check. split; [exact Hi|exact Hc].
Defined.

Lemma UpdateStatus_drops_annotation_errors_witness :
  scale_IsStillScaling (Scenario.resource None) = false /\
  annotations_UpdateLastAppliedMongoDBVersion (Scenario.resource None)
    Scenario.client Scenario.fresh
  = (Val (Scenario.resource None, Some "no version annotation"),
     Scenario.fresh, []) /\
  updateLastSuccessfulConfiguration Scenario.client (Scenario.resource None)
    Scenario.fresh
  = (Val (Some "no spec annotation"), Scenario.fresh, []) /\
  resultOf (Reconcile (NewUpdateStatusState Scenario.client
                         (Scenario.resource None)) Scenario.fresh)
  = Val (result_Retry 0).
Proof.
  split; [reflexivity|]. split; [reflexivity|]. split; [reflexivity|].
  exact (proj1 (UpdateStatus_drops_annotation_errors Scenario.client
                  (Scenario.resource None) Scenario.fresh
                  (Scenario.resource None) Scenario.requeue Scenario.fresh []
                  (Scenario.resource None) (Some "no version annotation")
                  Scenario.fresh [] (Some "no spec annotation")
                  Scenario.fresh [] eq_refl eq_refl eq_refl eq_refl)).
Defined.

Lemma DeployAutomationConfig_check_tolerates_not_found_witness :
  GetStatefulSet (clientWith None (Some "not found"))
    (NamespacedName (Scenario.resource None)) Scenario.fresh
  = (Val (tt, Some "not found"), Scenario.fresh, []) /\
  apiErrors_IsNotFound "not found" = true /\
  ensureAutomationConfig (clientWith None (Some "not found"))
    (Scenario.resource None) Scenario.fresh
  = (Val (tt, None), Scenario.fresh, []) /\
  exists check,
    IsComplete (NewDeployAutomationConfigState
                  (clientWith None (Some "not found"))
                  (Scenario.resource None)) = Some check /\
    resultOf (check Scenario.fresh) = Val (true, None).
Proof.
  split; [reflexivity|]. split; [reflexivity|]. split; [reflexivity|].
  destruct (DeployAutomationConfig_check_tolerates_not_found
              (clientWith None (Some "not found")) (Scenario.resource None)
              Scenario.fresh tt (Some "not found") Scenario.fresh [] eq_refl)
    as (check & Hi & _ & Hgo).
  exists check. split; [exact Hi|].
  exact (proj1 (Hgo (or_intror (ex_intro _ "not found"
                                  (conj eq_refl eq_refl)))
                  tt None Scenario.fresh [] eq_refl)).
Defined.

Lemma ValidateSpec_failure_is_reported_through_status_witness :
  validateUpdate (Scenario.resource None) Scenario.fresh
  = (Val (Some "invalid"), Scenario.fresh, []) /\
  status_Update Scenario.client (Scenario.resource None)
    [withMessage severity.Error ("error validating new Spec: " +:+ "invalid");
     withFailedPhase] Scenario.fresh
  = (Val (Scenario.resource None, (Scenario.requeue, None)),
     Scenario.fresh, []) /\
  resultOf (Reconcile (NewValidateSpecState Scenario.client
                         (Scenario.resource None)) Scenario.fresh)
  = Val (Scenario.requeue, None) /\
  saveCalls
    (traceOf
       (Machine_Reconcile
          (Machine_SetState
             (BuildStateMachine_graph Scenario.client (Scenario.resource None)
                tt)
             (NewValidateSpecState Scenario.client (Scenario.resource None)))
          Scenario.fresh))
  = ["CreateService"] /\
  Scenario.resumePoint
    (worldOf
       (Machine_Reconcile
          (Machine_SetState
             (BuildStateMachine_graph Scenario.client (Scenario.resource None)
                tt)
             (NewValidateSpecState Scenario.client (Scenario.resource None)))
          Scenario.fresh))
  = "CreateService".
Proof.
  assert (Hv : validateUpdate (Scenario.resource None) Scenario.fresh
               = (Val (Some "invalid"), Scenario.fresh, [])) by reflexivity.
  assert (Hu : status_Update Scenario.client (Scenario.resource None)
                 [withMessage severity.Error
                    ("error validating new Spec: " +:+ "invalid");
                  withFailedPhase] Scenario.fresh
               = (Val (Scenario.resource None, (Scenario.requeue, None)),
                  Scenario.fresh, [])) by reflexivity.
  split; [exact Hv|]. split; [exact Hu|].
  destruct (ValidateSpec_failure_is_reported_through_status Scenario.client
              (Scenario.resource None) tt Scenario.fresh "invalid"
              Scenario.fresh [] (Scenario.resource None)
              (Scenario.requeue, None) Scenario.fresh [] Hv Hu)
    as (Hr & _ & Hs & _ & Hsaved).
  split; [exact Hr|]. split; [exact (Hs eq_refl)|].
  destruct (Hsaved eq_refl (Val None)
              {| Scenario.isDone := false;
                 Scenario.resumePoint := "CreateService";
                 Scenario.executed := [] |} [] eq_refl) as (_ & Hw).
  rewrite Hw. reflexivity.
Defined.

Lemma deploy_states_branches_witness :
  scale_IsStillScaling (Scenario.resource None) = false /\
  needToPublishStateFirst Scenario.client (Scenario.resource None)
    Scenario.fresh = (Val false, Scenario.fresh, []) /\
  resolvedName
    (BuildStateMachine_graph Scenario.client (Scenario.resource None) tt)
    (NewDeployStatefulSetState Scenario.client (Scenario.resource None))
    Scenario.fresh = Some "DeployAutomationConfig" /\
  resolvedName
    (BuildStateMachine_graph Scenario.client (Scenario.resource None) tt)
    (NewDeployAutomationConfigState Scenario.client (Scenario.resource None))
    Scenario.fresh = Some "UpdateStatus".
Proof.
  assert (Hs : scale_IsStillScaling (Scenario.resource None) = false)
    by reflexivity.
  assert (Hb : needToPublishStateFirst Scenario.client (Scenario.resource None)
                 Scenario.fresh = (Val false, Scenario.fresh, []))
    by reflexivity.
  split; [exact Hs|]. split; [exact Hb|].
  destruct (deploy_states_branches Scenario.client (Scenario.resource None) tt
              Scenario.fresh) as (_ & H).
  destruct (H false Scenario.fresh [] Hb) as (Hsts & Hac).
  split; [exact (Hsts Hs)|exact Hac].
Defined.

End Rejected.

(** With externals whose answer turns. *)
Module Flipped.
Import state controllers EngineProps ControllersProps ControllersExtra.
Import ExtraScenario ExtraScenario.Flipping.

Lemma CreateService_branches_witness :
  TLSEnabled (Spec (Scenario.resource None)) = false /\
  needToPublishStateFirst Scenario.client (Scenario.resource None)
    Scenario.fresh
  = (Val false,
     {| Scenario.isDone := true; Scenario.resumePoint := EmptyString;
        Scenario.executed := [] |}, []) /\
  needToPublishStateFirst Scenario.client (Scenario.resource None)
    {| Scenario.isDone := true; Scenario.resumePoint := EmptyString;
       Scenario.executed := [] |}
  = (Val true,
     {| Scenario.isDone := true; Scenario.resumePoint := EmptyString;
        Scenario.executed := [] |}, []) /\
  resolvedName
    (BuildStateMachine_graph Scenario.client (Scenario.resource None) tt)
    (NewCreateServiceState Scenario.client (Scenario.resource None))
    Scenario.fresh = Some EmptyString.
Proof.
  assert (Ht : TLSEnabled (Spec (Scenario.resource None)) = false)
    by reflexivity.
  assert (H1 : needToPublishStateFirst Scenario.client (Scenario.resource None)
                 Scenario.fresh
               = (Val false,
                  {| Scenario.isDone := true;
                     Scenario.resumePoint := EmptyString;
                     Scenario.executed := [] |}, [])) by reflexivity.
  assert (H2 : needToPublishStateFirst Scenario.client (Scenario.resource None)
                 {| Scenario.isDone := true;
                    Scenario.resumePoint := EmptyString;
                    Scenario.executed := [] |}
               = (Val true,
                  {| Scenario.isDone := true;
                     Scenario.resumePoint := EmptyString;
                     Scenario.executed := [] |}, [])) by reflexivity.
  split; [exact Ht|]. split; [exact H1|]. split; [exact H2|].
  destruct (CreateService_branches Scenario.client (Scenario.resource None) tt
              Scenario.fresh) as (_ & H).
  destruct (H Ht false _ [] H1) as (_ & Hfalse).
  exact (proj1 (Hfalse eq_refl true _ [] H2)).
Defined.

End Flipped.

(** With externals whose [json.Marshal] fails. *)
Module Unmarshalled.
Import state controllers EngineProps ControllersProps ControllersExtra.
Import ExtraScenario ExtraScenario.Unmarshalable.

Lemma ReconciliationEnd_failures_witness :
  json_Marshal newAllStates = ("StartFresh", Some "cannot marshal") /\
  Reconcile (NewReconciliationEndState Scenario.client (Scenario.resource None))
    Scenario.fresh
  = (Val (reconcile.zero, Some "cannot marshal"), Scenario.fresh,
     [Log ErrorLevel ("error marshalling states: " +:+ "cannot marshal")]) /\
  saveCalls
    (traceOf
       (Machine_Reconcile
          (Machine_SetState
             (BuildStateMachine_graph Scenario.client (Scenario.resource None)
                tt)
             (NewReconciliationEndState Scenario.client
                (Scenario.resource None))) Scenario.fresh))
  = [].
Proof.
  assert (Hj : json_Marshal newAllStates
               = ("StartFresh", Some "cannot marshal")) by reflexivity.
  split; [exact Hj|].
  destruct (ReconciliationEnd_failures Scenario.client (Scenario.resource None)
              tt Scenario.fresh "StartFresh") as (Hm & _ & Htick).
  pose proof (Hm "cannot marshal" Hj) as Hrun.
  split; [exact Hrun|].
  exact (proj2 (Htick "cannot marshal" _ _ Hrun)).
Defined.

End Unmarshalled.

End WorkflowWitnesses.
